(** * k8watch: change detection and event pipeline

    A shallow embedding of the event store ([internal/storage]), the Slack
    notifier ([internal/notifier]), the image extraction of [internal/diff]
    and the nine resource watchers ([internal/watcher]), with the properties
    of the specification proved, or refuted, on the embedding.

    Conventions of the embedding.
    - Go's [int], [int32] and [int64] values are [Z]; the code compares and
      prints them, and negates one, which is written with its wrap-around
      ([wrap], for the 64-bit [int]).
    - Go strings are [string] (sequences of bytes); [[]byte] is
      [list Byte.byte].
    - A [time.Time] is a [Time]: its instant, counted in nanoseconds from
      Go's zero time, so that [IsZero] is comparison of the instant with [0],
      and the offset of its zone.  [time.Now()] is an explicit argument
      [now].
    - A Go [map[string]V] is a [gmap string V]; [for k := range m] visits
      [map_to_list m].  Go leaves the visiting order unspecified; the model
      fixes the one of the finite map, which depends on the key set only.
    - A pointer that may be [nil] is an [option].
    - The SQLite table is the list of its rows.  The driver writes a
      [time.Time] as text, formatted in the value's own zone, and SQLite
      compares and orders the [timestamp] column as text, byte by byte
      ([String.leb], [String.ltb]).  A row read back carries the instant and
      the offset it was written with.
    - An object handed to a callback of an informer is an [interface{}]:
      the nil interface, a pointer to a resource, or the tombstone
      [cache.DeletedFinalStateUnknown] ([watcher.Object]).
    - What the program takes from outside is a parameter: SQLite's [LIKE],
      the driver's rendering of a time, [time.Time.AddDate], [strconv.Atoi],
      [time.Parse], the escaping of JSON strings, and the answer of the
      Slack webhook.
    - [log.Printf] lines are not part of the state. *)

From Stdlib Require Import ZArith String Ascii List Lia Sorting.Sorted.
From stdpp Require Import base option gmap strings list pretty sorting.

(** A [time.Time]: the instant, in nanoseconds since Go's zero time
    (January 1 of year 1, 00:00:00 UTC), and the offset of the zone the
    value is in, in seconds east of UTC. *)
Record Time := { instant : Z; zone : Z }.

(** The time at an instant, in UTC.  [UTC 0] is the zero value
    [time.Time{}]. *)
Definition UTC (ns : Z) : Time := {| instant := ns; zone := 0 |}.

(** [time.Hour], in nanoseconds. *)
Definition Hour : Z := 3600000000000.

(** The value of an [int] expression after Go's wrap-around, for the
    64-bit [int]. *)
Definition wrap (x : Z) : Z := ((x + 2 ^ 63) mod 2 ^ 64 - 2 ^ 63)%Z.

(** Go's [error] values, kept as their message. *)
Definition error := string.

(** * Formatting: the fragment of [fmt] and [strings] the program uses *)

Module fmt.

(** The line feed of Go's ["\n"]. *)
Definition nl : string := String "010"%char EmptyString.

(** The double quote. *)
Definition dq : string := String "034"%char EmptyString.

(** [%d] on an integer. *)
Definition d (n : Z) : string := pretty n.

(** [strings.Join]. *)
Fixpoint Join (elems : list string) (sep : string) : string :=
  match elems with
  | [] => ""
  | [s] => s
  | s :: rest => s +:+ sep +:+ Join rest sep
  end.

(** [%v] on a [[]string]: the elements between brackets, separated by
    blanks. *)
Definition v_strings (l : list string) : string :=
  "[" +:+ Join l " " +:+ "]".

(** [%v] on a [bool]. *)
Definition v_bool (b : bool) : string := if b then "true" else "false".

Definition key_le (a b : string * string) : Prop := String.leb a.1 b.1 = true.

#[global] Instance key_le_dec a b : Decision (key_le a b).
Proof. unfold key_le. apply _. Defined.

(** [%v] on a [map[string]string]: [map[k1:v1 k2:v2]] with the keys in
    increasing order; a nil map prints as an empty one. *)
Definition v_map (m : gmap string string) : string :=
  let sorted := merge_sort key_le (map_to_list m) in
  "map[" +:+ Join (map (λ kv : string * string, kv.1 +:+ ":" +:+ kv.2) sorted) " " +:+ "]".

End fmt.

(** * The event store ([internal/storage]) *)

Module storage.

Local Open Scope Z_scope.

(** [models.go]: the unit of record. *)
Record ChangeEvent := {
  ID : Z;
  Timestamp : Time;
  Namespace : string;
  Kind : string;
  Name : string;
  Action : string;
  Diff : string;
  Metadata : string;
  ImageBefore : string;
  ImageAfter : string
}.

(** [models.go]: query filters. *)
Record Filter := {
  fNamespace : string;
  fKind : string;
  fName : string;
  fAction : string;
  StartTime : Time;
  EndTime : Time;
  Limit : Z;
  Offset : Z
}.

Definition IsZero (t : Time) : bool := instant t =? 0.

(** ** The SQL the store issues

    The statements the code assembles are kept as syntax: a list of
    [AND]-ed conditions, and for [SELECT] the ordering, [LIMIT] and
    [OFFSET] clauses in the order they are appended to the query text. *)

Inductive cond :=
| namespace_eq (s : string)
| kind_eq (s : string)
| name_eq (s : string)
| name_like (pattern : string)
| action_eq (s : string)
| timestamp_ge (t : Time)
| timestamp_le (t : Time).

Record select := {
  where_ : list cond;
  limit : option Z;
  offset : option Z
}.

(** The table [change_events] behind a [*sql.DB]: the rows in insertion
    order, the last key handed out by [AUTOINCREMENT], and whether the
    handle was closed ([Close]), after which every statement fails. *)
Record Storage := {
  closed : bool;
  change_events : list ChangeEvent;
  last_id : Z
}.

Definition errClosed : error := "sql: database is closed".
Definition errSyntax : error := "near OFFSET: syntax error".

Definition set_ID (e : ChangeEvent) (id : Z) : ChangeEvent :=
  {| ID := id; Timestamp := Timestamp e; Namespace := Namespace e;
     Kind := Kind e; Name := Name e; Action := Action e; Diff := Diff e;
     Metadata := Metadata e; ImageBefore := ImageBefore e;
     ImageAfter := ImageAfter e |}.

Definition set_paging (f : Filter) (l o : Z) : Filter :=
  {| fNamespace := fNamespace f; fKind := fKind f; fName := fName f;
     fAction := fAction f; StartTime := StartTime f; EndTime := EndTime f;
     Limit := l; Offset := o |}.

(** [SaveEvent]: inserts the row and stores the assigned key in the event
    the caller holds; returns that event with the error. *)
Definition SaveEvent (s : Storage) (event : ChangeEvent)
  : Storage * ChangeEvent * option error :=
  if closed s then
    (s, event, Some ("failed to save event: " +:+ errClosed))
  else
    let id := last_id s + 1 in
    let row := set_ID event id in
    ({| closed := false; change_events := change_events s ++ [row]; last_id := id |},
     row, None).

Definition Close (s : Storage) : Storage :=
  {| closed := true; change_events := change_events s; last_id := last_id s |}.

Section Engine.

(** SQLite's [LIKE] operator, [sql_like pattern text]. *)
Variable sql_like : string → string → bool.

(** The text the driver writes for a [time.Time], in a row as in a query
    parameter: the value formatted in its own zone with the layout
    [2006-01-02 15:04:05.999999999-07:00]. *)
Variable timestamp_text : Time → string.

(** [time.Time.AddDate years months days]. *)
Variable AddDate : Time → Z → Z → Z → Time.

Definition eval_cond (c : cond) (e : ChangeEvent) : bool :=
  match c with
  | namespace_eq s => String.eqb (Namespace e) s
  | kind_eq s => String.eqb (Kind e) s
  | name_eq s => String.eqb (Name e) s
  | name_like p => sql_like p (Name e)
  | action_eq s => String.eqb (Action e) s
  | timestamp_ge t => String.leb (timestamp_text t) (timestamp_text (Timestamp e))
  | timestamp_le t => String.leb (timestamp_text (Timestamp e)) (timestamp_text t)
  end.

Definition eval_where (cs : list cond) (e : ChangeEvent) : bool :=
  forallb (λ c, eval_cond c e) cs.

(** [ORDER BY timestamp DESC]: the rows by decreasing text of the column.
    Rows with the same text come in the order the engine's plan visits
    them; the merge sort fixes one such order. *)
Definition timestamp_desc (a b : ChangeEvent) : Prop :=
  String.leb (timestamp_text (Timestamp b)) (timestamp_text (Timestamp a)) = true.

#[local] Instance timestamp_desc_dec a b : Decision (timestamp_desc a b).
Proof. unfold timestamp_desc. apply _. Defined.

Definition order_by_timestamp_desc (rows : list ChangeEvent) : list ChangeEvent :=
  merge_sort timestamp_desc rows.

(** [db.Query] on a [SELECT ... FROM change_events].  SQLite accepts
    [OFFSET] only after [LIMIT]. *)
Definition Query (s : Storage) (q : select) : list ChangeEvent * option error :=
  if closed s then ([], Some errClosed)
  else
    let sorted := order_by_timestamp_desc (List.filter (eval_where (where_ q)) (change_events s)) in
    match limit q, offset q with
    | None, None => (sorted, None)
    | Some l, None => (take (Z.to_nat l) sorted, None)
    | Some l, Some o => (take (Z.to_nat l) (drop (Z.to_nat o) sorted), None)
    | None, Some _ => ([], Some errSyntax)
    end.

(** The conditions both [GetEvents] and [GetTotalCount] append, one per
    filter field that is set. *)
Definition filter_conds (filter : Filter) : list cond :=
  (if String.eqb (fNamespace filter) "" then [] else [namespace_eq (fNamespace filter)])
  ++ (if String.eqb (fKind filter) "" then [] else [kind_eq (fKind filter)])
  ++ (if String.eqb (fName filter) "" then []
      else [name_like ("%" +:+ fName filter +:+ "%")])
  ++ (if String.eqb (fAction filter) "" then [] else [action_eq (fAction filter)])
  ++ (if IsZero (StartTime filter) then [] else [timestamp_ge (StartTime filter)])
  ++ (if IsZero (EndTime filter) then [] else [timestamp_le (EndTime filter)]).

(** [GetTotalCount]: [SELECT COUNT( * )] under the filter's conditions. *)
Definition GetTotalCount (s : Storage) (filter : Filter) : Z * option error :=
  if closed s then (0, Some errClosed)
  else (Z.of_nat (length (List.filter (eval_where (filter_conds filter)) (change_events s))), None).

(** [GetEvents]. *)
Definition GetEvents (s : Storage) (filter : Filter) : list ChangeEvent * option error :=
  let q := {| where_ := filter_conds filter;
              limit := if 0 <? Limit filter then Some (Limit filter) else None;
              offset := if 0 <? Offset filter then Some (Offset filter) else None |} in
  match Query s q with
  | (_, Some err) => ([], Some ("failed to query events: " +:+ err))
  | (rows, None) => (rows, None)
  end.

(** [GetTimeline]. *)
Definition GetTimeline (s : Storage) (namespace kind name : string)
  : list ChangeEvent * option error :=
  let q := {| where_ := [namespace_eq namespace; kind_eq kind; name_eq name];
              limit := None; offset := None |} in
  match Query s q with
  | (_, Some err) => ([], Some ("failed to query timeline: " +:+ err))
  | (rows, None) => (rows, None)
  end.

(** [CleanupOldEvents]: [DELETE FROM change_events WHERE timestamp < ?]
    with the cut-off [now.AddDate(0, 0, -retentionDays)] as parameter;
    returns the number of rows affected. *)
Definition CleanupOldEvents (s : Storage) (now : Time) (retentionDays : Z)
  : Storage * Z * option error :=
  let cutoffDate := AddDate now 0 0 (wrap (- retentionDays)) in
  if closed s then
    (s, 0, Some ("failed to cleanup old events: " +:+ errClosed))
  else
    let older e := String.ltb (timestamp_text (Timestamp e)) (timestamp_text cutoffDate) in
    let doomed := List.filter older (change_events s) in
    let kept := List.filter (λ e, negb (older e)) (change_events s) in
    ({| closed := false; change_events := kept; last_id := last_id s |},
     Z.of_nat (length doomed), None).

End Engine.

End storage.

(** * JSON values ([encoding/json]) *)

Module json.

#[local] Set Warnings "-register-all".
(** The values [json.Marshal] renders and [json.Unmarshal] into
    [map[string]interface{}] yields.  The members of an object are listed
    in increasing key order, the order in which a Go map is rendered. *)
Inductive JSON :=
| JNull
| JString (s : string)
| JNumber (n : Z)
| JArray (l : list JSON)
| JObject (fields : list (string * JSON)).

Section Marshal.

(** The rendering of a string as a JSON string literal, with its quotes
    and escapes. *)
Variable json_string : string → string.

(** [json.Marshal]. *)
Fixpoint Marshal (v : JSON) : string :=
  match v with
  | JNull => "null"
  | JString s => json_string s
  | JNumber n => fmt.d n
  | JArray l => "[" +:+ fmt.Join (map Marshal l) "," +:+ "]"
  | JObject fields =>
    "{" +:+ fmt.Join (map (λ '(k, x), json_string k +:+ ":" +:+ Marshal x) fields) ","
    +:+ "}"
  end.

End Marshal.

End json.

(** * Image extraction ([internal/diff]) *)

Module diff.

Import json.

Fixpoint field (k : string) (fields : list (string * JSON)) : option JSON :=
  match fields with
  | [] => None
  | (k', v) :: rest => if String.eqb k k' then Some v else field k rest
  end.

(** [obj[k].(map[string]interface{})]. *)
Definition object_at (k : string) (fields : list (string * JSON))
  : option (list (string * JSON)) :=
  match field k fields with
  | Some (JObject o) => Some o
  | _ => None
  end.

(** [ExtractImage]: the image of the first container under
    [spec.template.spec.containers], or the empty string. *)
Definition ExtractImage (obj : option (list (string * JSON))) : string :=
  match obj with
  | None => ""
  | Some obj =>
    match object_at "spec" obj with
    | None => ""
    | Some spec =>
      match object_at "template" spec with
      | None => ""
      | Some template =>
        match object_at "spec" template with
        | None => ""
        | Some templateSpec =>
          match field "containers" templateSpec with
          | Some (JArray (firstContainer :: _)) =>
            match firstContainer with
            | JObject c =>
              match field "image" c with
              | Some (JString image) => image
              | _ => ""
              end
            | _ => ""
            end
          | _ => ""
          end
        end
      end
    end
  end.

End diff.

(** * The Slack notifier ([internal/notifier]) *)

Module notifier.

Local Open Scope Z_scope.
Import storage.

Record SlackNotifier := {
  webhookURL : string;
  enabled : bool;
  clientTimeout : Z  (* seconds *)
}.

Record slackField := {
  fieldTitle : string;
  fieldValue : string;
  fieldShort : bool
}.

Record slackAttachment := {
  Color : string;
  Title : string;
  Text : string;
  Fields : list slackField
}.

Record slackMessage := {
  msgText : string;
  Attachments : list slackAttachment
}.

(** What the webhook answers to a POST. *)
Inductive PostResult :=
| TransportError (msg : error)
| Response (StatusCode : Z).

(** The requests made so far: the target URL and the message whose
    encoding by [json.Marshal] is the body.  The encoding itself is not
    modelled: what is said of a message below is said of the value handed to
    the encoder, not of the bytes sent. *)
Definition Outbox := list (string * slackMessage).

(** [NewSlackNotifier]. *)
Definition NewSlackNotifier (url : string) : SlackNotifier :=
  {| webhookURL := url;
     enabled := negb (String.eqb url "");
     clientTimeout := 10 |}.

(** [IsEnabled]. *)
Definition IsEnabled (s : SlackNotifier) : bool := enabled s.

(** [getColorForAction]. *)
Definition getColorForAction (action : string) : string :=
  if String.eqb action "ADDED" then "good"
  else if String.eqb action "DELETED" then "danger"
  else if String.eqb action "MODIFIED" then "warning"
  else "#808080".

(** [getEmojiForKind]. *)
Definition getEmojiForKind (kind : string) : string :=
  if String.eqb kind "Deployment" then "ğŸš€"
  else if String.eqb kind "ConfigMap" then "ğŸ“"
  else if String.eqb kind "Secret" then "ğŸ”"
  else if String.eqb kind "Service" then "ğŸŒ"
  else if String.eqb kind "Ingress" then "ğŸšª"
  else if String.eqb kind "StatefulSet" then "ğŸ’¾"
  else if String.eqb kind "DaemonSet" then "ğŸ‘¹"
  else if String.eqb kind "CronJob" then "â°"
  else if String.eqb kind "Job" then "âš™ï¸"
  else "ğŸ“¦".

Section Webhook.

(** The remote end of the webhook. *)
Variable respond : string → slackMessage → PostResult.

(** [sendMessage]: one POST; an error for a transport failure or a
    status other than 200.  [json.Marshal] does not fail on a
    [slackMessage], whose fields are strings, booleans and slices of such,
    so its error branch is left out. *)
Definition sendMessage (s : SlackNotifier) (msg : slackMessage) (out : Outbox)
  : Outbox * option error :=
  let out' := out ++ [(webhookURL s, msg)] in
  match respond (webhookURL s) msg with
  | TransportError err => (out', Some ("failed to send slack message: " +:+ err))
  | Response code =>
    if code =? 200 then (out', None)
    else (out', Some ("slack returned non-200 status code: " +:+ fmt.d code))
  end.

(** [NotifyChange]. *)
Definition NotifyChange (s : SlackNotifier) (event : ChangeEvent) (out : Outbox)
  : Outbox * option error :=
  if negb (enabled s) then (out, None)
  else if negb (String.eqb (Action event) "MODIFIED")
          && negb (String.eqb (Action event) "DELETED") then (out, None)
  else
    let color := getColorForAction (Action event) in
    let emoji := getEmojiForKind (Kind event) in
    let fields0 :=
      [ {| fieldTitle := "Resource";
           fieldValue := "`" +:+ Namespace event +:+ "/" +:+ Name event +:+ "`";
           fieldShort := true |};
        {| fieldTitle := "Action"; fieldValue := Action event; fieldShort := true |} ] in
    let text :=
      if String.eqb (Diff event) "" then ""
      else
        let diff :=
          if (500 <? String.length (Diff event))%nat
          then substring 0 500 (Diff event) +:+ "..." +:+ fmt.nl +:+ "_(truncated)_"
          else Diff event in
        "```" +:+ fmt.nl +:+ diff +:+ fmt.nl +:+ "```" in
    let fields :=
      if negb (String.eqb (ImageBefore event) "") && negb (String.eqb (ImageAfter event) "")
      then fields0 ++
           [ {| fieldTitle := "Image Change";
                fieldValue := "From: `" +:+ ImageBefore event +:+ "`" +:+ fmt.nl
                              +:+ "To: `" +:+ ImageAfter event +:+ "`";
                fieldShort := false |} ]
      else fields0 in
    let msg :=
      {| msgText := "";
         Attachments :=
           [ {| Color := color;
                Title := emoji +:+ " " +:+ Kind event +:+ " " +:+ Action event
                         +:+ " in " +:+ Namespace event;
                Text := text;
                Fields := fields |} ] |} in
    sendMessage s msg out.

End Webhook.

End notifier.

(** * The Kubernetes objects the watchers read

    The fields of the API types ([k8s.io/api]) that the program inspects,
    one record per struct, under the struct's name. *)

Module metav1.

Record OwnerReference := { ownerKind : string; ownerName : string }.

Record ObjectMeta := {
  Namespace : string;
  Name : string;
  Annotations : gmap string string;
  OwnerReferences : list OwnerReference
}.

End metav1.

Module resource.

(** A [resource.Quantity], as its count of nano-units, the finest scale
    a quantity has; [Equal] compares the amounts. *)
Definition Quantity := Z.

Definition Equal (a b : Quantity) : bool := Z.eqb a b.

End resource.

Module corev1.

Definition ResourceList := gmap string resource.Quantity.

(** [ResourceList.Cpu] and [ResourceList.Memory]: the entry, or a zero
    quantity when the list has none. *)
Definition Cpu (rl : ResourceList) : resource.Quantity := default 0%Z (rl !! "cpu").
Definition Memory (rl : ResourceList) : resource.Quantity := default 0%Z (rl !! "memory").

Module ResourceRequirements.
Record t := { Limits : ResourceList; Requests : ResourceList }.
End ResourceRequirements.

Module EnvVar.
Record t := { Name : string; Value : string }.
End EnvVar.

Module Container.
Record t := {
  Name : string;
  Image : string;
  Resources : ResourceRequirements.t;
  Env : list EnvVar.t
}.
End Container.

Module PodSpec.
Record t := {
  Containers : list Container.t;
  NodeSelector : gmap string string
}.
End PodSpec.

Module PodTemplateSpec.
Record t := { Spec : PodSpec.t }.
End PodTemplateSpec.

Module ConfigMap.
Record t := {
  ObjectMeta : metav1.ObjectMeta;
  Data : gmap string string
}.
End ConfigMap.

Definition SecretTypeServiceAccountToken : string := "kubernetes.io/service-account-token".

Module Secret.
Record t := {
  ObjectMeta : metav1.ObjectMeta;
  Type_ : string;
  Data : gmap string (list Byte.byte)
}.
End Secret.

Module ServicePort.
Record t := {
  Name : string;
  Port : Z;
  TargetPort_IntVal : Z
}.
End ServicePort.

Module ServiceSpec.
Record t := {
  Type_ : string;
  Selector : gmap string string;
  Ports : list ServicePort.t;
  ExternalIPs : list string
}.
End ServiceSpec.

Module Service.
Record t := { ObjectMeta : metav1.ObjectMeta; Spec : ServiceSpec.t }.
End Service.

Module PersistentVolumeClaim.
Record t := { Name : string }.
End PersistentVolumeClaim.

End corev1.

Module appsv1.

Module DeploymentSpec.
Record t := {
  Replicas : option Z;
  Template : corev1.PodTemplateSpec.t;
  Strategy_Type : string
}.
End DeploymentSpec.

Module Deployment.
Record t := { ObjectMeta : metav1.ObjectMeta; Spec : DeploymentSpec.t }.
End Deployment.

Module StatefulSetSpec.
Record t := {
  Replicas : option Z;
  Template : corev1.PodTemplateSpec.t;
  ServiceName : string;
  VolumeClaimTemplates : list corev1.PersistentVolumeClaim.t;
  UpdateStrategy_Type : string
}.
End StatefulSetSpec.

Module StatefulSet.
Record t := { ObjectMeta : metav1.ObjectMeta; Spec : StatefulSetSpec.t }.
End StatefulSet.

Module DaemonSetSpec.
Record t := {
  Template : corev1.PodTemplateSpec.t;
  UpdateStrategy_Type : string
}.
End DaemonSetSpec.

Module DaemonSet.
Record t := { ObjectMeta : metav1.ObjectMeta; Spec : DaemonSetSpec.t }.
End DaemonSet.

End appsv1.

Module networkingv1.

Module IngressServiceBackend.
Record t := { Name : string; Port_Number : Z }.
End IngressServiceBackend.

Module HTTPIngressPath.
Record t := {
  Path : string;
  Backend_Service : option IngressServiceBackend.t
}.
End HTTPIngressPath.

Module HTTPIngressRuleValue.
Record t := { Paths : list HTTPIngressPath.t }.
End HTTPIngressRuleValue.

Module IngressRule.
Record t := { Host : string; HTTP : option HTTPIngressRuleValue.t }.
End IngressRule.

Module IngressTLS.
Record t := { Hosts : list string; SecretName : string }.
End IngressTLS.

Module IngressSpec.
Record t := { Rules : list IngressRule.t; TLS : list IngressTLS.t }.
End IngressSpec.

Module Ingress.
Record t := { ObjectMeta : metav1.ObjectMeta; Spec : IngressSpec.t }.
End Ingress.

End networkingv1.

Module batchv1.

Module JobSpec.
Record t := {
  Parallelism : option Z;
  Completions : option Z;
  BackoffLimit : option Z;
  Template : corev1.PodTemplateSpec.t
}.
End JobSpec.

Module JobStatus.
Record t := { Active : Z; Succeeded : Z; Failed : Z }.
End JobStatus.

Module Job.
Record t := {
  ObjectMeta : metav1.ObjectMeta;
  Spec : JobSpec.t;
  Status : JobStatus.t
}.
End Job.

Module CronJobSpec.
Record t := {
  Schedule : string;
  Suspend : option bool;
  ConcurrencyPolicy : string;
  JobTemplate_Spec : JobSpec.t
}.
End CronJobSpec.

Module CronJob.
Record t := { ObjectMeta : metav1.ObjectMeta; Spec : CronJobSpec.t }.
End CronJob.

End batchv1.

(** [k8s.io/apimachinery/pkg/watch]: the event types; [string_of] is the
    conversion [string(eventType)]. *)
Module watch.

Inductive EventType := Added | Modified | Deleted | Bookmark | Error.

Definition string_of (t : EventType) : string :=
  match t with
  | Added => "ADDED"
  | Modified => "MODIFIED"
  | Deleted => "DELETED"
  | Bookmark => "BOOKMARK"
  | Error => "ERROR"
  end.

End watch.

(** * The watchers ([internal/watcher]) *)

Module watcher.

Local Open Scope Z_scope.
Import json.
Import corev1 appsv1 networkingv1 batchv1.

(** The watcher: the store, the notifier, and the notification tasks
    started with [go] and not yet run, oldest first. *)
Record Watcher := {
  storage : storage.Storage;
  notifier : notifier.SlackNotifier;
  goroutines : list storage.ChangeEvent
}.

(** The three callbacks an informer invokes. *)
Inductive Delivery (A : Type) :=
| AddFunc (obj : A)
| UpdateFunc (oldObj newObj : A)
| DeleteFunc (obj : A).
Arguments AddFunc {A} obj.
Arguments UpdateFunc {A} oldObj newObj.
Arguments DeleteFunc {A} obj.

(** The test every handler makes first: the namespaces that are skipped. *)
Definition systemNamespace (ns : string) : bool :=
  String.eqb ns "kube-system" || String.eqb ns "kube-public"
  || String.eqb ns "kube-node-lease".

(** [saveAndNotify]: the write to the store, and on success, when the
    notifier is enabled, a task that will call [NotifyChange] on the
    saved event. *)
Definition saveAndNotify (w : Watcher) (event : storage.ChangeEvent)
  : Watcher * option error :=
  match storage.SaveEvent (storage w) event with
  | (s, _, Some err) =>
    ({| storage := s; notifier := notifier w; goroutines := goroutines w |}, Some err)
  | (s, event, None) =>
    ({| storage := s; notifier := notifier w;
        goroutines := if notifier.IsEnabled (notifier w)
                      then goroutines w ++ [event] else goroutines w |},
     None)
  end.

(** A [storage.ChangeEvent] literal; the fields a handler leaves out are
    the zero values. *)
Definition newEvent (now : Time) (ns kind name action diff : string) : storage.ChangeEvent :=
  {| storage.ID := 0; storage.Timestamp := now; storage.Namespace := ns;
     storage.Kind := kind; storage.Name := name; storage.Action := action;
     storage.Diff := diff; storage.Metadata := "";
     storage.ImageBefore := ""; storage.ImageAfter := "" |}.

Definition withMetadata (e : storage.ChangeEvent) (m : string) : storage.ChangeEvent :=
  {| storage.ID := storage.ID e; storage.Timestamp := storage.Timestamp e;
     storage.Namespace := storage.Namespace e; storage.Kind := storage.Kind e;
     storage.Name := storage.Name e; storage.Action := storage.Action e;
     storage.Diff := storage.Diff e; storage.Metadata := m;
     storage.ImageBefore := storage.ImageBefore e;
     storage.ImageAfter := storage.ImageAfter e |}.

Definition withImages (e : storage.ChangeEvent) (before after : string) : storage.ChangeEvent :=
  {| storage.ID := storage.ID e; storage.Timestamp := storage.Timestamp e;
     storage.Namespace := storage.Namespace e; storage.Kind := storage.Kind e;
     storage.Name := storage.Name e; storage.Action := storage.Action e;
     storage.Diff := storage.Diff e; storage.Metadata := storage.Metadata e;
     storage.ImageBefore := before; storage.ImageAfter := after |}.

(** [range] over a map: its keys in visiting order. *)
Definition rangeKeys {V} (m : gmap string V) : list string := (map_to_list m).*1.

(** The set [map[string]bool] the detectors build from a map's keys, and
    the test [keys[k]] on it. *)
Definition keySet {V} (m : gmap string V) : gmap string bool := (λ _, true) <$> m.
Definition inKeys (keys : gmap string bool) (k : string) : bool := default false (keys !! k).

(** The loop shared by the StatefulSet, DaemonSet, CronJob and Job
    detectors: for each new container with an old container at the same
    index, a line when the image differs. *)
Fixpoint containerImageChanges (oldContainers newContainers : list Container.t) : list string :=
  match newContainers, oldContainers with
  | newContainer :: news, oldContainer :: olds =>
    (if negb (String.eqb (Container.Image oldContainer) (Container.Image newContainer))
     then ["Container " +:+ Container.Name newContainer +:+ " image: "
           +:+ Container.Image oldContainer +:+ " → " +:+ Container.Image newContainer]
     else [])
    ++ containerImageChanges olds news
  | _, _ => []
  end.

Definition imageChanges (oldContainers newContainers : list Container.t) : list string :=
  if (0 <? length oldContainers)%nat && (0 <? length newContainers)%nat
  then containerImageChanges oldContainers newContainers
  else [].

(** ** Deployments *)

(** [detectMeaningfulChanges]. *)
Definition detectMeaningfulChanges (oldDep newDep : Deployment.t) : bool * string :=
  let oldReplicas := default 0 (DeploymentSpec.Replicas (Deployment.Spec oldDep)) in
  let newReplicas := default 0 (DeploymentSpec.Replicas (Deployment.Spec newDep)) in
  let scale :=
    if negb (oldReplicas =? newReplicas) then
      if oldReplicas <? newReplicas
      then ["Scaled up: " +:+ fmt.d oldReplicas +:+ " → " +:+ fmt.d newReplicas +:+ " replicas"]
      else ["Scaled down: " +:+ fmt.d oldReplicas +:+ " → " +:+ fmt.d newReplicas +:+ " replicas"]
    else [] in
  let oldContainers := PodSpec.Containers (PodTemplateSpec.Spec (DeploymentSpec.Template (Deployment.Spec oldDep))) in
  let newContainers := PodSpec.Containers (PodTemplateSpec.Spec (DeploymentSpec.Template (Deployment.Spec newDep))) in
  let containers :=
    match oldContainers, newContainers with
    | old0 :: _, new0 :: _ =>
      let oldImage := Container.Image old0 in
      let newImage := Container.Image new0 in
      let oldResources := Container.Resources old0 in
      let newResources := Container.Resources new0 in
      (if negb (String.eqb oldImage newImage)
       then ["Image updated: " +:+ oldImage +:+ " → " +:+ newImage] else [])
      ++ (if negb (resource.Equal (Cpu (ResourceRequirements.Limits oldResources))
                                  (Cpu (ResourceRequirements.Limits newResources)))
             || negb (resource.Equal (Memory (ResourceRequirements.Limits oldResources))
                                     (Memory (ResourceRequirements.Limits newResources)))
          then ["Resource limits updated"] else [])
      ++ (if negb (resource.Equal (Cpu (ResourceRequirements.Requests oldResources))
                                  (Cpu (ResourceRequirements.Requests newResources)))
             || negb (resource.Equal (Memory (ResourceRequirements.Requests oldResources))
                                     (Memory (ResourceRequirements.Requests newResources)))
          then ["Resource requests updated"] else [])
      ++ (if negb (length (Container.Env old0) =? length (Container.Env new0))%nat
          then ["Environment variables updated"] else [])
    | _, _ => []
    end in
  let strategy :=
    if negb (String.eqb (DeploymentSpec.Strategy_Type (Deployment.Spec oldDep))
                        (DeploymentSpec.Strategy_Type (Deployment.Spec newDep)))
    then ["Deployment strategy changed: " +:+ DeploymentSpec.Strategy_Type (Deployment.Spec oldDep)
          +:+ " → " +:+ DeploymentSpec.Strategy_Type (Deployment.Spec newDep)]
    else [] in
  match scale ++ containers ++ strategy with
  | [] => (false, "")
  | first :: _ => (true, first)
  end.

(** [convertToMap] on a Deployment: the object read back from its JSON
    text, on the path [ExtractImage] follows.  A container's [image] is
    left out when empty. *)
Definition containerToJSON (c : Container.t) : JSON :=
  JObject ((if String.eqb (Container.Image c) "" then []
            else [("image", JString (Container.Image c))])
           ++ [("name", JString (Container.Name c))]).

Definition convertToMap (d : Deployment.t) : option (list (string * JSON)) :=
  let containers := PodSpec.Containers (PodTemplateSpec.Spec (DeploymentSpec.Template (Deployment.Spec d))) in
  Some [("spec",
         JObject [("template",
                   JObject [("spec",
                             JObject [("containers", JArray (map containerToJSON containers))])])])].

Definition replicasJSON (replicas : option Z) : JSON :=
  JObject [("replicas", match replicas with Some n => JNumber n | None => JNull end)].

(** ** ConfigMaps *)

(** [detectConfigMapChanges]. *)
Definition detectConfigMapChanges (oldCM newCM : ConfigMap.t) : bool * string :=
  let oldKeys := keySet (ConfigMap.Data oldCM) in
  let newKeys := keySet (ConfigMap.Data newCM) in
  let addedKeys :=
    List.filter (λ k, negb (inKeys oldKeys k)) (rangeKeys (ConfigMap.Data newCM)) in
  let removedKeys :=
    List.filter (λ k, negb (inKeys newKeys k)) (rangeKeys (ConfigMap.Data oldCM)) in
  let modified :=
    flat_map (λ '(k, newVal),
                match ConfigMap.Data oldCM !! k with
                | Some oldVal =>
                  if negb (String.eqb oldVal newVal)
                  then [(k, "[" +:+ k +:+ "]" +:+ fmt.nl +:+ "- " +:+ oldVal
                            +:+ fmt.nl +:+ "+ " +:+ newVal)]
                  else []
                | None => []
                end)
             (map_to_list (ConfigMap.Data newCM)) in
  let modifiedKeys := modified.*1 in
  let detailedChanges := modified.*2 in
  if (length addedKeys =? 0)%nat && (length removedKeys =? 0)%nat
     && (length modifiedKeys =? 0)%nat
  then (false, "")
  else
    let changeDesc :=
      if (0 <? length addedKeys)%nat then "Keys added: " +:+ fmt.v_strings addedKeys
      else if (0 <? length removedKeys)%nat then "Keys removed: " +:+ fmt.v_strings removedKeys
      else if (0 <? length detailedChanges)%nat then
        "Keys modified: " +:+ fmt.v_strings modifiedKeys +:+ fmt.nl +:+ fmt.nl
        +:+ fmt.Join detailedChanges (fmt.nl +:+ fmt.nl)
      else "" in
    (true, changeDesc).

Definition keysJSON {V} (data : gmap string V) : JSON :=
  JArray (map JString (rangeKeys data)).

(** ** Secrets *)

(** [detectSecretChanges]. *)
Definition detectSecretChanges (oldSecret newSecret : Secret.t) : bool * string :=
  if negb (String.eqb (Secret.Type_ oldSecret) (Secret.Type_ newSecret)) then
    (true, "Secret type changed: " +:+ Secret.Type_ oldSecret +:+ " → " +:+ Secret.Type_ newSecret)
  else
    let oldKeys := keySet (Secret.Data oldSecret) in
    let newKeys := keySet (Secret.Data newSecret) in
    let addedKeys :=
      List.filter (λ k, negb (inKeys oldKeys k)) (rangeKeys (Secret.Data newSecret)) in
    let removedKeys :=
      List.filter (λ k, negb (inKeys newKeys k)) (rangeKeys (Secret.Data oldSecret)) in
    let modifiedKeys :=
      flat_map (λ '(k, newVal),
                  match Secret.Data oldSecret !! k with
                  | Some oldVal =>
                    if negb (String.eqb (string_of_list_byte oldVal) (string_of_list_byte newVal))
                    then [k] else []
                  | None => []
                  end)
               (map_to_list (Secret.Data newSecret)) in
    if (length addedKeys =? 0)%nat && (length removedKeys =? 0)%nat
       && (length modifiedKeys =? 0)%nat
    then (false, "")
    else if (0 <? length addedKeys)%nat then (true, "Keys added: " +:+ fmt.v_strings addedKeys)
    else if (0 <? length removedKeys)%nat then (true, "Keys removed: " +:+ fmt.v_strings removedKeys)
    else if (0 <? length modifiedKeys)%nat then
      (true, "Keys modified: " +:+ fmt.v_strings modifiedKeys +:+ fmt.nl +:+ fmt.nl
             +:+ "(Secret values are not displayed for security)")
    else (false, "").

(** The exclusion the Secret handler adds: service-account tokens, Helm
    releases, and secrets with an owner. *)
Definition systemSecret (secret : Secret.t) : bool :=
  String.eqb (Secret.Type_ secret) SecretTypeServiceAccountToken
  || String.eqb (Secret.Type_ secret) "helm.sh/release.v1"
  || (0 <? length (metav1.OwnerReferences (Secret.ObjectMeta secret)))%nat.

(** ** Services *)

(** The port loop of [detectServiceChanges]. *)
Fixpoint portChanges (oldPorts newPorts : list ServicePort.t) : list string :=
  match newPorts, oldPorts with
  | newPort :: news, oldPort :: olds =>
    (if negb (ServicePort.Port oldPort =? ServicePort.Port newPort)
        || negb (ServicePort.TargetPort_IntVal oldPort =? ServicePort.TargetPort_IntVal newPort)
     then ["Port " +:+ ServicePort.Name newPort +:+ ": "
           +:+ fmt.d (ServicePort.Port oldPort) +:+ "/" +:+ fmt.d (ServicePort.TargetPort_IntVal oldPort)
           +:+ " → "
           +:+ fmt.d (ServicePort.Port newPort) +:+ "/" +:+ fmt.d (ServicePort.TargetPort_IntVal newPort)]
     else [])
    ++ portChanges olds news
  | _, _ => []
  end.

Definition lenZ {A} (l : list A) : Z := Z.of_nat (length l).

(** The closing lines shared by the detectors of [additional_watchers.go]. *)
Definition report (title : string) (changes : list string) : bool * string :=
  if (length changes =? 0)%nat then (false, "")
  else (true, title +:+ fmt.nl +:+ fmt.Join changes fmt.nl).

(** [detectServiceChanges]. *)
Definition detectServiceChanges (oldSvc newSvc : Service.t) : bool * string :=
  let o := Service.Spec oldSvc in
  let n := Service.Spec newSvc in
  let changes :=
    (if negb (String.eqb (ServiceSpec.Type_ o) (ServiceSpec.Type_ n))
     then ["Type: " +:+ ServiceSpec.Type_ o +:+ " → " +:+ ServiceSpec.Type_ n] else [])
    ++ (if negb (String.eqb (fmt.v_map (ServiceSpec.Selector o)) (fmt.v_map (ServiceSpec.Selector n)))
        then ["Selector changed"] else [])
    ++ (if negb (length (ServiceSpec.Ports o) =? length (ServiceSpec.Ports n))%nat
        then ["Ports count: " +:+ fmt.d (lenZ (ServiceSpec.Ports o)) +:+ " → "
              +:+ fmt.d (lenZ (ServiceSpec.Ports n))]
        else portChanges (ServiceSpec.Ports o) (ServiceSpec.Ports n))
    ++ (let oldIPs := fmt.Join (ServiceSpec.ExternalIPs o) "," in
        let newIPs := fmt.Join (ServiceSpec.ExternalIPs n) "," in
        if negb (String.eqb oldIPs newIPs)
        then ["External IPs: " +:+ oldIPs +:+ " → " +:+ newIPs] else []) in
  report "Service configuration changed:" changes.

(** ** Ingresses *)

Definition importantAnnotations : list string :=
  [ "nginx.ingress.kubernetes.io/rewrite-target";
    "cert-manager.io/cluster-issuer";
    "kubernetes.io/ingress.class";
    "konghq.com/" ].

Definition annotationChanges (oldAnn newAnn : gmap string string) : list string :=
  flat_map (λ key,
              let oldVal := default "" (oldAnn !! key) in
              let oldExists := bool_decide (is_Some (oldAnn !! key)) in
              let newVal := default "" (newAnn !! key) in
              let newExists := bool_decide (is_Some (newAnn !! key)) in
              if negb (Bool.eqb oldExists newExists)
                 || (oldExists && negb (String.eqb oldVal newVal))
              then
                if newExists
                then ["Annotation " +:+ key +:+ ": '" +:+ oldVal +:+ "' → '" +:+ newVal +:+ "'"]
                else ["Annotation " +:+ key +:+ " removed"]
              else [])
           importantAnnotations.

(** The loop over the paths of a rule. *)
Fixpoint pathChanges (oldPaths newPaths : list HTTPIngressPath.t) : list string :=
  match newPaths, oldPaths with
  | newPath :: news, oldPath :: olds =>
    match HTTPIngressPath.Backend_Service oldPath, HTTPIngressPath.Backend_Service newPath with
    | Some oldService, Some newService =>
      (if negb (String.eqb (IngressServiceBackend.Name oldService) (IngressServiceBackend.Name newService))
       then ["Backend service: " +:+ IngressServiceBackend.Name oldService +:+ " → "
             +:+ IngressServiceBackend.Name newService]
       else [])
      ++ (if negb (IngressServiceBackend.Port_Number oldService =? IngressServiceBackend.Port_Number newService)
          then ["Backend port: " +:+ fmt.d (IngressServiceBackend.Port_Number oldService) +:+ " → "
                +:+ fmt.d (IngressServiceBackend.Port_Number newService)]
          else [])
    | _, _ => []
    end
    ++ pathChanges olds news
  | _, _ => []
  end.

(** The loop over the rules. *)
Fixpoint ruleChanges (oldRules newRules : list IngressRule.t) : list string :=
  match newRules, oldRules with
  | newRule :: news, oldRule :: olds =>
    (if negb (String.eqb (IngressRule.Host oldRule) (IngressRule.Host newRule))
     then ["Host changed: " +:+ IngressRule.Host oldRule +:+ " → " +:+ IngressRule.Host newRule]
     else [])
    ++ match IngressRule.HTTP oldRule, IngressRule.HTTP newRule with
       | Some oldHTTP, Some newHTTP =>
         let oldPaths := HTTPIngressRuleValue.Paths oldHTTP in
         let newPaths := HTTPIngressRuleValue.Paths newHTTP in
         if negb (length oldPaths =? length newPaths)%nat
         then ["Paths count for " +:+ IngressRule.Host newRule +:+ ": "
               +:+ fmt.d (lenZ oldPaths) +:+ " → " +:+ fmt.d (lenZ newPaths)]
         else pathChanges oldPaths newPaths
       | _, _ => []
       end
    ++ ruleChanges olds news
  | _, _ => []
  end.

(** [detectIngressChanges]. *)
Definition detectIngressChanges (oldIng newIng : Ingress.t) : bool * string :=
  let o := Ingress.Spec oldIng in
  let n := Ingress.Spec newIng in
  let changes :=
    annotationChanges (metav1.Annotations (Ingress.ObjectMeta oldIng))
                      (metav1.Annotations (Ingress.ObjectMeta newIng))
    ++ (if negb (length (IngressSpec.Rules o) =? length (IngressSpec.Rules n))%nat
        then ["Rules count: " +:+ fmt.d (lenZ (IngressSpec.Rules o)) +:+ " → "
              +:+ fmt.d (lenZ (IngressSpec.Rules n))]
        else ruleChanges (IngressSpec.Rules o) (IngressSpec.Rules n))
    ++ (if negb (length (IngressSpec.TLS o) =? length (IngressSpec.TLS n))%nat
        then ["TLS config count: " +:+ fmt.d (lenZ (IngressSpec.TLS o)) +:+ " → "
              +:+ fmt.d (lenZ (IngressSpec.TLS n))]
        else []) in
  report "Ingress configuration changed:" changes.

(** ** StatefulSets *)

(** A line [label: old → new] for two numbers behind pointers, when both
    are set and differ. *)
Definition pointerChange (label : string) (old new : option Z) : list string :=
  match old, new with
  | Some a, Some b =>
    if negb (a =? b) then [label +:+ ": " +:+ fmt.d a +:+ " → " +:+ fmt.d b] else []
  | _, _ => []
  end.

Definition podContainers (t : PodTemplateSpec.t) : list Container.t :=
  PodSpec.Containers (PodTemplateSpec.Spec t).

(** [detectStatefulSetChanges]. *)
Definition detectStatefulSetChanges (oldSS newSS : StatefulSet.t) : bool * string :=
  let o := StatefulSet.Spec oldSS in
  let n := StatefulSet.Spec newSS in
  let changes :=
    pointerChange "Replicas" (StatefulSetSpec.Replicas o) (StatefulSetSpec.Replicas n)
    ++ imageChanges (podContainers (StatefulSetSpec.Template o)) (podContainers (StatefulSetSpec.Template n))
    ++ (if negb (String.eqb (StatefulSetSpec.ServiceName o) (StatefulSetSpec.ServiceName n))
        then ["Service name: " +:+ StatefulSetSpec.ServiceName o +:+ " → " +:+ StatefulSetSpec.ServiceName n]
        else [])
    ++ (if negb (length (StatefulSetSpec.VolumeClaimTemplates o)
                 =? length (StatefulSetSpec.VolumeClaimTemplates n))%nat
        then ["Volume claim templates: " +:+ fmt.d (lenZ (StatefulSetSpec.VolumeClaimTemplates o))
              +:+ " → " +:+ fmt.d (lenZ (StatefulSetSpec.VolumeClaimTemplates n))]
        else [])
    ++ (if negb (String.eqb (StatefulSetSpec.UpdateStrategy_Type o) (StatefulSetSpec.UpdateStrategy_Type n))
        then ["Update strategy: " +:+ StatefulSetSpec.UpdateStrategy_Type o +:+ " → "
              +:+ StatefulSetSpec.UpdateStrategy_Type n]
        else []) in
  report "StatefulSet configuration changed:" changes.

(** ** DaemonSets *)

(** [detectDaemonSetChanges]. *)
Definition detectDaemonSetChanges (oldDS newDS : DaemonSet.t) : bool * string :=
  let o := DaemonSet.Spec oldDS in
  let n := DaemonSet.Spec newDS in
  let changes :=
    imageChanges (podContainers (DaemonSetSpec.Template o)) (podContainers (DaemonSetSpec.Template n))
    ++ (if negb (String.eqb (DaemonSetSpec.UpdateStrategy_Type o) (DaemonSetSpec.UpdateStrategy_Type n))
        then ["Update strategy: " +:+ DaemonSetSpec.UpdateStrategy_Type o +:+ " → "
              +:+ DaemonSetSpec.UpdateStrategy_Type n]
        else [])
    ++ (if negb (String.eqb
                   (fmt.v_map (PodSpec.NodeSelector (PodTemplateSpec.Spec (DaemonSetSpec.Template o))))
                   (fmt.v_map (PodSpec.NodeSelector (PodTemplateSpec.Spec (DaemonSetSpec.Template n)))))
        then ["Node selector changed"] else []) in
  report "DaemonSet configuration changed:" changes.

(** ** CronJobs *)

(** [detectCronJobChanges]. *)
Definition detectCronJobChanges (oldCJ newCJ : CronJob.t) : bool * string :=
  let o := CronJob.Spec oldCJ in
  let n := CronJob.Spec newCJ in
  let oldSuspend := match CronJobSpec.Suspend o with Some b => b | None => false end in
  let newSuspend := match CronJobSpec.Suspend n with Some b => b | None => false end in
  let changes :=
    (if negb (String.eqb (CronJobSpec.Schedule o) (CronJobSpec.Schedule n))
     then ["Schedule: " +:+ CronJobSpec.Schedule o +:+ " → " +:+ CronJobSpec.Schedule n] else [])
    ++ (if negb (Bool.eqb oldSuspend newSuspend)
        then ["Suspend: " +:+ fmt.v_bool oldSuspend +:+ " → " +:+ fmt.v_bool newSuspend] else [])
    ++ imageChanges (podContainers (JobSpec.Template (CronJobSpec.JobTemplate_Spec o)))
                    (podContainers (JobSpec.Template (CronJobSpec.JobTemplate_Spec n)))
    ++ (if negb (String.eqb (CronJobSpec.ConcurrencyPolicy o) (CronJobSpec.ConcurrencyPolicy n))
        then ["Concurrency policy: " +:+ CronJobSpec.ConcurrencyPolicy o +:+ " → "
              +:+ CronJobSpec.ConcurrencyPolicy n]
        else []) in
  report "CronJob configuration changed:" changes.

(** ** Jobs *)

(** The lines [detectJobChanges] collects. *)
Definition jobChanges (oldJob newJob : Job.t) : list string :=
  let o := Job.Spec oldJob in
  let n := Job.Spec newJob in
  pointerChange "Parallelism" (JobSpec.Parallelism o) (JobSpec.Parallelism n)
  ++ pointerChange "Completions" (JobSpec.Completions o) (JobSpec.Completions n)
  ++ imageChanges (podContainers (JobSpec.Template o)) (podContainers (JobSpec.Template n))
  ++ pointerChange "Backoff limit" (JobSpec.BackoffLimit o) (JobSpec.BackoffLimit n).

(** [detectJobChanges]. *)
Definition detectJobChanges (oldJob newJob : Job.t) : bool * string :=
  report "Job configuration changed:" (jobChanges oldJob newJob).

Section Handlers.

Variable json_string : string → string.

(** The handlers, from the two pointers that the head of each Go function
    takes out of its [interface{}] arguments; [handleEvent] below puts that
    head, with its type assertions, in front of them. *)

(** [handleDeploymentEvent].  [None] is the run-time panic of reading
    the namespace through a nil pointer, when both objects are nil. *)
Definition handleDeploymentEvent (w : Watcher) (now : Time) (eventType : watch.EventType)
           (oldObj newObj : option Deployment.t) : option Watcher :=
  let oldDeployment := oldObj in
  match (match newObj with Some d => Some d | None => oldDeployment end) with
  | None => None
  | Some deployment =>
    let ns := metav1.Namespace (Deployment.ObjectMeta deployment) in
    let name := metav1.Name (Deployment.ObjectMeta deployment) in
    let metadata := Marshal json_string (replicasJSON (DeploymentSpec.Replicas (Deployment.Spec deployment))) in
    if systemNamespace ns then Some w
    else
      match eventType, oldDeployment with
      | watch.Modified, Some oldDeployment =>
        let '(hasChanges, changeDescription) := detectMeaningfulChanges oldDeployment deployment in
        if negb hasChanges then Some w
        else
          let event := newEvent now ns "Deployment" name (watch.string_of eventType) changeDescription in
          let event := withImages event (diff.ExtractImage (convertToMap oldDeployment))
                                  (diff.ExtractImage (convertToMap deployment)) in
          let event := withMetadata event metadata in
          Some (saveAndNotify w event).1
      | watch.Added, _ =>
        let event := newEvent now ns "Deployment" name (watch.string_of eventType) "Deployment created" in
        let event := withImages event "" (diff.ExtractImage (convertToMap deployment)) in
        let event := withMetadata event metadata in
        Some (saveAndNotify w event).1
      | watch.Deleted, _ =>
        let event := newEvent now ns "Deployment" name (watch.string_of eventType) "Deployment deleted" in
        let event := withMetadata event metadata in
        Some (saveAndNotify w event).1
      | _, _ => Some w
      end
  end.

(** [handleConfigMapEvent]. *)
Definition handleConfigMapEvent (w : Watcher) (now : Time) (eventType : watch.EventType)
           (oldObj newObj : option ConfigMap.t) : option Watcher :=
  let oldCM := oldObj in
  match (match newObj with Some c => Some c | None => oldCM end) with
  | None => None
  | Some cm =>
    let ns := metav1.Namespace (ConfigMap.ObjectMeta cm) in
    let name := metav1.Name (ConfigMap.ObjectMeta cm) in
    let keys := rangeKeys (ConfigMap.Data cm) in
    let metadata := Marshal json_string (JObject [("keys", keysJSON (ConfigMap.Data cm))]) in
    if systemNamespace ns then Some w
    else
      match eventType, oldCM with
      | watch.Modified, Some oldCM =>
        let '(hasChanges, changeDescription) := detectConfigMapChanges oldCM cm in
        if negb hasChanges then Some w
        else
          let event := newEvent now ns "ConfigMap" name (watch.string_of eventType) changeDescription in
          let event := withMetadata event metadata in
          Some (saveAndNotify w event).1
      | watch.Added, _ =>
        let event := newEvent now ns "ConfigMap" name (watch.string_of eventType)
                       ("ConfigMap created with " +:+ fmt.d (Z.of_nat (length keys)) +:+ " key(s)") in
        let event := withMetadata event metadata in
        Some (saveAndNotify w event).1
      | watch.Deleted, _ =>
        let event := newEvent now ns "ConfigMap" name (watch.string_of eventType) "ConfigMap deleted" in
        let event := withMetadata event metadata in
        Some (saveAndNotify w event).1
      | _, _ => Some w
      end
  end.

(** [handleSecretEvent]. *)
Definition handleSecretEvent (w : Watcher) (now : Time) (eventType : watch.EventType)
           (oldObj newObj : option Secret.t) : option Watcher :=
  let oldSecret := oldObj in
  match (match newObj with Some c => Some c | None => oldSecret end) with
  | None => None
  | Some secret =>
    let ns := metav1.Namespace (Secret.ObjectMeta secret) in
    let name := metav1.Name (Secret.ObjectMeta secret) in
    let keys := rangeKeys (Secret.Data secret) in
    let metadata :=
      Marshal json_string (JObject [("keys", keysJSON (Secret.Data secret));
                                    ("type", JString (Secret.Type_ secret))]) in
    if systemNamespace ns then Some w
    else if systemSecret secret then Some w
    else
      match eventType, oldSecret with
      | watch.Modified, Some oldSecret =>
        let '(hasChanges, changeDescription) := detectSecretChanges oldSecret secret in
        if negb hasChanges then Some w
        else
          let event := newEvent now ns "Secret" name (watch.string_of eventType) changeDescription in
          let event := withMetadata event metadata in
          Some (saveAndNotify w event).1
      | watch.Added, _ =>
        let event := newEvent now ns "Secret" name (watch.string_of eventType)
                       ("Secret created (" +:+ Secret.Type_ secret +:+ ") with "
                        +:+ fmt.d (Z.of_nat (length keys)) +:+ " key(s)") in
        let event := withMetadata event metadata in
        Some (saveAndNotify w event).1
      | watch.Deleted, _ =>
        let event := newEvent now ns "Secret" name (watch.string_of eventType) "Secret deleted" in
        let event := withMetadata event metadata in
        Some (saveAndNotify w event).1
      | _, _ => Some w
      end
  end.

(** [handleServiceEvent]. *)
Definition handleServiceEvent (w : Watcher) (now : Time) (eventType : watch.EventType)
           (oldObj newObj : option Service.t) : option Watcher :=
  let oldSvc := oldObj in
  match (match newObj with Some o => Some o | None => oldObj end) with
  | None => None
  | Some svc =>
    let ns := metav1.Namespace (Service.ObjectMeta svc) in
    let name := metav1.Name (Service.ObjectMeta svc) in
    if systemNamespace ns then Some w
    else
      match eventType, oldSvc with
      | watch.Modified, Some oldSvc =>
          let '(hasChanges, changeDesc) := detectServiceChanges oldSvc svc in
          if negb hasChanges then Some w
          else
            let event := newEvent now ns "Service" name (watch.string_of eventType) changeDesc in
            Some (saveAndNotify w event).1
      | _, _ =>
        let event := newEvent now ns "Service" name (watch.string_of eventType)
                       (watch.string_of eventType) in
        Some (saveAndNotify w event).1
      end
  end.

(** [handleIngressEvent]. *)
Definition handleIngressEvent (w : Watcher) (now : Time) (eventType : watch.EventType)
           (oldObj newObj : option Ingress.t) : option Watcher :=
  let oldIngress := oldObj in
  match (match newObj with Some o => Some o | None => oldObj end) with
  | None => None
  | Some ingress =>
    let ns := metav1.Namespace (Ingress.ObjectMeta ingress) in
    let name := metav1.Name (Ingress.ObjectMeta ingress) in
    if systemNamespace ns then Some w
    else
      match eventType, oldIngress with
      | watch.Modified, Some oldIngress =>
          let '(hasChanges, changeDesc) := detectIngressChanges oldIngress ingress in
          if negb hasChanges then Some w
          else
            let event := newEvent now ns "Ingress" name (watch.string_of eventType) changeDesc in
            Some (saveAndNotify w event).1
      | _, _ =>
        let event := newEvent now ns "Ingress" name (watch.string_of eventType)
                       (watch.string_of eventType) in
        Some (saveAndNotify w event).1
      end
  end.

(** [handleStatefulSetEvent]. *)
Definition handleStatefulSetEvent (w : Watcher) (now : Time) (eventType : watch.EventType)
           (oldObj newObj : option StatefulSet.t) : option Watcher :=
  let oldSS := oldObj in
  match (match newObj with Some o => Some o | None => oldObj end) with
  | None => None
  | Some ss =>
    let ns := metav1.Namespace (StatefulSet.ObjectMeta ss) in
    let name := metav1.Name (StatefulSet.ObjectMeta ss) in
    if systemNamespace ns then Some w
    else
      match eventType, oldSS with
      | watch.Modified, Some oldSS =>
          let '(hasChanges, changeDesc) := detectStatefulSetChanges oldSS ss in
          if negb hasChanges then Some w
          else
            let event := newEvent now ns "StatefulSet" name (watch.string_of eventType) changeDesc in
            let metadata :=
              Marshal json_string (replicasJSON (StatefulSetSpec.Replicas (StatefulSet.Spec ss))) in
            let event := withMetadata event metadata in
            Some (saveAndNotify w event).1
      | _, _ =>
        let event := newEvent now ns "StatefulSet" name (watch.string_of eventType)
                       (watch.string_of eventType) in
        Some (saveAndNotify w event).1
      end
  end.

(** [handleDaemonSetEvent]. *)
Definition handleDaemonSetEvent (w : Watcher) (now : Time) (eventType : watch.EventType)
           (oldObj newObj : option DaemonSet.t) : option Watcher :=
  let oldDS := oldObj in
  match (match newObj with Some o => Some o | None => oldObj end) with
  | None => None
  | Some ds =>
    let ns := metav1.Namespace (DaemonSet.ObjectMeta ds) in
    let name := metav1.Name (DaemonSet.ObjectMeta ds) in
    if systemNamespace ns then Some w
    else
      match eventType, oldDS with
      | watch.Modified, Some oldDS =>
          let '(hasChanges, changeDesc) := detectDaemonSetChanges oldDS ds in
          if negb hasChanges then Some w
          else
            let event := newEvent now ns "DaemonSet" name (watch.string_of eventType) changeDesc in
            Some (saveAndNotify w event).1
      | _, _ =>
        let event := newEvent now ns "DaemonSet" name (watch.string_of eventType)
                       (watch.string_of eventType) in
        Some (saveAndNotify w event).1
      end
  end.

(** [handleCronJobEvent]. *)
Definition handleCronJobEvent (w : Watcher) (now : Time) (eventType : watch.EventType)
           (oldObj newObj : option CronJob.t) : option Watcher :=
  let oldCronJob := oldObj in
  match (match newObj with Some o => Some o | None => oldObj end) with
  | None => None
  | Some cronjob =>
    let ns := metav1.Namespace (CronJob.ObjectMeta cronjob) in
    let name := metav1.Name (CronJob.ObjectMeta cronjob) in
    if systemNamespace ns then Some w
    else
      match eventType, oldCronJob with
      | watch.Modified, Some oldCronJob =>
          let '(hasChanges, changeDesc) := detectCronJobChanges oldCronJob cronjob in
          if negb hasChanges then Some w
          else
            let event := newEvent now ns "CronJob" name (watch.string_of eventType) changeDesc in
            Some (saveAndNotify w event).1
      | _, _ =>
        let event := newEvent now ns "CronJob" name (watch.string_of eventType)
                       (watch.string_of eventType) in
        Some (saveAndNotify w event).1
      end
  end.

(** [handleJobEvent]. *)
Definition handleJobEvent (w : Watcher) (now : Time) (eventType : watch.EventType)
           (oldObj newObj : option Job.t) : option Watcher :=
  let oldJob := oldObj in
  match (match newObj with Some o => Some o | None => oldObj end) with
  | None => None
  | Some job =>
    let ns := metav1.Namespace (Job.ObjectMeta job) in
    let name := metav1.Name (Job.ObjectMeta job) in
    if systemNamespace ns then Some w
    else
      match eventType, oldJob with
      | watch.Modified, Some oldJob =>
        if (0 <? JobStatus.Succeeded (Job.Status job))
           || (0 <? JobStatus.Failed (Job.Status job))
        then Some w
        else
          let '(hasChanges, changeDesc) := detectJobChanges oldJob job in
          if negb hasChanges then Some w
          else
            let event := newEvent now ns "Job" name (watch.string_of eventType) changeDesc in
            Some (saveAndNotify w event).1
      | _, _ =>
        let event := newEvent now ns "Job" name (watch.string_of eventType)
                       (watch.string_of eventType) in
        Some (saveAndNotify w event).1
      end
  end.

(** The goroutine [saveAndNotify] starts for an event: the call of
    [NotifyChange], whose error is only logged. *)
Definition runNotification (respond : string → notifier.slackMessage → notifier.PostResult)
           (w : Watcher) (event : storage.ChangeEvent) (out : notifier.Outbox)
  : notifier.Outbox :=
  (notifier.NotifyChange respond (notifier w) event out).1.

(** ** The nine watchers

    [Start] runs one informer per kind; each routes its callbacks to
    the kind's handler. *)

Inductive ResourceKind :=
| KDeployment | KConfigMap | KSecret | KService | KIngress
| KStatefulSet | KDaemonSet | KCronJob | KJob.

Definition object (k : ResourceKind) : Type :=
  match k with
  | KDeployment => Deployment.t
  | KConfigMap => ConfigMap.t
  | KSecret => Secret.t
  | KService => Service.t
  | KIngress => Ingress.t
  | KStatefulSet => StatefulSet.t
  | KDaemonSet => DaemonSet.t
  | KCronJob => CronJob.t
  | KJob => Job.t
  end.

Definition handler (k : ResourceKind)
  : Watcher → Time → watch.EventType → option (object k) → option (object k) → option Watcher :=
  match k with
  | KDeployment => handleDeploymentEvent
  | KConfigMap => handleConfigMapEvent
  | KSecret => handleSecretEvent
  | KService => handleServiceEvent
  | KIngress => handleIngressEvent
  | KStatefulSet => handleStatefulSetEvent
  | KDaemonSet => handleDaemonSetEvent
  | KCronJob => handleCronJobEvent
  | KJob => handleJobEvent
  end.

(** [watchDeployments] ... [watchJobs]: the routing of the callbacks, for
    objects that are pointers of the watched kind; [callback] below takes
    them as the [interface{}] values they arrive as. *)
Definition deliver (k : ResourceKind) (w : Watcher) (now : Time) (d : Delivery (object k))
  : option Watcher :=
  match d with
  | AddFunc obj => handler k w now watch.Added None (Some obj)
  | UpdateFunc oldObj newObj => handler k w now watch.Modified (Some oldObj) (Some newObj)
  | DeleteFunc obj => handler k w now watch.Deleted (Some obj) None
  end.

(** The kind's change detector. *)
Definition detector (k : ResourceKind) : object k → object k → bool * string :=
  match k with
  | KDeployment => detectMeaningfulChanges
  | KConfigMap => detectConfigMapChanges
  | KSecret => detectSecretChanges
  | KService => detectServiceChanges
  | KIngress => detectIngressChanges
  | KStatefulSet => detectStatefulSetChanges
  | KDaemonSet => detectDaemonSetChanges
  | KCronJob => detectCronJobChanges
  | KJob => detectJobChanges
  end.

Definition objectMeta (k : ResourceKind) : object k → metav1.ObjectMeta :=
  match k with
  | KDeployment => Deployment.ObjectMeta
  | KConfigMap => ConfigMap.ObjectMeta
  | KSecret => Secret.ObjectMeta
  | KService => Service.ObjectMeta
  | KIngress => Ingress.ObjectMeta
  | KStatefulSet => StatefulSet.ObjectMeta
  | KDaemonSet => DaemonSet.ObjectMeta
  | KCronJob => CronJob.ObjectMeta
  | KJob => Job.ObjectMeta
  end.

(** The object a delivery is about: the new one, or the last known one
    of a deletion. *)
Definition subject {A} (d : Delivery A) : A :=
  match d with
  | AddFunc obj => obj
  | UpdateFunc _ newObj => newObj
  | DeleteFunc obj => obj
  end.

(** ** The callbacks, as the informer calls them

    A callback receives its objects as [interface{}].  An informer passes
    the objects of its store, pointers to the kind it watches; to
    [DeleteFunc] it can instead pass the tombstone
    [cache.DeletedFinalStateUnknown], a struct holding the key and the last
    known state of an object whose deletion it did not observe. *)
Inductive Object :=
| Nil
| Pointer (k : ResourceKind) (obj : object k)
| DeletedFinalStateUnknown (Key : string) (Obj : Object).

(** Whether a value of the pointer type of [k'] is one of the pointer type
    of [k]. *)
Definition sameType (k k' : ResourceKind) : object k' → option (object k) :=
  match k, k' return object k' → option (object k) with
  | KDeployment, KDeployment => Some
  | KConfigMap, KConfigMap => Some
  | KSecret, KSecret => Some
  | KService, KService => Some
  | KIngress, KIngress => Some
  | KStatefulSet, KStatefulSet => Some
  | KDaemonSet, KDaemonSet => Some
  | KCronJob, KCronJob => Some
  | KJob, KJob => Some
  | _, _ => λ _, None
  end.

(** [if obj != nil { x = obj.( *T) }] in the handler of kind [k]: the
    pointer [x], which stays nil for the nil interface; [None] is the panic
    of the assertion on a value of another type. *)
Definition assertPointer (k : ResourceKind) (obj : Object) : option (option (object k)) :=
  match obj with
  | Nil => Some None
  | Pointer k' x => Some <$> sameType k k' x
  | DeletedFinalStateUnknown _ _ => None
  end.

(** [handleDeploymentEvent] ... [handleJobEvent] on the objects of a
    callback: the assertions first, on every object that is not nil, then
    the handler on the pointers. *)
Definition handleEvent (k : ResourceKind) (w : Watcher) (now : Time)
           (eventType : watch.EventType) (oldObj newObj : Object) : option Watcher :=
  match assertPointer k newObj, assertPointer k oldObj with
  | Some newPtr, Some oldPtr => handler k w now eventType oldPtr newPtr
  | _, _ => None
  end.

(** The callbacks [watchDeployments] ... [watchJobs] register. *)
Definition callback (k : ResourceKind) (w : Watcher) (now : Time) (d : Delivery Object)
  : option Watcher :=
  match d with
  | AddFunc obj => handleEvent k w now watch.Added Nil obj
  | UpdateFunc oldObj newObj => handleEvent k w now watch.Modified oldObj newObj
  | DeleteFunc obj => handleEvent k w now watch.Deleted obj Nil
  end.

(** A delivery of objects of the watched kind, as the callback receives
    it. *)
Definition pointers (k : ResourceKind) (d : Delivery (object k)) : Delivery Object :=
  match d with
  | AddFunc obj => AddFunc (Pointer k obj)
  | UpdateFunc oldObj newObj => UpdateFunc (Pointer k oldObj) (Pointer k newObj)
  | DeleteFunc obj => DeleteFunc (Pointer k obj)
  end.

End Handlers.

End watcher.

(** * The HTTP API (package [api]) *)

Module api.

Import storage.

#[local] Open Scope Z_scope.

(** [url.Values]: the values given for each query parameter, in the order
    of the request. *)
Definition Values := gmap string (list string).

(** [Values.Get]: the first value of the key, the empty string when the
    key has none. *)
Definition Get (v : Values) (key : string) : string :=
  match v !! key with
  | Some (x :: _) => x
  | _ => ""
  end.

(** What a handler writes: [http.Error] with its status code, or the map
    it hands to the JSON encoder. *)
Inductive Response :=
| Error (code : Z) (message : string)
| Events (events : list ChangeEvent) (count total_count offset limit : Z)
| Timeline (timeline : list ChangeEvent) (count : Z)
| Cleanup (deleted retention_days : Z) (message : string).

Definition StatusInternalServerError : Z := 500.

Section Handlers.

Variable sql_like : string → string → bool.
Variable timestamp_text : Time → string.
Variable AddDate : Time → Z → Z → Z → Time.

(** [strconv.Atoi], [None] when it returns an error. *)
Variable Atoi : string → option Z.

(** [time.Parse(time.RFC3339, _)], [None] when it returns an error. *)
Variable ParseRFC3339 : string → option Time.



(** [getTimeline]; [vars] are the variables of the route, a missing one
    reads as the empty string. *)
Definition getTimeline (s : Storage) (vars : gmap string string) : Response :=
  let namespace := default "" (vars !! "namespace") in
  let kind := default "" (vars !! "kind") in
  let name := default "" (vars !! "name") in
  match GetTimeline sql_like timestamp_text s namespace kind name with
  | (_, Some err) => Error StatusInternalServerError err
  | (timeline, None) => Timeline timeline (Z.of_nat (length timeline))
  end.

(** The retention [cleanupOldEvents] reads from the query. *)
Definition retentionDays (query : Values) : Z :=
  let days := Get query "days" in
  if String.eqb days "" then 60
  else match Atoi days with
       | Some d => if 0 <? d then d else 60
       | None => 60
       end.

(** [cleanupOldEvents]. *)
Definition cleanupOldEvents (s : Storage) (now : Time) (query : Values) : Storage * Response :=
  match CleanupOldEvents timestamp_text AddDate s now (retentionDays query) with
  | (s', _, Some err) => (s', Error StatusInternalServerError err)
  | (s', deleted, None) =>
    (s', Cleanup deleted (retentionDays query) "Cleanup completed successfully")
  end.

End Handlers.

End api.

#[local] Open Scope Z_scope.

(** * The vocabulary of the properties *)

Section StoreTerms.

Import storage.


(** The rows a filter selects, in table order. *)
Definition matching (sql_like : string → string → bool) (timestamp_text : Time → string)
           (s : Storage) (f : Filter) : list ChangeEvent :=
  List.filter (eval_where sql_like timestamp_text (filter_conds f)) (change_events s).

(** Newest first, by instant. *)
Definition newer_first (a b : ChangeEvent) : Prop :=
  instant (Timestamp b) ≤ instant (Timestamp a).

(** The texts of the times of [l] are ordered as their instants are.  This
    is the case when the times were all written under the same offset from
    UTC, in years of four digits. *)
Definition chronological (timestamp_text : Time → string) (l : list Time) : Prop :=
  ∀ a b, a ∈ l → b ∈ l →
         (String.leb (timestamp_text a) (timestamp_text b) = true ↔ instant a ≤ instant b).

End StoreTerms.

Section NotifierTerms.

Import storage notifier.

(** The actions [NotifyChange] reports. *)
Definition notifiable (event : ChangeEvent) : bool :=
  String.eqb (Action event) "MODIFIED" || String.eqb (Action event) "DELETED".

End NotifierTerms.

Section DeploymentTerms.

Import appsv1 watcher.

(** The replica count of a Deployment, a nil pointer counting as [0]. *)
Definition replicasOf (d : Deployment.t) : Z :=
  default 0 (DeploymentSpec.Replicas (Deployment.Spec d)).

End DeploymentTerms.

Section ConfigMapTerms.

Import corev1 watcher.

(** The block the diff shows for a modified key. *)
Definition keyDetail (k oldVal newVal : string) : string :=
  "[" +:+ k +:+ "]" +:+ fmt.nl +:+ "- " +:+ oldVal +:+ fmt.nl +:+ "+ " +:+ newVal.

(** The entry of the new map differs from the old map's entry for its key. *)
Definition changedEntry (o : gmap string string) (kv : string * string) : bool :=
  match o !! kv.1 with
  | Some oldVal => negb (String.eqb oldVal kv.2)
  | None => false
  end.

(** [part] occurs in [text]. *)
Definition mentions (text part : string) : bool :=
  bool_decide (is_Some (String.index 0 part text)).

End ConfigMapTerms.

Section SecretTerms.

Import corev1 watcher.

(** Two secrets with the same type and the same keys. *)
Definition sameKeysAndType (s1 s2 : Secret.t) : Prop :=
  Secret.Type_ s1 = Secret.Type_ s2
  ∧ dom (Secret.Data s1) = dom (Secret.Data s2).

(** The two pairs agree on which keys kept their value. *)
Definition sameEqualities (old1 new1 old2 new2 : Secret.t) : Prop :=
  ∀ k a1 b1 a2 b2,
    Secret.Data old1 !! k = Some a1 → Secret.Data new1 !! k = Some b1 →
    Secret.Data old2 !! k = Some a2 → Secret.Data new2 !! k = Some b2 →
    (a1 = b1 ↔ a2 = b2).

(** The test the modified-keys loop makes for a key. *)
Definition valueChanged (o n : gmap string (list Byte.byte)) (k : string) : bool :=
  match o !! k, n !! k with
  | Some oldVal, Some newVal =>
    negb (String.eqb (string_of_list_byte oldVal) (string_of_list_byte newVal))
  | _, _ => false
  end.

End SecretTerms.

Section HandlerTerms.

Import storage watcher.

(** The name a kind's events carry. *)
Definition kindName (k : ResourceKind) : string :=
  match k with
  | KDeployment => "Deployment"
  | KConfigMap => "ConfigMap"
  | KSecret => "Secret"
  | KService => "Service"
  | KIngress => "Ingress"
  | KStatefulSet => "StatefulSet"
  | KDaemonSet => "DaemonSet"
  | KCronJob => "CronJob"
  | KJob => "Job"
  end.

(** The action of a delivery. *)
Definition actionOf {A} (d : Delivery A) : string :=
  match d with
  | AddFunc _ => "ADDED"
  | UpdateFunc _ _ => "MODIFIED"
  | DeleteFunc _ => "DELETED"
  end.

(** The number of events the claim expects of a delivery: one for an
    addition or a deletion, and for an update one when the kind's detector
    reports a change. *)
Definition expected (k : ResourceKind) (d : Delivery (object k)) : nat :=
  match d with
  | UpdateFunc oldObj newObj => if (detector k oldObj newObj).1 then 1%nat else 0%nat
  | _ => 1%nat
  end.

(** The tests two handlers make besides the namespace: the Secret handler
    skips system secrets, and the Job handler skips an update whose new
    snapshot counts a succeeded or failed pod. *)
Definition passes (k : ResourceKind) : Delivery (object k) → bool :=
  match k with
  | KSecret => λ d, negb (systemSecret (subject d))
  | KJob => λ d,
    match d with
    | UpdateFunc _ job =>
      negb ((0 <? batchv1.JobStatus.Succeeded (batchv1.Job.Status job))
            || (0 <? batchv1.JobStatus.Failed (batchv1.Job.Status job)))
    | _ => true
    end
  | _ => λ _, true
  end.

Definition namespaceOf (k : ResourceKind) (obj : object k) : string :=
  metav1.Namespace (objectMeta k obj).

(** Every notification task is for a row of the table. *)
Definition tasksStored (w : Watcher) : Prop :=
  ∀ e, e ∈ goroutines w → e ∈ change_events (watcher.storage w).

End HandlerTerms.

Section JobTerms.

Import storage corev1 batchv1 watcher.

(** A field the Job detector compares changed between two set values, or a
    container present at the same index in both snapshots changed image. *)
Definition jobSpecChanged (oldJob newJob : Job.t) : Prop :=
  let o := Job.Spec oldJob in
  let n := Job.Spec newJob in
  (∃ a b, JobSpec.Parallelism o = Some a ∧ JobSpec.Parallelism n = Some b ∧ a ≠ b)
  ∨ (∃ a b, JobSpec.Completions o = Some a ∧ JobSpec.Completions n = Some b ∧ a ≠ b)
  ∨ (∃ a b, JobSpec.BackoffLimit o = Some a ∧ JobSpec.BackoffLimit n = Some b ∧ a ≠ b)
  ∨ (∃ i co cn, podContainers (JobSpec.Template o) !! i = Some co
                ∧ podContainers (JobSpec.Template n) !! i = Some cn
                ∧ Container.Image co ≠ Container.Image cn).

End JobTerms.

(** Proof steps shared by the properties of the handlers. *)

Ltac unfold_handler :=
  unfold watcher.handleDeploymentEvent, watcher.handleConfigMapEvent,
    watcher.handleSecretEvent, watcher.handleServiceEvent, watcher.handleIngressEvent,
    watcher.handleStatefulSetEvent, watcher.handleDaemonSetEvent,
    watcher.handleCronJobEvent, watcher.handleJobEvent.

Ltac split_handler :=
  repeat match goal with
         | |- context [let '(_, _) := ?x in _] => destruct x as [[|] ?] eqn:?
         | |- context [if watcher.systemSecret ?s then _ else _] =>
           destruct (watcher.systemSecret s) eqn:?
         | |- context [if ?a || ?b then _ else _] => destruct (a || b) eqn:?
         end;
  cbn [negb fst snd] in *.

Section StoreInvariantTerms.

Import storage.

(** The keys of the table increase along the rows and none exceeds the last
    key handed out. *)
Definition keysOrdered (s : Storage) : Prop :=
  StronglySorted Z.lt (ID <$> change_events s)
  ∧ Forall (λ e, ID e ≤ last_id s) (change_events s).

(** A row meets every constraint the filter sets; the bounds of the time
    range are compared with the row as the database does, text with text. *)
Definition satisfies (sql_like : string → string → bool) (timestamp_text : Time → string)
           (f : Filter) (r : ChangeEvent) : Prop :=
  (fNamespace f ≠ "" → Namespace r = fNamespace f)
  ∧ (fKind f ≠ "" → Kind r = fKind f)
  ∧ (fName f ≠ "" → sql_like ("%" +:+ fName f +:+ "%") (Name r) = true)
  ∧ (fAction f ≠ "" → Action r = fAction f)
  ∧ (instant (StartTime f) ≠ 0 →
     String.leb (timestamp_text (StartTime f)) (timestamp_text (Timestamp r)) = true)
  ∧ (instant (EndTime f) ≠ 0 →
     String.leb (timestamp_text (Timestamp r)) (timestamp_text (EndTime f)) = true).

(** The resource a row is about. *)
Definition sameResource (namespace kind name : string) (r : ChangeEvent) : Prop :=
  Namespace r = namespace ∧ Kind r = kind ∧ Name r = name.

End StoreInvariantTerms.

Section DetectorTerms.

Import storage corev1 appsv1 watcher.

(** An object that is there and is not a pointer of kind [k]: another
    kind's pointer, or a tombstone. *)
Definition foreign (k : ResourceKind) (obj : Object) : Prop :=
  obj ≠ Nil ∧ ∀ x : object k, obj ≠ Pointer k x.

(** The image of a Deployment's first container, empty when it has none. *)
Definition firstImage (d : Deployment.t) : string :=
  match podContainers (DeploymentSpec.Template (Deployment.Spec d)) with
  | [] => ""
  | c :: _ => Container.Image c
  end.

(** What the Deployment detector compares of the first containers, when
    both snapshots have one. *)
Definition firstContainersAgree (olds news : list Container.t) : Prop :=
  match olds, news with
  | o :: _, n :: _ =>
    Container.Image o = Container.Image n
    ∧ Cpu (ResourceRequirements.Limits (Container.Resources o))
      = Cpu (ResourceRequirements.Limits (Container.Resources n))
    ∧ Memory (ResourceRequirements.Limits (Container.Resources o))
      = Memory (ResourceRequirements.Limits (Container.Resources n))
    ∧ Cpu (ResourceRequirements.Requests (Container.Resources o))
      = Cpu (ResourceRequirements.Requests (Container.Resources n))
    ∧ Memory (ResourceRequirements.Requests (Container.Resources o))
      = Memory (ResourceRequirements.Requests (Container.Resources n))
    ∧ length (Container.Env o) = length (Container.Env n)
  | _, _ => True
  end.

(** What a delivery did to the watcher: the rows [es] were appended to the
    table and given the next keys, a task was queued for each of them when
    the notifier is enabled, and nothing else changed. *)
Definition appended (w w' : Watcher) (es : list ChangeEvent) : Prop :=
  watcher.notifier w' = watcher.notifier w
  ∧ closed (watcher.storage w') = closed (watcher.storage w)
  ∧ change_events (watcher.storage w') = change_events (watcher.storage w) ++ es
  ∧ last_id (watcher.storage w') = last_id (watcher.storage w) + Z.of_nat (length es)
  ∧ goroutines w'
    = goroutines w ++ (if notifier.IsEnabled (watcher.notifier w) then es else []).

End DetectorTerms.

(** * Sample objects

    The concrete tables and snapshots on which the properties are run. *)

Module Sample.

Import storage.
Local Open Scope Z_scope.

Definition second : Z := 1000000000.
Definition day : Z := 86400000000000.

(** [AddDate] in a zone of fixed offset, for a shift in days only. *)
Definition addDays (t : Time) (years months days : Z) : Time :=
  {| instant := instant t + days * day; zone := zone t |}.

(** The date of a day counted from January 1 of year 1, and back. *)
Definition civil (days : Z) : Z * Z * Z :=
  let z := days + 306 in
  let era := z / 146097 in
  let doe := z mod 146097 in
  let yoe := (doe - doe / 1460 + doe / 36524 - doe / 146096) / 365 in
  let doy := doe - (365 * yoe + yoe / 4 - yoe / 100) in
  let mp := (5 * doy + 2) / 153 in
  let d := doy - (153 * mp + 2) / 5 + 1 in
  let m := if mp <? 10 then mp + 3 else mp - 9 in
  (yoe + era * 400 + (if m <=? 2 then 1 else 0), m, d).

Definition daysFromCivil (y m d : Z) : Z :=
  let y := if m <=? 2 then y - 1 else y in
  let era := y / 400 in
  let yoe := y - era * 400 in
  let doy := (153 * (if 2 <? m then m - 3 else m + 9) + 2) / 5 + d - 1 in
  era * 146097 + (yoe * 365 + yoe / 4 - yoe / 100 + doy) - 306.

(** The moment a clock shows [hh:mm:ss] on the given date in a zone
    [offset] seconds east of UTC. *)
Definition clock (y m d hh mm ss offset : Z) : Time :=
  {| instant := (daysFromCivil y m d * 86400 + hh * 3600 + mm * 60 + ss - offset) * second;
     zone := offset |}.

(** [n] in decimal on [width] digits. *)
Fixpoint digits (width : nat) (n : Z) : string :=
  match width with
  | O => ""
  | S w => digits w (n / 10) +:+ String (ascii_of_nat (48 + Z.to_nat (n mod 10))) ""
  end.

(** The fraction of a second as the layout element [.999999999] prints it:
    nothing for zero, else the digits without their trailing zeros. *)
Fixpoint fraction (width : nat) (ns : Z) : string :=
  match width with
  | O => ""
  | S w => if ns mod 10 =? 0 then fraction w (ns / 10) else "." +:+ digits width ns
  end.

(** [Format] with the layout [2006-01-02 15:04:05.999999999-07:00], for
    the years 0 to 9999. *)
Definition timestampText (t : Time) : string :=
  let wall := instant t + zone t * second in
  let '(y, m, d) := civil (wall / day) in
  let secs := wall mod day / second in
  let off := Z.abs (zone t) in
  digits 4 y +:+ "-" +:+ digits 2 m +:+ "-" +:+ digits 2 d +:+ " "
  +:+ digits 2 (secs / 3600) +:+ ":" +:+ digits 2 (secs mod 3600 / 60) +:+ ":"
  +:+ digits 2 (secs mod 60) +:+ fraction 9 (wall mod second)
  +:+ (if zone t <? 0 then "-" else "+")
  +:+ digits 2 (off / 3600) +:+ ":" +:+ digits 2 (off mod 3600 / 60).

(** A [LIKE] that holds when the text equals the pattern without its
    surrounding [%]; enough for tables whose names are searched whole. *)
Definition likeWhole (pattern text : string) : bool :=
  String.eqb pattern ("%" +:+ text +:+ "%").

Definition row (id : Z) (t : Time) (kind name action diff : string) : ChangeEvent :=
  {| ID := id; Timestamp := t; Namespace := "default"; Kind := kind; Name := name;
     Action := action; Diff := diff; Metadata := ""; ImageBefore := ""; ImageAfter := "" |}.

Definition table : Storage :=
  {| closed := false;
     change_events :=
       [ row 1 (UTC (10 * day)) "Deployment" "web" "ADDED" "Deployment created";
         row 2 (UTC (30 * day)) "Deployment" "web" "MODIFIED" "Scaled up: 2 → 4 replicas";
         row 3 (UTC (20 * day)) "ConfigMap" "settings" "ADDED" "ConfigMap created with 1 key(s)" ];
     last_id := 3 |}.

Definition noFilter : Filter :=
  {| fNamespace := ""; fKind := ""; fName := ""; fAction := "";
     StartTime := UTC 0; EndTime := UTC 0; Limit := 0; Offset := 0 |}.

(** The Deployments named [web] of the namespace [default], from day 5 to
    day 25. *)
Definition webFilter : Filter :=
  {| fNamespace := "default"; fKind := "Deployment"; fName := "web"; fAction := "";
     StartTime := UTC (5 * day); EndTime := UTC (25 * day); Limit := 0; Offset := 0 |}.

End Sample.

Module SampleObjects.

Import metav1 corev1 appsv1 batchv1.

Definition meta (ns name : string) : ObjectMeta :=
  {| Namespace := ns; Name := name; Annotations := ∅; OwnerReferences := [] |}.

Definition container (name image : string) : Container.t :=
  {| Container.Name := name; Container.Image := image;
     Container.Resources := {| ResourceRequirements.Limits := ∅; ResourceRequirements.Requests := ∅ |};
     Container.Env := [] |}.

Definition pod (cs : list Container.t) : PodTemplateSpec.t :=
  {| PodTemplateSpec.Spec := {| PodSpec.Containers := cs; PodSpec.NodeSelector := ∅ |} |}.

Definition web (replicas : option Z) (image : string) : Deployment.t :=
  {| Deployment.ObjectMeta := meta "default" "web";
     Deployment.Spec := {| DeploymentSpec.Replicas := replicas;
                           DeploymentSpec.Template := pod [container "web" image];
                           DeploymentSpec.Strategy_Type := "RollingUpdate" |} |}.

End SampleObjects.

Module SampleConfigMaps.

Import corev1.

Definition settings (data : gmap string string) : ConfigMap.t :=
  {| ConfigMap.ObjectMeta := SampleObjects.meta "default" "settings"; ConfigMap.Data := data |}.

(** [mode] changes from [fast] to [safe] while [owner] is added. *)
Definition before : ConfigMap.t := settings {[ "mode" := "fast" ]}.
Definition after : ConfigMap.t := settings (<[ "owner" := "ops" ]> {[ "mode" := "safe" ]}).

(** [mode] changes and nothing else. *)
Definition afterModeOnly : ConfigMap.t := settings {[ "mode" := "safe" ]}.

End SampleConfigMaps.

Module SampleSecrets.

Import corev1.

(** A rendering of JSON strings for texts with nothing to escape. *)
Definition quote (s : string) : string := fmt.dq +:+ s +:+ fmt.dq.

Definition credentials (password token : list Byte.byte) : Secret.t :=
  {| Secret.ObjectMeta := SampleObjects.meta "default" "credentials";
     Secret.Type_ := "Opaque";
     Secret.Data := <[ "password" := password ]> {[ "token" := token ]} |}.

Definition hunter : list Byte.byte := list_byte_of_string "hunter2".
Definition tiger : list Byte.byte := list_byte_of_string "tiger".
Definition swordfish : list Byte.byte := list_byte_of_string "swordfish".
Definition opensesame : list Byte.byte := list_byte_of_string "open sesame".
Definition tokenA : list Byte.byte := list_byte_of_string "c2VjcmV0".
Definition tokenB : list Byte.byte := list_byte_of_string "password".

Definition openStore : storage.Storage :=
  {| storage.closed := false; storage.change_events := []; storage.last_id := 0 |}.

Definition idle (url : string) : watcher.Watcher :=
  {| watcher.storage := openStore;
     watcher.notifier := notifier.NewSlackNotifier url;
     watcher.goroutines := [] |}.

End SampleSecrets.

Module SampleJobs.

Import corev1 batchv1.

Definition backup (parallelism : option Z) (image : string) (succeeded : Z) : Job.t :=
  {| Job.ObjectMeta := SampleObjects.meta "default" "backup";
     Job.Spec := {| JobSpec.Parallelism := parallelism; JobSpec.Completions := Some 4;
                    JobSpec.BackoffLimit := Some 6;
                    JobSpec.Template := SampleObjects.pod [SampleObjects.container "dump" image] |};
     Job.Status := {| JobStatus.Active := 1; JobStatus.Succeeded := succeeded;
                      JobStatus.Failed := 0 |} |}.

(** A service-account token in an ordinary namespace. *)
Definition saToken : Secret.t :=
  {| Secret.ObjectMeta := SampleObjects.meta "default" "builder-token";
     Secret.Type_ := SecretTypeServiceAccountToken;
     Secret.Data := {[ "token" := SampleSecrets.tokenA ]} |}.

(** A Deployment of [kube-system]. *)
Definition coredns : appsv1.Deployment.t :=
  {| appsv1.Deployment.ObjectMeta := SampleObjects.meta "kube-system" "coredns";
     appsv1.Deployment.Spec :=
       {| appsv1.DeploymentSpec.Replicas := Some 2;
          appsv1.DeploymentSpec.Template := SampleObjects.pod [SampleObjects.container "coredns" "coredns:1.11"];
          appsv1.DeploymentSpec.Strategy_Type := "RollingUpdate" |} |}.

(** A watcher with an open, empty store and Slack notifications on. *)
Definition notifying : watcher.Watcher := SampleSecrets.idle "https://hooks.example/T0".

(** The same watcher after the store was closed. *)
Definition shut : watcher.Watcher :=
  {| watcher.storage := storage.Close SampleSecrets.openStore;
     watcher.notifier := notifier.NewSlackNotifier "https://hooks.example/T0";
     watcher.goroutines := [] |}.

End SampleJobs.


Module SampleIngress.

Import metav1 networkingv1.

Definition site (annotations : gmap string string) : Ingress.t :=
  {| Ingress.ObjectMeta := {| Namespace := "default"; Name := "site";
                              Annotations := annotations; OwnerReferences := [] |};
     Ingress.Spec := {| IngressSpec.Rules := [ {| IngressRule.Host := "example.org";
                                                  IngressRule.HTTP := None |} ];
                        IngressSpec.TLS := [] |} |}.

End SampleIngress.


(** * Properties of the event store *)

Section StorageProperties.

Import storage.

Variable sql_like : string → string → bool.
Variable timestamp_text : Time → string.
Variable AddDate : Time → Z → Z → Z → Time.

#[local] Existing Instance timestamp_desc_dec.

Lemma String_leb_trans (a b c : string) :
  String.leb a b = true → String.leb b c = true → String.leb a c = true.
Proof.
  unfold String.leb. revert b c.
  induction a as [|x a IH]; intros [|y b] [|z c]; cbn [String.compare]; try done.
  unfold Ascii.compare.
  destruct (N.compare_spec (N_of_ascii x) (N_of_ascii y)),
           (N.compare_spec (N_of_ascii y) (N_of_ascii z)),
           (N.compare_spec (N_of_ascii x) (N_of_ascii z)); try done; try lia.
  apply IH.
Qed.

Lemma String_ltb_leb (a b : string) : String.ltb a b = negb (String.leb b a).
Proof.
  unfold String.ltb, String.leb. rewrite (String.compare_antisym a b).
  by destruct (String.compare b a).
Qed.

#[local] Instance timestamp_desc_trans : Transitive (timestamp_desc timestamp_text).
Proof. intros a b c Hab Hbc. unfold timestamp_desc in *. by eapply String_leb_trans. Qed.

#[local] Instance timestamp_desc_total : Total (timestamp_desc timestamp_text).
Proof. intros a b. unfold timestamp_desc. destruct (String.leb_total (timestamp_text (Timestamp b)) (timestamp_text (Timestamp a))); auto. Qed.

Lemma chronological_forallb (l : list Time) :
  forallb (λ a, forallb (λ b, Bool.eqb (String.leb (timestamp_text a) (timestamp_text b))
                                       (instant a <=? instant b)) l) l = true →
  chronological timestamp_text l.
Proof.
  intros H a b Ha Hb. rewrite forallb_forall in H.
  apply list_elem_of_In, H in Ha. rewrite forallb_forall in Ha.
  apply list_elem_of_In, Ha, Bool.eqb_prop in Hb. rewrite Hb. apply Z.leb_le.
Qed.

Lemma chronological_subseteq (l l' : list Time) :
  l' ⊆ l → chronological timestamp_text l → chronological timestamp_text l'.
Proof. intros Hsub H a b Ha Hb. apply H; by apply Hsub. Qed.

Lemma chronological_older (l : list Time) (a b : Time) :
  chronological timestamp_text l → a ∈ l → b ∈ l →
  String.ltb (timestamp_text a) (timestamp_text b) = (instant a <? instant b).
Proof.
  intros H Ha Hb. rewrite String_ltb_leb, Z.ltb_antisym. f_equal.
  apply eq_true_iff_eq. rewrite Z.leb_le. by apply H.
Qed.

Lemma newest_first_of_text (times : list Time) (l : list ChangeEvent) :
  chronological timestamp_text times → (∀ e, e ∈ l → Timestamp e ∈ times) →
  StronglySorted (timestamp_desc timestamp_text) l → StronglySorted newer_first l.
Proof.
  intros Hchron Hin Hsorted. induction Hsorted as [|e l Hl IH He]; [constructor|].
  constructor.
  - apply IH. intros e' He'. apply Hin. by right.
  - rewrite Forall_forall in *. intros e' He'. unfold newer_first.
    apply Hchron; [apply Hin; by right|apply Hin; by left|by apply He].
Qed.

Lemma filter_conds_paging f l o : filter_conds (set_paging f l o) = filter_conds f.
Proof. reflexivity. Qed.






Lemma GetEvents_page s f L O :
  closed s = false → 0 < L → 0 ≤ O →
  GetEvents sql_like timestamp_text s (set_paging f L O)
  = (take (Z.to_nat L)
       (drop (Z.to_nat O)
          (order_by_timestamp_desc timestamp_text (matching sql_like timestamp_text s f))), None).
Proof.
  intros Hopen HL HO. unfold GetEvents, Query. rewrite Hopen. cbn [set_paging Limit Offset limit offset where_].
  rewrite filter_conds_paging.
  destruct (Z.ltb_spec 0 L) as [_|]; [|lia].
  destruct (Z.ltb_spec 0 O) as [|HO0]; [reflexivity|].
  assert (O = 0) as -> by lia. reflexivity.
Qed.


Lemma filter_keep_twice {A} (p : A → bool) (l : list A) :
  List.filter (λ x, negb (p x)) (List.filter (λ x, negb (p x)) l)
  = List.filter (λ x, negb (p x)) l.
Proof.
  induction l as [|x l IH]; [reflexivity|]. cbn [List.filter].
  destruct (p x) eqn:Hx; cbn [negb]; [exact IH|].
  cbn [List.filter]. rewrite Hx. cbn [negb]. by rewrite IH.
Qed.

Lemma filter_drop_kept {A} (p : A → bool) (l : list A) :
  List.filter p (List.filter (λ x, negb (p x)) l) = [].
Proof.
  induction l as [|x l IH]; [reflexivity|]. cbn [List.filter].
  destruct (p x) eqn:Hx; cbn [negb]; [exact IH|].
  cbn [List.filter]. by rewrite Hx.
Qed.

Lemma filter_ext_elem {A} (p q : A → bool) (l : list A) :
  (∀ x, x ∈ l → p x = q x) → List.filter p l = List.filter q l.
Proof.
  induction l as [|x l IH]; intros H; [reflexivity|]. cbn [List.filter].
  rewrite (H x) by (by left). rewrite IH; [done|]. intros y Hy. apply H. by right.
Qed.

Lemma length_filter_negb {A} (p : A → bool) (l : list A) :
  Z.of_nat (length (List.filter p l))
  = Z.of_nat (length l) - Z.of_nat (length (List.filter (λ x, negb (p x)) l)).
Proof.
  induction l as [|x l IH]; [reflexivity|]. cbn [List.filter].
  destruct (p x); cbn [negb length]; lia.
Qed.

Lemma filter_nil_older (cutoff cutoff' : Z) (l : list ChangeEvent) :
  cutoff' ≤ cutoff →
  List.filter (λ e, instant (Timestamp e) <? cutoff')
    (List.filter (λ e, negb (instant (Timestamp e) <? cutoff)) l) = [].
Proof.
  intros Hle. induction l as [|e l IH]; [reflexivity|]. cbn [List.filter].
  destruct (Z.ltb_spec (instant (Timestamp e)) cutoff); cbn [negb List.filter]; [exact IH|].
  destruct (Z.ltb_spec (instant (Timestamp e)) cutoff'); [lia|exact IH].
Qed.

Lemma filter_all_kept (cutoff cutoff' : Z) (l : list ChangeEvent) :
  cutoff' ≤ cutoff →
  List.filter (λ e, negb (instant (Timestamp e) <? cutoff'))
    (List.filter (λ e, negb (instant (Timestamp e) <? cutoff)) l)
  = List.filter (λ e, negb (instant (Timestamp e) <? cutoff)) l.
Proof.
  intros Hle. induction l as [|e l IH]; [reflexivity|]. cbn [List.filter].
  destruct (Z.ltb_spec (instant (Timestamp e)) cutoff); cbn [negb List.filter]; [exact IH|].
  destruct (Z.ltb_spec (instant (Timestamp e)) cutoff'); [lia|]. cbn [negb]. by rewrite IH.
Qed.

Lemma filter_all_true {A} (p : A → bool) (l : list A) :
  (∀ x, x ∈ l → p x = true) → List.filter p l = l.
Proof.
  induction l as [|x l IH]; intros H; [reflexivity|]. cbn [List.filter].
  rewrite (H x) by (by left). f_equal. apply IH. intros y Hy. apply H. by right.
Qed.

Lemma length_filter_zero {A} (p : A → bool) (l : list A) :
  Z.of_nat (length (List.filter p l)) = 0 ↔ ∀ x, x ∈ l → p x = false.
Proof.
  induction l as [|x l IH]; cbn [List.filter].
  - split; [|done]. intros _ x Hx. by apply elem_of_nil in Hx.
  - destruct (p x) eqn:Hx; cbn [length].
    + split; [lia|]. intros H. specialize (H x ltac:(by left)). congruence.
    + rewrite IH. split.
      * intros H y Hy. apply elem_of_cons in Hy as [->|Hy]; [exact Hx|by apply H].
      * intros H y Hy. apply H. by right.
Qed.

(** Two runs of [CleanupOldEvents], by the instants of their cut-offs. *)
Lemma CleanupOldEvents_twice (s : Storage) (now later : Time) (D : Z) :
  let cutoff := AddDate now 0 0 (wrap (- D)) in
  let cutoff' := AddDate later 0 0 (wrap (- D)) in
  closed s = false →
  chronological timestamp_text (cutoff :: cutoff' :: (Timestamp <$> change_events s)) →
  ∃ (s1 s2 : Storage) (deleted deleted' : Z),
    CleanupOldEvents timestamp_text AddDate s now D = (s1, deleted, None)
    ∧ change_events s1
      = List.filter (λ e, negb (instant (Timestamp e) <? instant cutoff)) (change_events s)
    ∧ (∀ e, e ∈ change_events s1
            ↔ e ∈ change_events s ∧ instant cutoff ≤ instant (Timestamp e))
    ∧ deleted = Z.of_nat (length (List.filter (λ e, instant (Timestamp e) <? instant cutoff)
                                              (change_events s)))
    ∧ deleted = Z.of_nat (length (change_events s)) - Z.of_nat (length (change_events s1))
    ∧ CleanupOldEvents timestamp_text AddDate s1 later D = (s2, deleted', None)
    ∧ change_events s2
      = List.filter (λ e, negb (instant (Timestamp e) <? instant cutoff')) (change_events s1)
    ∧ deleted' = Z.of_nat (length (List.filter (λ e, instant (Timestamp e) <? instant cutoff')
                                               (change_events s1)))
    ∧ (deleted' = 0 → s2 = s1)
    ∧ (instant cutoff' ≤ instant cutoff → deleted' = 0).
Proof.
  intros cutoff cutoff' Hopen Hchron.
  assert (∀ c, c ∈ [cutoff; cutoff'] →
               ∀ l, l ⊆ change_events s →
                    List.filter (λ e, String.ltb (timestamp_text (Timestamp e)) (timestamp_text c)) l
                    = List.filter (λ e, instant (Timestamp e) <? instant c) l
                    ∧ List.filter (λ e, negb (String.ltb (timestamp_text (Timestamp e))
                                                         (timestamp_text c))) l
                      = List.filter (λ e, negb (instant (Timestamp e) <? instant c)) l) as Htext.
  { intros c Hc l Hl.
    assert (∀ e, e ∈ l → String.ltb (timestamp_text (Timestamp e)) (timestamp_text c)
                         = (instant (Timestamp e) <? instant c)) as Heq.
    { intros e He. apply (chronological_older _ _ _ Hchron).
      - do 2 right. apply list_elem_of_fmap_2. by apply Hl.
      - apply elem_of_cons in Hc as [->|Hc]; [by left|].
        apply elem_of_cons in Hc as [->|Hc]; [right; by left|by apply elem_of_nil in Hc]. }
    split; apply filter_ext_elem; intros e He; by rewrite (Heq e He). }
  set (s1 := {| closed := false;
                change_events := List.filter (λ e, negb (instant (Timestamp e) <? instant cutoff))
                                             (change_events s);
                last_id := last_id s |}).
  set (s2 := {| closed := false;
                change_events := List.filter (λ e, negb (instant (Timestamp e) <? instant cutoff'))
                                             (change_events s1);
                last_id := last_id s1 |}).
  assert (change_events s1 ⊆ change_events s) as Hsub.
  { intros e. cbn [s1 change_events]. rewrite !list_elem_of_In, filter_In. tauto. }
  destruct (Htext cutoff ltac:(by left) (change_events s) ltac:(done)) as [Hd Hk].
  destruct (Htext cutoff' ltac:(right; by left) _ Hsub) as [Hd' Hk'].
  exists s1, s2, (Z.of_nat (length (List.filter (λ e, instant (Timestamp e) <? instant cutoff)
                                                (change_events s)))),
         (Z.of_nat (length (List.filter (λ e, instant (Timestamp e) <? instant cutoff')
                                        (change_events s1)))).
  split.
  { unfold CleanupOldEvents. rewrite Hopen. fold cutoff. cbv zeta. by rewrite Hd, Hk. }
  split; [reflexivity|].
  assert (∀ e, e ∈ change_events s1
               ↔ e ∈ change_events s ∧ instant cutoff ≤ instant (Timestamp e)) as Hkept.
  { intros e. cbn [s1 change_events]. rewrite !list_elem_of_In, filter_In.
    rewrite negb_true_iff, Z.ltb_ge. reflexivity. }
  split; [exact Hkept|].
  split; [reflexivity|].
  split; [apply length_filter_negb|].
  split.
  { unfold CleanupOldEvents. fold cutoff'. cbv zeta.
    replace (closed s1) with false by reflexivity. by rewrite Hd', Hk'. }
  split; [reflexivity|].
  split; [reflexivity|].
  split.
  - intros H0.
    pose proof (proj1 (length_filter_zero
                         (λ e, instant (Timestamp e) <? instant cutoff') (change_events s1)) H0)
      as Hall.
    unfold s2. rewrite filter_all_true; [reflexivity|].
    intros e He. by rewrite (Hall e He).
  - intros Hle. cbn [s1 change_events]. by rewrite (filter_nil_older _ _ _ Hle).
Qed.

(** C6.  On an open store whose timestamps, with the two cut-offs, have
    texts ordered as their instants, and with [AddDate] moving the instant
    back by [D] days of 24 hours: [CleanupOldEvents] at [now] with retention
    [D] keeps, in their order and unchanged, exactly the rows that are not
    older than [now] minus [D] days, removes the others and returns their
    number.  A second run, at [later], removes the rows left that are older
    than [later] minus [D] days and returns their number: it returns [0]
    exactly when no row left is that old, as when the clock has not
    advanced, and then changes nothing. *)
Theorem CleanupOldEvents_removes_older_rows (s : Storage) (now later : Time) (D : Z) :
  let cutoff := AddDate now 0 0 (wrap (- D)) in
  let cutoff' := AddDate later 0 0 (wrap (- D)) in
  closed s = false →
  chronological timestamp_text (cutoff :: cutoff' :: (Timestamp <$> change_events s)) →
  instant cutoff = instant now - D * (24 * Hour) →
  instant cutoff' = instant later - D * (24 * Hour) →
  ∃ (s1 s2 : Storage) (deleted deleted' : Z),
    CleanupOldEvents timestamp_text AddDate s now D = (s1, deleted, None)
    ∧ change_events s1
      = List.filter (λ e, negb (instant (Timestamp e) <? instant now - D * (24 * Hour)))
                    (change_events s)
    ∧ (∀ e, e ∈ change_events s1
            ↔ e ∈ change_events s ∧ instant now - D * (24 * Hour) ≤ instant (Timestamp e))
    ∧ deleted = Z.of_nat (length (List.filter
                                    (λ e, instant (Timestamp e) <? instant now - D * (24 * Hour))
                                    (change_events s)))
    ∧ deleted = Z.of_nat (length (change_events s)) - Z.of_nat (length (change_events s1))
    ∧ CleanupOldEvents timestamp_text AddDate s1 later D = (s2, deleted', None)
    ∧ change_events s2
      = List.filter (λ e, negb (instant (Timestamp e) <? instant later - D * (24 * Hour)))
                    (change_events s1)
    ∧ deleted' = Z.of_nat (length (List.filter
                                     (λ e, instant (Timestamp e) <? instant later - D * (24 * Hour))
                                     (change_events s1)))
    ∧ (deleted' = 0
       ↔ ∀ e, e ∈ change_events s1 → instant later - D * (24 * Hour) ≤ instant (Timestamp e))
    ∧ (deleted' = 0 → s2 = s1)
    ∧ (instant later ≤ instant now → deleted' = 0).
Proof.
  intros cutoff cutoff' Hopen Hchron Hcut Hcut'.
  destruct (CleanupOldEvents_twice s now later D Hopen Hchron)
    as (s1 & s2 & deleted & deleted' & H1 & Hs1 & Hkept & Hdel & Hlen & H2 & Hs2 & Hdel'
        & Hsame & Hle).
  fold cutoff in Hs1, Hkept, Hdel, Hle. fold cutoff' in Hs2, Hdel', Hle.
  rewrite Hcut in Hs1, Hkept, Hdel, Hle. rewrite Hcut' in Hs2, Hdel', Hle.
  exists s1, s2, deleted, deleted'.
  repeat (split; [assumption|]).
  split; [|split; [exact Hsame|intros ?; apply Hle; lia]].
  rewrite Hdel', length_filter_zero. by setoid_rewrite Z.ltb_ge.
Qed.

End StorageProperties.

Example timestampText_sample :
  Sample.timestampText (Sample.clock 2024 10 27 2 30 0 7200) = "2024-10-27 02:30:00+02:00"
  ∧ Sample.timestampText (Sample.clock 2024 10 27 2 10 0 3600) = "2024-10-27 02:10:00+01:00"
  ∧ Sample.timestampText (Sample.clock 2023 12 31 18 59 59 (-18000)) = "2023-12-31 18:59:59-05:00"
  ∧ Sample.timestampText (UTC (instant (Sample.clock 2024 2 29 12 0 0 0) + 120000000))
    = "2024-02-29 12:00:00.12+00:00"
  ∧ Sample.timestampText (UTC (10 * Sample.day)) = "0001-01-11 00:00:00+00:00".
Proof. vm_compute. repeat split. Qed.

Example GetEvents_sample :
  storage.GetEvents Sample.likeWhole Sample.timestampText Sample.table
    (storage.set_paging Sample.noFilter 2 1)
  = ([ Sample.row 3 (UTC (20 * Sample.day)) "ConfigMap" "settings" "ADDED" "ConfigMap created with 1 key(s)";
       Sample.row 1 (UTC (10 * Sample.day)) "Deployment" "web" "ADDED" "Deployment created" ], None).
Proof. vm_compute. reflexivity. Qed.



Example CleanupOldEvents_sample :
  storage.CleanupOldEvents Sample.timestampText Sample.addDays Sample.table
    (UTC (40 * Sample.day)) 15
  = ({| storage.closed := false;
        storage.change_events :=
          [ Sample.row 2 (UTC (30 * Sample.day)) "Deployment" "web" "MODIFIED" "Scaled up: 2 → 4 replicas" ];
        storage.last_id := 3 |}, 2%Z, None).
Proof. vm_compute. reflexivity. Qed.

(** A row stamped 25 days after the zero time is kept by the run at day 40
    with a retention of 15 days, and removed by the run one nanosecond
    later.  And a row written at 08:00 on October 1, 2024 in a zone nine
    hours east of UTC, an hour before midnight UTC, is more than 15 days old
    at midnight UTC of October 16, yet the run at that moment keeps it: its
    text is above the text of the cut-off. *)
Lemma CleanupOldEvents_deletes_again_and_keeps_old_row :
  let old := Sample.row 1 (UTC (10 * Sample.day)) "Deployment" "web" "ADDED" "Deployment created" in
  let edge := Sample.row 2 (UTC (25 * Sample.day)) "Deployment" "web" "MODIFIED"
                "Scaled up: 2 → 4 replicas" in
  let store rows := {| storage.closed := false; storage.change_events := rows;
                       storage.last_id := 2 |} in
  let east := Sample.row 1 (Sample.clock 2024 10 1 8 0 0 32400) "Deployment" "web" "ADDED"
                "Deployment created" in
  let midnight := Sample.clock 2024 10 16 0 0 0 0 in
  (storage.CleanupOldEvents Sample.timestampText Sample.addDays (store [old; edge])
     (UTC (40 * Sample.day)) 15 = (store [edge], 1, None)
   ∧ storage.CleanupOldEvents Sample.timestampText Sample.addDays (store [edge])
       (UTC (40 * Sample.day + 1)) 15 = (store [], 1, None))
  ∧ (storage.CleanupOldEvents Sample.timestampText Sample.addDays (store [east]) midnight 15
     = (store [east], 0, None)
     ∧ instant (storage.Timestamp east) < instant midnight - 15 * (24 * Hour)
     ∧ Sample.timestampText (storage.Timestamp east) = "2024-10-01 08:00:00+09:00"
     ∧ Sample.timestampText (Sample.addDays midnight 0 0 (-15)) = "2024-10-01 00:00:00+00:00").
Proof. vm_compute. repeat split; reflexivity. Qed.

Lemma CleanupOldEvents_removes_older_rows_witness :
  let now := UTC (40 * Sample.day) in
  let later := UTC (40 * Sample.day + 3600 * Sample.second) in
  let cutoff := Sample.addDays now 0 0 (wrap (- 15)) in
  let cutoff' := Sample.addDays later 0 0 (wrap (- 15)) in
  storage.closed Sample.table = false
  ∧ chronological Sample.timestampText
      (cutoff :: cutoff' :: (storage.Timestamp <$> storage.change_events Sample.table))
  ∧ instant cutoff = instant now - 15 * (24 * Hour)
  ∧ instant cutoff' = instant later - 15 * (24 * Hour)
  ∧ ∃ (s1 s2 : storage.Storage) (deleted deleted' : Z),
      storage.CleanupOldEvents Sample.timestampText Sample.addDays Sample.table now 15
      = (s1, deleted, None)
      ∧ storage.change_events s1
        = List.filter (λ e, negb (instant (storage.Timestamp e) <? instant now - 15 * (24 * Hour)))
            (storage.change_events Sample.table)
      ∧ (∀ e, e ∈ storage.change_events s1
              ↔ e ∈ storage.change_events Sample.table
                ∧ instant now - 15 * (24 * Hour) ≤ instant (storage.Timestamp e))
      ∧ deleted = Z.of_nat (length (List.filter
                                      (λ e, instant (storage.Timestamp e)
                                            <? instant now - 15 * (24 * Hour))
                                      (storage.change_events Sample.table)))
      ∧ deleted = Z.of_nat (length (storage.change_events Sample.table))
                  - Z.of_nat (length (storage.change_events s1))
      ∧ storage.CleanupOldEvents Sample.timestampText Sample.addDays s1 later 15
        = (s2, deleted', None)
      ∧ storage.change_events s2
        = List.filter (λ e, negb (instant (storage.Timestamp e)
                                  <? instant later - 15 * (24 * Hour)))
            (storage.change_events s1)
      ∧ deleted' = Z.of_nat (length (List.filter
                                       (λ e, instant (storage.Timestamp e)
                                             <? instant later - 15 * (24 * Hour))
                                       (storage.change_events s1)))
      ∧ (deleted' = 0
         ↔ ∀ e, e ∈ storage.change_events s1
                → instant later - 15 * (24 * Hour) ≤ instant (storage.Timestamp e))
      ∧ (deleted' = 0 → s2 = s1)
      ∧ (instant later ≤ instant now → deleted' = 0).
Proof.
  intros now later cutoff cutoff'.
  assert (chronological Sample.timestampText
            (cutoff :: cutoff' :: (storage.Timestamp <$> storage.change_events Sample.table)))
    as Hchron by (apply chronological_forallb; vm_compute; reflexivity).
  split; [reflexivity|]. split; [exact Hchron|]. split; [reflexivity|]. split; [reflexivity|].
  exact (CleanupOldEvents_removes_older_rows Sample.timestampText Sample.addDays Sample.table
           now later 15 eq_refl Hchron eq_refl eq_refl).
Defined.

(** * Properties of the notifier *)

Section NotifierProperties.

Import storage notifier.

Variable respond : string → slackMessage → PostResult.

Lemma sendMessage_posts_once s msg out :
  (sendMessage respond s msg out).1 = out ++ [(webhookURL s, msg)].
Proof.
  unfold sendMessage. destruct (respond (webhookURL s) msg) as [err|code]; [reflexivity|].
  by destruct (code =? 200).
Qed.

(** C9.  [NotifyChange] makes a request, exactly one, only when the
    notifier is enabled and the event's action is [MODIFIED] or [DELETED];
    otherwise, in particular for [ADDED], nothing is sent and no error is
    returned.  A notifier made from an empty webhook is disabled and its
    [NotifyChange] does nothing, whatever the event. *)
Theorem NotifyChange_only_modified_or_deleted (s : SlackNotifier) (event : ChangeEvent) (out : Outbox) :
  (if enabled s && notifiable event
   then ∃ msg, (NotifyChange respond s event out).1 = out ++ [(webhookURL s, msg)]
   else NotifyChange respond s event out = (out, None))
  ∧ (Action event = "ADDED" → NotifyChange respond s event out = (out, None))
  ∧ IsEnabled (NewSlackNotifier "") = false
  ∧ NotifyChange respond (NewSlackNotifier "") event out = (out, None).
Proof.
  assert (enabled s && notifiable event = false → NotifyChange respond s event out = (out, None))
    as Hquiet.
  { unfold NotifyChange, notifiable. destruct (enabled s); cbn [negb andb]; [|reflexivity].
    intros H. apply orb_false_elim in H as [-> ->]. reflexivity. }
  split; [|split; [|split; reflexivity]].
  - destruct (enabled s && notifiable event) eqn:Hgo; [|by apply Hquiet].
    apply andb_prop in Hgo as [Hen Hact]. unfold NotifyChange, notifiable in *.
    rewrite Hen. cbn [negb]. apply orb_prop in Hact.
    eexists. destruct Hact as [-> | ->]; cbn [negb andb];
      [|rewrite andb_false_r]; apply sendMessage_posts_once.
  - intros Hadd. apply Hquiet. unfold notifiable. rewrite Hadd. apply andb_false_r.
Qed.

End NotifierProperties.

Example NotifyChange_sample_added :
  notifier.NotifyChange (λ _ _, notifier.Response 200) (notifier.NewSlackNotifier "https://hooks.example/T0")
    (Sample.row 1 (UTC 10) "Deployment" "web" "ADDED" "Deployment created") []
  = ([], None).
Proof. reflexivity. Qed.

Example NotifyChange_sample_modified :
  length (notifier.NotifyChange (λ _ _, notifier.Response 200)
            (notifier.NewSlackNotifier "https://hooks.example/T0")
            (Sample.row 2 (UTC 30) "Deployment" "web" "MODIFIED" "Scaled up: 2 → 4 replicas") []).1
  = 1%nat.
Proof. reflexivity. Qed.

(** * Properties of the watchers *)

Section SaveAndNotify.

Import storage watcher.

(** C10.  [saveAndNotify] returns the error of [SaveEvent] as it is.  On an
    error the store is unchanged and no notification task is started; on
    success the event is appended to the table, and the only task that may be
    added is the one for that saved row.  So every task started here is for a
    row of the table. *)
Theorem saveAndNotify_notifies_only_saved (w : Watcher) (event : ChangeEvent) :
  let r := saveAndNotify w event in
  (SaveEvent (watcher.storage w) event).2 = r.2
  ∧ watcher.notifier r.1 = watcher.notifier w
  ∧ match r.2 with
    | Some err =>
      watcher.storage r.1 = watcher.storage w ∧ goroutines r.1 = goroutines w
    | None =>
      ∃ saved,
        change_events (watcher.storage r.1) = change_events (watcher.storage w) ++ [saved]
        ∧ saved = set_ID event (last_id (watcher.storage w) + 1)
        ∧ goroutines r.1
          = (if notifier.IsEnabled (watcher.notifier w) then goroutines w ++ [saved] else goroutines w)
    end
  ∧ (∀ e, e ∈ goroutines r.1 → e ∈ goroutines w ∨ e ∈ change_events (watcher.storage r.1)).
Proof.
  unfold saveAndNotify, SaveEvent. destruct (closed (watcher.storage w)) eqn:Hc; cbn.
  - repeat split; auto.
  - repeat split; [eexists; repeat split|].
    intros e. destruct (notifier.IsEnabled (watcher.notifier w)); [|auto].
    rewrite !elem_of_app. tauto.
Qed.

Lemma saveAndNotify_tasksStored (w : Watcher) (event : ChangeEvent) :
  tasksStored w → tasksStored (saveAndNotify w event).1.
Proof.
  unfold tasksStored, saveAndNotify, SaveEvent. intros Hw e.
  destruct (closed (watcher.storage w)); cbn; [apply Hw|].
  destruct (notifier.IsEnabled (watcher.notifier w)); rewrite !elem_of_app; [|by auto].
  intros [He|He]; auto.
Qed.

Lemma saveAndNotify_open (w : Watcher) (event : ChangeEvent) :
  closed (watcher.storage w) = false →
  change_events (watcher.storage (saveAndNotify w event).1)
  = change_events (watcher.storage w) ++ [set_ID event (last_id (watcher.storage w) + 1)].
Proof. intros Hc. unfold saveAndNotify, SaveEvent. rewrite Hc. reflexivity. Qed.

End SaveAndNotify.

Section DeploymentScale.

Import appsv1 watcher.

(** C8.  When the replica counts of the two snapshots differ, the summary is
    [label: old → new replicas] with the two counts in decimal, and the
    label is [Scaled up] exactly when the new count is the larger,
    [Scaled down] exactly when it is the smaller. *)
Theorem detectMeaningfulChanges_scale_direction (oldDep newDep : Deployment.t) :
  replicasOf oldDep ≠ replicasOf newDep →
  ∃ label : string,
    detectMeaningfulChanges oldDep newDep
    = (true, label +:+ ": " +:+ fmt.d (replicasOf oldDep) +:+ " → "
             +:+ fmt.d (replicasOf newDep) +:+ " replicas")
    ∧ (replicasOf oldDep < replicasOf newDep ↔ label = "Scaled up")
    ∧ (replicasOf newDep < replicasOf oldDep ↔ label = "Scaled down").
Proof.
  intros Hne. unfold detectMeaningfulChanges. fold (replicasOf oldDep) (replicasOf newDep).
  destruct (Z.eqb_spec (replicasOf oldDep) (replicasOf newDep)) as [|_]; [done|].
  cbn [negb]. destruct (Z.ltb_spec (replicasOf oldDep) (replicasOf newDep)) as [Hlt|Hge].
  - exists "Scaled up". split; [reflexivity|]. split; [tauto|].
    split; [lia|discriminate].
  - exists "Scaled down". split; [reflexivity|]. split; [|split; [done|lia]].
    split; [lia|discriminate].
Qed.

End DeploymentScale.

Example scale_up_sample :
  watcher.detectMeaningfulChanges (SampleObjects.web (Some 2) "web:1") (SampleObjects.web (Some 4) "web:2")
  = (true, "Scaled up: 2 → 4 replicas").
Proof. vm_compute. reflexivity. Qed.

Example scale_down_to_nil_sample :
  watcher.detectMeaningfulChanges (SampleObjects.web (Some 3) "web:1") (SampleObjects.web None "web:1")
  = (true, "Scaled down: 3 → 0 replicas").
Proof. vm_compute. reflexivity. Qed.

Lemma detectMeaningfulChanges_scale_direction_witness :
  replicasOf (SampleObjects.web (Some 2) "web:1") ≠ replicasOf (SampleObjects.web (Some 4) "web:2")
  ∧ ∃ label : string,
      watcher.detectMeaningfulChanges (SampleObjects.web (Some 2) "web:1") (SampleObjects.web (Some 4) "web:2")
      = (true, label +:+ ": " +:+ fmt.d (replicasOf (SampleObjects.web (Some 2) "web:1")) +:+ " → "
               +:+ fmt.d (replicasOf (SampleObjects.web (Some 4) "web:2")) +:+ " replicas")
      ∧ (replicasOf (SampleObjects.web (Some 2) "web:1") < replicasOf (SampleObjects.web (Some 4) "web:2")
         ↔ label = "Scaled up")
      ∧ (replicasOf (SampleObjects.web (Some 4) "web:2") < replicasOf (SampleObjects.web (Some 2) "web:1")
         ↔ label = "Scaled down").
Proof.
  assert (replicasOf (SampleObjects.web (Some 2) "web:1") ≠ replicasOf (SampleObjects.web (Some 4) "web:2"))
    as Hne by (vm_compute; discriminate).
  split; [exact Hne|].
  exact (detectMeaningfulChanges_scale_direction _ _ Hne).
Defined.

(** ** Key sets and visiting order of a map *)

Section MapKeys.

Import watcher.

Context {V : Type}.

Lemma inKeys_keySet (m : gmap string V) (k : string) :
  inKeys (keySet m) k = bool_decide (is_Some (m !! k)).
Proof.
  unfold inKeys, keySet. rewrite lookup_fmap.
  by destruct (m !! k).
Qed.

Lemma elem_of_rangeKeys (m : gmap string V) (k : string) :
  k ∈ rangeKeys m ↔ is_Some (m !! k).
Proof.
  unfold rangeKeys. rewrite list_elem_of_fmap. split.
  - intros [[k' v] [-> Hin]]. apply elem_of_map_to_list in Hin. eauto.
  - intros [v Hv]. exists (k, v). split; [reflexivity|]. by apply elem_of_map_to_list.
Qed.

Lemma NoDup_rangeKeys (m : gmap string V) : NoDup (rangeKeys m).
Proof. apply NoDup_fst_map_to_list. Qed.

(** The keys of [m] that [other] lacks, as the detectors collect them. *)
Lemma missing_keys_spec {W} (m : gmap string V) (other : gmap string W) :
  let keys := List.filter (λ k, negb (inKeys (keySet other) k)) (rangeKeys m) in
  NoDup keys ∧ ∀ k, k ∈ keys ↔ is_Some (m !! k) ∧ other !! k = None.
Proof.
  split.
  - apply NoDup_ListNoDup, List.NoDup_filter, NoDup_ListNoDup, NoDup_rangeKeys.
  - intros k. rewrite list_elem_of_In, filter_In, <- list_elem_of_In, elem_of_rangeKeys.
    unfold inKeys, keySet. rewrite lookup_fmap.
    destruct (other !! k); cbn; intuition (discriminate || auto).
Qed.

(** The order of visit is that of the key set alone. *)
Lemma rangeKeys_keySet (m : gmap string V) : rangeKeys (keySet m) = rangeKeys m.
Proof.
  unfold rangeKeys, keySet. rewrite map_to_list_fmap, <- list_fmap_compose.
  apply list_fmap_ext. by intros i [k v] _.
Qed.

End MapKeys.

Lemma keySet_same_keys {V W} (m1 : gmap string V) (m2 : gmap string W) :
  (∀ k, is_Some (m1 !! k) ↔ is_Some (m2 !! k)) → watcher.keySet m1 = watcher.keySet m2.
Proof.
  intros H. apply map_eq. intros k. unfold watcher.keySet. rewrite !lookup_fmap.
  specialize (H k). destruct (m1 !! k), (m2 !! k); cbn; try reflexivity.
  - destruct H as [H _]. destruct H as [? ?]; [eauto|discriminate].
  - destruct H as [_ H]. destruct H as [? ?]; [eauto|discriminate].
Qed.

Lemma rangeKeys_same_keys {V W} (m1 : gmap string V) (m2 : gmap string W) :
  (∀ k, is_Some (m1 !! k) ↔ is_Some (m2 !! k)) → watcher.rangeKeys m1 = watcher.rangeKeys m2.
Proof.
  intros H. rewrite <- (rangeKeys_keySet m1), <- (rangeKeys_keySet m2).
  by rewrite (keySet_same_keys m1 m2 H).
Qed.

(** ** ConfigMaps *)

Section ConfigMapDiff.

Import corev1 watcher.

Lemma modified_entries (o : gmap string string) (l : list (string * string)) :
  flat_map (λ '(k, newVal),
              match o !! k with
              | Some oldVal =>
                if negb (String.eqb oldVal newVal)
                then [(k, "[" +:+ k +:+ "]" +:+ fmt.nl +:+ "- " +:+ oldVal
                          +:+ fmt.nl +:+ "+ " +:+ newVal)]
                else []
              | None => []
              end) l
  = map (λ kv, (kv.1, keyDetail kv.1 (default "" (o !! kv.1)) kv.2))
        (List.filter (changedEntry o) l).
Proof.
  induction l as [|[k v] l IH]; [reflexivity|].
  cbn [flat_map List.filter]. unfold changedEntry at 1. cbn [fst snd].
  destruct (o !! k) as [a|] eqn:Hk; [|exact IH].
  destruct (negb (String.eqb a v)); [|exact IH].
  cbn [app map fst snd]. rewrite Hk, IH. reflexivity.
Qed.

Lemma NoDup_fst_filter {A B} (p : A * B → bool) (l : list (A * B)) :
  NoDup l.*1 → NoDup (List.filter p l).*1.
Proof.
  induction l as [|x l IH]; [done|]. cbn [List.filter fmap list_fmap].
  rewrite NoDup_cons. intros [Hx Hl]. destruct (p x); [|auto].
  cbn [fmap list_fmap]. rewrite NoDup_cons. split; [|auto].
  intros Hin. apply Hx. apply list_elem_of_fmap in Hin as [y [-> Hy]].
  apply list_elem_of_fmap. exists y. split; [reflexivity|].
  apply list_elem_of_In, filter_In in Hy as [Hy _]. by apply list_elem_of_In.
Qed.

Lemma changed_keys_spec (o n : gmap string string) (k : string) :
  k ∈ (List.filter (changedEntry o) (map_to_list n)).*1
  ↔ ∃ a b, o !! k = Some a ∧ n !! k = Some b ∧ a ≠ b.
Proof.
  rewrite list_elem_of_fmap. split.
  - intros [[k' b] [-> Hin]]. apply list_elem_of_In, filter_In in Hin as [Hin Hch].
    apply list_elem_of_In, elem_of_map_to_list in Hin. unfold changedEntry in Hch.
    cbn [fst snd] in *. destruct (o !! k') as [a|]; [|discriminate].
    exists a, b. repeat split; auto. intros ->. by rewrite String.eqb_refl in Hch.
  - intros (a & b & Ho & Hn & Hne). exists (k, b). split; [reflexivity|].
    apply list_elem_of_In, filter_In. split.
    + by apply list_elem_of_In, elem_of_map_to_list.
    + unfold changedEntry. cbn [fst snd]. rewrite Ho.
      apply negb_true_iff, String.eqb_neq. exact Hne.
Qed.

Lemma changed_details (o n : gmap string string) :
  map (λ kv, keyDetail kv.1 (default "" (o !! kv.1)) kv.2)
      (List.filter (changedEntry o) (map_to_list n))
  = map (λ k, keyDetail k (default "" (o !! k)) (default "" (n !! k)))
        (List.filter (changedEntry o) (map_to_list n)).*1.
Proof.
  assert (Forall (λ kv, n !! kv.1 = Some kv.2) (List.filter (changedEntry o) (map_to_list n))) as H.
  { apply Forall_forall. intros [k v] Hin.
    apply list_elem_of_In, filter_In in Hin as [Hin _].
    by apply list_elem_of_In, elem_of_map_to_list in Hin. }
  induction H as [|[k v] l Hk _ IH]; [reflexivity|].
  cbn [map fmap list_fmap fst snd] in *. rewrite Hk. cbn [default]. by rewrite IH.
Qed.

(** C4, as the code has it.  With [added] the keys only the new map has,
    [removed] the keys only the old map has, and [modified] the keys of both
    whose values differ, each key listed once: no change is reported when the
    three are empty; otherwise the diff lists the added keys alone when there
    are any, else the removed keys alone when there are any, else the
    modified keys, followed for each of them by the block
    [[key] / - old value / + new value] with the two values as they are. *)
Theorem detectConfigMapChanges_reports (oldCM newCM : ConfigMap.t) :
  let o := ConfigMap.Data oldCM in
  let n := ConfigMap.Data newCM in
  ∃ added removed modified : list string,
    (NoDup added ∧ ∀ k, k ∈ added ↔ is_Some (n !! k) ∧ o !! k = None)
    ∧ (NoDup removed ∧ ∀ k, k ∈ removed ↔ is_Some (o !! k) ∧ n !! k = None)
    ∧ (NoDup modified ∧ ∀ k, k ∈ modified ↔ ∃ a b, o !! k = Some a ∧ n !! k = Some b ∧ a ≠ b)
    ∧ detectConfigMapChanges oldCM newCM
      = match added, removed, modified with
        | [], [], [] => (false, "")
        | _ :: _, _, _ => (true, "Keys added: " +:+ fmt.v_strings added)
        | [], _ :: _, _ => (true, "Keys removed: " +:+ fmt.v_strings removed)
        | [], [], _ :: _ =>
          (true, "Keys modified: " +:+ fmt.v_strings modified +:+ fmt.nl +:+ fmt.nl
                 +:+ fmt.Join (map (λ k, keyDetail k (default "" (o !! k)) (default "" (n !! k)))
                                   modified)
                              (fmt.nl +:+ fmt.nl))
        end.
Proof.
  intros o n.
  exists (List.filter (λ k, negb (inKeys (keySet o) k)) (rangeKeys n)),
         (List.filter (λ k, negb (inKeys (keySet n) k)) (rangeKeys o)),
         (List.filter (changedEntry o) (map_to_list n)).*1.
  split; [apply (missing_keys_spec n o)|].
  split; [apply (missing_keys_spec o n)|].
  split; [split; [apply NoDup_fst_filter, NoDup_fst_map_to_list | apply changed_keys_spec]|].
  unfold detectConfigMapChanges. fold o n. rewrite modified_entries.
  rewrite <- changed_details.
  set (added := List.filter _ (rangeKeys n)).
  set (removed := List.filter _ (rangeKeys o)).
  set (entries := List.filter (changedEntry o) (map_to_list n)).
  replace ((map (λ kv, (kv.1, keyDetail kv.1 (default "" (o !! kv.1)) kv.2)) entries).*1)
    with (entries.*1)
    by (rewrite <- list_fmap_compose; apply list_fmap_ext; by intros i [k v] _).
  replace ((map (λ kv, (kv.1, keyDetail kv.1 (default "" (o !! kv.1)) kv.2)) entries).*2)
    with (map (λ kv, keyDetail kv.1 (default "" (o !! kv.1)) kv.2) entries)
    by (rewrite <- list_fmap_compose; apply list_fmap_ext; by intros i [k v] _).
  destruct added as [|ka added]; [|reflexivity].
  destruct removed as [|kr removed]; [|reflexivity].
  destruct entries as [|e entries]; reflexivity.
Qed.

End ConfigMapDiff.

Example detectConfigMapChanges_modified_sample :
  watcher.detectConfigMapChanges SampleConfigMaps.before SampleConfigMaps.afterModeOnly
  = (true, "Keys modified: [mode]" +:+ fmt.nl +:+ fmt.nl
           +:+ "[mode]" +:+ fmt.nl +:+ "- fast" +:+ fmt.nl +:+ "+ safe").
Proof. vm_compute. reflexivity. Qed.

(** C4 as stated fails: with a key added and another modified, the diff
    lists the added key only; the modified key and its before and after text
    are absent from it. *)
Lemma detectConfigMapChanges_omits_modified_key :
  corev1.ConfigMap.Data SampleConfigMaps.before !! "mode" = Some "fast"
  ∧ corev1.ConfigMap.Data SampleConfigMaps.after !! "mode" = Some "safe"
  ∧ watcher.detectConfigMapChanges SampleConfigMaps.before SampleConfigMaps.after
    = (true, "Keys added: [owner]")
  ∧ mentions (watcher.detectConfigMapChanges SampleConfigMaps.before SampleConfigMaps.after).2
             "mode" = false
  ∧ mentions (watcher.detectConfigMapChanges SampleConfigMaps.before SampleConfigMaps.after).2
             "- fast" = false
  ∧ mentions (watcher.detectConfigMapChanges SampleConfigMaps.before SampleConfigMaps.after).2
             "+ safe" = false.
Proof. vm_compute. repeat split; reflexivity. Qed.

(** ** Secrets *)

Section SecretValues.

Import corev1 watcher.

Variable json_string : string → string.

Lemma string_of_list_byte_eqb (a b : list Byte.byte) :
  String.eqb (string_of_list_byte a) (string_of_list_byte b) = true ↔ a = b.
Proof.
  rewrite String.eqb_eq. split; [|by intros ->].
  intros H. rewrite <- (list_byte_of_string_of_list_byte a), H.
  apply list_byte_of_string_of_list_byte.
Qed.

Lemma modifiedKeys_by_key (o n : gmap string (list Byte.byte)) :
  flat_map (λ '(k, newVal),
              match o !! k with
              | Some oldVal =>
                if negb (String.eqb (string_of_list_byte oldVal) (string_of_list_byte newVal))
                then [k] else []
              | None => []
              end) (map_to_list n)
  = List.filter (valueChanged o n) (rangeKeys n).
Proof.
  unfold rangeKeys.
  assert (Forall (λ kv, n !! kv.1 = Some kv.2) (map_to_list n)) as H.
  { apply Forall_forall. intros [k v] Hin. by apply elem_of_map_to_list in Hin. }
  induction H as [|[k v] l Hk _ IH]; [reflexivity|].
  cbn [flat_map fmap list_fmap List.filter fst snd] in *. unfold valueChanged at 1.
  rewrite Hk, IH. destruct (o !! k) as [a|]; [|reflexivity].
  by destruct (negb _).
Qed.

Lemma same_keys_of_dom {V W} (m1 : gmap string V) (m2 : gmap string W) :
  dom m1 = dom m2 → ∀ k, is_Some (m1 !! k) ↔ is_Some (m2 !! k).
Proof. intros H k. by rewrite <- !elem_of_dom, H. Qed.

Lemma is_Some_iff_cases {A B} (x : option A) (y : option B) :
  (is_Some x ↔ is_Some y) → (∃ a b, x = Some a ∧ y = Some b) ∨ (x = None ∧ y = None).
Proof.
  intros [Hxy Hyx]. destruct x as [a|], y as [b|]; eauto.
  - destruct Hxy as [? ?]; [eauto|discriminate].
  - destruct Hyx as [? ?]; [eauto|discriminate].
Qed.

Lemma valueChanged_same (old1 new1 old2 new2 : Secret.t) (k : string) :
  sameKeysAndType old1 old2 → sameKeysAndType new1 new2 → sameEqualities old1 new1 old2 new2 →
  valueChanged (Secret.Data old1) (Secret.Data new1) k
  = valueChanged (Secret.Data old2) (Secret.Data new2) k.
Proof.
  intros (_ & Ho) (_ & Hn) Heq. unfold valueChanged.
  specialize (Heq k).
  destruct (is_Some_iff_cases _ _ (same_keys_of_dom _ _ Ho k))
    as [(a1 & a2 & Ha1 & Ha2) | [Ha1 Ha2]]; rewrite Ha1, Ha2 in *; [|reflexivity].
  destruct (is_Some_iff_cases _ _ (same_keys_of_dom _ _ Hn k))
    as [(b1 & b2 & Hb1 & Hb2) | [Hb1 Hb2]]; rewrite Hb1, Hb2 in *; [|reflexivity].
  specialize (Heq a1 b1 a2 b2 eq_refl eq_refl eq_refl eq_refl).
  f_equal. apply eq_true_iff_eq. rewrite !string_of_list_byte_eqb. exact Heq.
Qed.

Lemma filter_ext_all {A} (p q : A → bool) (l : list A) :
  (∀ x, p x = q x) → List.filter p l = List.filter q l.
Proof. intros H. apply filter_ext_in. auto. Qed.

Lemma detectSecretChanges_same (old1 new1 old2 new2 : Secret.t) :
  sameKeysAndType old1 old2 → sameKeysAndType new1 new2 → sameEqualities old1 new1 old2 new2 →
  detectSecretChanges old1 new1 = detectSecretChanges old2 new2.
Proof.
  intros Ho Hn Heq. unfold detectSecretChanges.
  rewrite !modifiedKeys_by_key.
  rewrite (filter_ext_all _ _ _ (λ k, valueChanged_same old1 new1 old2 new2 k Ho Hn Heq)).
  destruct Ho as (Hto & Hdo), Hn as (Htn & Hdn).
  rewrite Hto, Htn.
  rewrite (keySet_same_keys _ _ (same_keys_of_dom _ _ Hdo)).
  rewrite (keySet_same_keys _ _ (same_keys_of_dom _ _ Hdn)).
  rewrite (rangeKeys_same_keys _ _ (same_keys_of_dom _ _ Hdo)).
  rewrite (rangeKeys_same_keys _ _ (same_keys_of_dom _ _ Hdn)).
  reflexivity.
Qed.

Lemma handleSecretEvent_same_subject (w : Watcher) (now : Time) (t : watch.EventType)
      (s1 s2 : Secret.t) (a b : option Secret.t) :
  Secret.ObjectMeta s1 = Secret.ObjectMeta s2 → sameKeysAndType s1 s2 →
  match t, a, b with
  | watch.Modified, Some o1, Some o2 => detectSecretChanges o1 s1 = detectSecretChanges o2 s2
  | watch.Modified, _, _ => False
  | _, _, _ => True
  end →
  handleSecretEvent json_string w now t a (Some s1)
  = handleSecretEvent json_string w now t b (Some s2).
Proof.
  intros Hm (Ht & Hd) Hdet.
  pose proof (rangeKeys_same_keys _ _ (same_keys_of_dom _ _ Hd)) as Hkeys.
  assert (systemSecret s1 = systemSecret s2) as Hsys by (unfold systemSecret; by rewrite Hm, Ht).
  unfold handleSecretEvent, keysJSON. rewrite Hm, Ht, Hkeys, Hsys.
  destruct t, a as [o1|], b as [o2|]; try reflexivity; try contradiction.
  by rewrite Hdet.
Qed.

Lemma handleSecretEvent_same_deleted (w : Watcher) (now : Time) (s1 s2 : Secret.t) :
  Secret.ObjectMeta s1 = Secret.ObjectMeta s2 → sameKeysAndType s1 s2 →
  handleSecretEvent json_string w now watch.Deleted (Some s1) None
  = handleSecretEvent json_string w now watch.Deleted (Some s2) None.
Proof.
  intros Hm (Ht & Hd).
  pose proof (rangeKeys_same_keys _ _ (same_keys_of_dom _ _ Hd)) as Hkeys.
  assert (systemSecret s1 = systemSecret s2) as Hsys by (unfold systemSecret; by rewrite Hm, Ht).
  unfold handleSecretEvent, keysJSON. by rewrite Hm, Ht, Hkeys, Hsys.
Qed.

(** C2.  Take two pairs of Secret snapshots that agree on the type, on
    the key sets, and on which keys have equal old and new values; the bytes
    of the values are otherwise arbitrary.  Then [detectSecretChanges]
    returns the same verdict and the same diff for both pairs.  When the
    pairs are moreover about the same object (same metadata), each of the
    three deliveries leaves the watcher in the same state for both: the same
    events, with the same diff and metadata strings, are stored and queued
    for notification. *)
Theorem secret_events_do_not_depend_on_values (old1 new1 old2 new2 : Secret.t) :
  sameKeysAndType old1 old2 → sameKeysAndType new1 new2 →
  sameEqualities old1 new1 old2 new2 →
  detectSecretChanges old1 new1 = detectSecretChanges old2 new2
  ∧ (Secret.ObjectMeta old1 = Secret.ObjectMeta old2 →
     Secret.ObjectMeta new1 = Secret.ObjectMeta new2 →
     ∀ (w : Watcher) (now : Time),
       deliver json_string KSecret w now (UpdateFunc old1 new1)
       = deliver json_string KSecret w now (UpdateFunc old2 new2)
       ∧ deliver json_string KSecret w now (AddFunc new1)
         = deliver json_string KSecret w now (AddFunc new2)
       ∧ deliver json_string KSecret w now (DeleteFunc old1)
         = deliver json_string KSecret w now (DeleteFunc old2)).
Proof.
  intros Ho Hn Heq.
  pose proof (detectSecretChanges_same old1 new1 old2 new2 Ho Hn Heq) as Hdet.
  split; [exact Hdet|]. intros Hmo Hmn w now. cbn [deliver handler].
  split; [|split].
  - by apply (handleSecretEvent_same_subject w now watch.Modified new1 new2 (Some old1) (Some old2)).
  - by apply (handleSecretEvent_same_subject w now watch.Added new1 new2 None None).
  - by apply handleSecretEvent_same_deleted.
Qed.

End SecretValues.

Example secret_modified_sample :
  watcher.deliver SampleSecrets.quote watcher.KSecret (SampleSecrets.idle "") (UTC 7)
    (watcher.UpdateFunc (SampleSecrets.credentials SampleSecrets.hunter SampleSecrets.tokenA)
                        (SampleSecrets.credentials SampleSecrets.tiger SampleSecrets.tokenA))
  = Some {| watcher.storage :=
              {| storage.closed := false;
                 storage.change_events :=
                   [ {| storage.ID := 1; storage.Timestamp := UTC 7; storage.Namespace := "default";
                        storage.Kind := "Secret"; storage.Name := "credentials";
                        storage.Action := "MODIFIED";
                        storage.Diff := "Keys modified: [password]" +:+ fmt.nl +:+ fmt.nl
                                        +:+ "(Secret values are not displayed for security)";
                        storage.Metadata := "{" +:+ fmt.dq +:+ "keys" +:+ fmt.dq +:+ ":["
                                            +:+ fmt.dq +:+ "token" +:+ fmt.dq +:+ ","
                                            +:+ fmt.dq +:+ "password" +:+ fmt.dq +:+ "],"
                                            +:+ fmt.dq +:+ "type" +:+ fmt.dq +:+ ":"
                                            +:+ fmt.dq +:+ "Opaque" +:+ fmt.dq +:+ "}";
                        storage.ImageBefore := ""; storage.ImageAfter := "" |} ];
                 storage.last_id := 1 |};
            watcher.notifier := notifier.NewSlackNotifier "";
            watcher.goroutines := [] |}.
Proof. vm_compute. reflexivity. Qed.

Lemma sample_credentials_lookup (p t : list Byte.byte) (k : string) (v : list Byte.byte) :
  corev1.Secret.Data (SampleSecrets.credentials p t) !! k = Some v →
  (k = "password" ∧ v = p) ∨ (k = "token" ∧ v = t).
Proof.
  cbn [SampleSecrets.credentials corev1.Secret.Data]. intros H.
  destruct (decide (k = "password")) as [->|Hp].
  - rewrite lookup_insert_eq in H. left. split; congruence.
  - rewrite lookup_insert_ne in H by congruence.
    destruct (decide (k = "token")) as [->|Ht].
    + rewrite lookup_singleton_eq in H. right. split; congruence.
    + rewrite lookup_singleton_ne in H by congruence. discriminate.
Defined.

Lemma secret_events_do_not_depend_on_values_witness :
  let old1 := SampleSecrets.credentials SampleSecrets.hunter SampleSecrets.tokenA in
  let new1 := SampleSecrets.credentials SampleSecrets.tiger SampleSecrets.tokenA in
  let old2 := SampleSecrets.credentials SampleSecrets.swordfish SampleSecrets.tokenB in
  let new2 := SampleSecrets.credentials SampleSecrets.opensesame SampleSecrets.tokenB in
  sameKeysAndType old1 old2 ∧ sameKeysAndType new1 new2
  ∧ sameEqualities old1 new1 old2 new2
  ∧ watcher.detectSecretChanges old1 new1 = watcher.detectSecretChanges old2 new2
  ∧ (corev1.Secret.ObjectMeta old1 = corev1.Secret.ObjectMeta old2 →
     corev1.Secret.ObjectMeta new1 = corev1.Secret.ObjectMeta new2 →
     ∀ (w : watcher.Watcher) (now : Time),
       watcher.deliver SampleSecrets.quote watcher.KSecret w now (watcher.UpdateFunc old1 new1)
       = watcher.deliver SampleSecrets.quote watcher.KSecret w now (watcher.UpdateFunc old2 new2)
       ∧ watcher.deliver SampleSecrets.quote watcher.KSecret w now (watcher.AddFunc new1)
         = watcher.deliver SampleSecrets.quote watcher.KSecret w now (watcher.AddFunc new2)
       ∧ watcher.deliver SampleSecrets.quote watcher.KSecret w now (watcher.DeleteFunc old1)
         = watcher.deliver SampleSecrets.quote watcher.KSecret w now (watcher.DeleteFunc old2)).
Proof.
  intros old1 new1 old2 new2.
  assert (sameKeysAndType old1 old2) as Ho by (repeat split; vm_compute; reflexivity).
  assert (sameKeysAndType new1 new2) as Hn by (repeat split; vm_compute; reflexivity).
  assert (sameEqualities old1 new1 old2 new2) as Heq.
  { intros k a1 b1 a2 b2 Ha1 Hb1 Ha2 Hb2.
    apply sample_credentials_lookup in Ha1, Hb1, Ha2, Hb2.
    destruct Ha1 as [[-> ->]|[-> ->]], Hb1 as [[? ->]|[? ->]],
             Ha2 as [[? ->]|[? ->]], Hb2 as [[? ->]|[? ->]];
      try discriminate; split; intros; (reflexivity || discriminate). }
  split; [exact Ho|]. split; [exact Hn|]. split; [exact Heq|].
  exact (secret_events_do_not_depend_on_values SampleSecrets.quote old1 new1 old2 new2 Ho Hn Heq).
Defined.

(** ** The handlers, kind by kind *)

Section Handling.

Import storage watcher.

Variable json_string : string → string.

Lemma handler_excluded (k : ResourceKind) (w : Watcher) (now : Time) (t : watch.EventType)
      (oldObj newObj : option (object k)) (obj : object k) :
  match newObj with Some o => Some o | None => oldObj end = Some obj →
  systemNamespace (namespaceOf k obj) = true →
  handler json_string k w now t oldObj newObj = Some w.
Proof.
  unfold namespaceOf.
  destruct k; cbn [handler objectMeta object] in *; intros Hobj Hns;
    [ unfold handleDeploymentEvent | unfold handleConfigMapEvent | unfold handleSecretEvent
    | unfold handleServiceEvent | unfold handleIngressEvent | unfold handleStatefulSetEvent
    | unfold handleDaemonSetEvent | unfold handleCronJobEvent | unfold handleJobEvent ];
    rewrite Hobj; cbv zeta; rewrite Hns; reflexivity.
Qed.

(** C7.  A delivery about an object of [kube-system], [kube-public] or
    [kube-node-lease] leaves the watcher as it is, for every kind: nothing
    is written to the store and no notification task is started.  The same
    holds of a handler called with any event type. *)
Theorem excluded_namespace_creates_nothing (k : ResourceKind) (w : Watcher) (now : Time)
        (d : Delivery (object k)) :
  systemNamespace (namespaceOf k (subject d)) = true →
  deliver json_string k w now d = Some w
  ∧ ∀ (t : watch.EventType) (oldObj : option (object k)),
      handler json_string k w now t oldObj (Some (subject d)) = Some w
      ∧ handler json_string k w now t (Some (subject d)) None = Some w.
Proof.
  intros Hns. split.
  - destruct d as [obj|oldObj newObj|obj]; cbn [deliver subject] in *.
    + exact (handler_excluded k w now watch.Added None (Some obj) obj eq_refl Hns).
    + exact (handler_excluded k w now watch.Modified (Some oldObj) (Some newObj) newObj eq_refl Hns).
    + exact (handler_excluded k w now watch.Deleted (Some obj) None obj eq_refl Hns).
  - intros t oldObj. split.
    + exact (handler_excluded k w now t oldObj (Some (subject d)) (subject d) eq_refl Hns).
    + exact (handler_excluded k w now t (Some (subject d)) None (subject d) eq_refl Hns).
Qed.

Lemma saveAndNotify_stores (w : Watcher) (e : ChangeEvent) (kind action ns name : string) (n : nat) :
  closed (watcher.storage w) = false →
  Kind e = kind → Action e = action → Namespace e = ns → Name e = name →
  n = 1%nat →
  ∃ w' es,
    Some (saveAndNotify w e).1 = Some w'
    ∧ change_events (watcher.storage w') = change_events (watcher.storage w) ++ es
    ∧ (length es ≤ n)%nat
    ∧ (true = true → length es = n)
    ∧ Forall (λ e, Kind e = kind ∧ Action e = action ∧ Namespace e = ns ∧ Name e = name) es.
Proof.
  intros Hopen Hk Ha Hns Hn ->. eexists _, [_].
  split; [reflexivity|]. split; [by apply saveAndNotify_open|].
  split; [reflexivity|]. split; [reflexivity|].
  constructor; [|constructor]. by subst.
Qed.

Lemma nothing_stored (w : Watcher) (kind action ns name : string) (n : nat) (b : bool) :
  (b = true → n = 0%nat) →
  ∃ w' es,
    Some w = Some w'
    ∧ change_events (watcher.storage w') = change_events (watcher.storage w) ++ es
    ∧ (length es ≤ n)%nat
    ∧ (b = true → length es = n)
    ∧ Forall (λ e, Kind e = kind ∧ Action e = action ∧ Namespace e = ns ∧ Name e = name) es.
Proof.
  intros Hn. exists w, []. split; [reflexivity|]. split; [by rewrite app_nil_r|].
  split; [cbn; lia|]. split; [intros Hb; by rewrite (Hn Hb)|]. constructor.
Qed.

(** What a handler stores, from its pointers on. *)
Lemma deliver_stores_events (k : ResourceKind) (w : Watcher) (now : Time)
      (d : Delivery (object k)) :
  closed (watcher.storage w) = false →
  systemNamespace (namespaceOf k (subject d)) = false →
  ∃ (w' : Watcher) (es : list ChangeEvent),
    deliver json_string k w now d = Some w'
    ∧ change_events (watcher.storage w') = change_events (watcher.storage w) ++ es
    ∧ (length es ≤ expected k d)%nat
    ∧ (passes k d = true → length es = expected k d)
    ∧ Forall (λ e, Kind e = kindName k ∧ Action e = actionOf d
                   ∧ Namespace e = namespaceOf k (subject d)
                   ∧ Name e = metav1.Name (objectMeta k (subject d))) es.
Proof.
  intros Hopen Hns. unfold namespaceOf in *.
  destruct k; destruct d as [obj|oldObj newObj|obj];
    cbn [deliver handler subject objectMeta object expected passes kindName actionOf detector] in *;
    unfold_handler; cbv beta iota zeta; rewrite Hns; split_handler;
    first
      [ eapply saveAndNotify_stores; (reflexivity || assumption)
      | match goal with
        | H : _ = (_, _) |- _ => rewrite H; cbn [fst]
        | _ => idtac
        end;
        first
          [ eapply saveAndNotify_stores; (reflexivity || assumption)
          | eapply nothing_stored; (reflexivity || discriminate) ] ].
Qed.

Lemma assertPointer_Pointer (k : ResourceKind) (obj : object k) :
  assertPointer k (Pointer k obj) = Some (Some obj).
Proof. by destruct k. Qed.

(** A callback handed pointers of the watched kind runs the handler on
    them. *)
Lemma callback_pointers (k : ResourceKind) (w : Watcher) (now : Time) (d : Delivery (object k)) :
  callback json_string k w now (pointers k d) = deliver json_string k w now d.
Proof.
  destruct d as [obj|oldObj newObj|obj]; cbn [callback pointers deliver]; unfold handleEvent;
    rewrite ?assertPointer_Pointer; reflexivity.
Qed.

(** C1, as the code has it.  For every kind, with the store open, a
    callback that is handed the objects themselves, pointers of the watched
    kind, for an object outside the three system namespaces, stores at most
    the one event the claim expects, of that kind, action, namespace and
    name: none for an update whose detector reports no change.  It stores
    exactly that event whenever the kind's further test passes: there is
    none for seven kinds; a Secret must not be a system secret; a Job update
    must carry no succeeded or failed pod count. *)
Theorem transitions_store_events (k : ResourceKind) (w : Watcher) (now : Time)
        (d : Delivery (object k)) :
  closed (watcher.storage w) = false →
  systemNamespace (namespaceOf k (subject d)) = false →
  ∃ (w' : Watcher) (es : list ChangeEvent),
    callback json_string k w now (pointers k d) = Some w'
    ∧ change_events (watcher.storage w') = change_events (watcher.storage w) ++ es
    ∧ (length es ≤ expected k d)%nat
    ∧ (passes k d = true → length es = expected k d)
    ∧ Forall (λ e, Kind e = kindName k ∧ Action e = actionOf d
                   ∧ Namespace e = namespaceOf k (subject d)
                   ∧ Name e = metav1.Name (objectMeta k (subject d))) es.
Proof.
  intros Hopen Hns. rewrite callback_pointers. by apply deliver_stores_events.
Qed.

(** Along the deliveries of every kind, a notification task is only ever
    started for an event that was written to the store. *)
Lemma deliver_tasksStored (k : ResourceKind) (w w' : Watcher) (now : Time)
      (d : Delivery (object k)) :
  tasksStored w → deliver json_string k w now d = Some w' → tasksStored w'.
Proof.
  intros Hw.
  destruct k; destruct d as [obj|oldObj newObj|obj]; cbn [deliver handler]; unfold_handler;
    cbv beta iota zeta;
    repeat match goal with
           | |- context [let '(_, _) := ?x in _] => destruct x as [[|] ?]
           | |- context [if ?b then _ else _] => destruct b
           end;
    cbn [negb]; intros [= <-]; (exact Hw || by apply saveAndNotify_tasksStored).
Qed.

End Handling.

(** ** Jobs *)

Section JobUpdates.

Import storage corev1 batchv1 watcher.

Variable json_string : string → string.

Lemma pointerChange_same (label : string) (x : option Z) : pointerChange label x x = [].
Proof. destruct x as [a|]; [|reflexivity]. cbn. by rewrite Z.eqb_refl. Qed.

Lemma pointerChange_differ (label : string) (a b : Z) :
  a ≠ b → pointerChange label (Some a) (Some b) ≠ [].
Proof. intros Hne. cbn. by destruct (Z.eqb_spec a b). Qed.

Lemma containerImageChanges_same (l : list Container.t) : containerImageChanges l l = [].
Proof.
  induction l as [|c l IH]; [reflexivity|]. cbn [containerImageChanges].
  by rewrite String.eqb_refl.
Qed.

Lemma imageChanges_same (l : list Container.t) : imageChanges l l = [].
Proof. unfold imageChanges. rewrite containerImageChanges_same. by destruct (_ && _). Qed.

Lemma containerImageChanges_differ (olds news : list Container.t) (i : nat) (co cn : Container.t) :
  olds !! i = Some co → news !! i = Some cn → Container.Image co ≠ Container.Image cn →
  containerImageChanges olds news ≠ [].
Proof.
  revert olds news. induction i as [|i IH]; intros [|o olds] [|n news] Ho Hn Hne; try discriminate.
  - cbn in Ho, Hn. injection Ho as ->. injection Hn as ->. cbn [containerImageChanges].
    apply String.eqb_neq in Hne. by rewrite Hne.
  - cbn in Ho, Hn. cbn [containerImageChanges]. intros Happ.
    apply app_eq_nil in Happ as [_ Happ]. by apply (IH olds news).
Qed.

Lemma imageChanges_differ (olds news : list Container.t) (i : nat) (co cn : Container.t) :
  olds !! i = Some co → news !! i = Some cn → Container.Image co ≠ Container.Image cn →
  imageChanges olds news ≠ [].
Proof.
  intros Ho Hn Hne. unfold imageChanges.
  destruct olds as [|o olds]; [destruct i; discriminate|].
  destruct news as [|n news]; [destruct i; discriminate|].
  cbn [length Nat.ltb Nat.leb andb]. by apply (containerImageChanges_differ _ _ i co cn).
Qed.

Lemma report_changes (title : string) (changes : list string) :
  changes ≠ [] → report title changes = (true, title +:+ fmt.nl +:+ fmt.Join changes fmt.nl).
Proof. unfold report. by destruct changes. Qed.

Lemma jobChanges_same (oldJob newJob : Job.t) :
  Job.Spec oldJob = Job.Spec newJob → jobChanges oldJob newJob = [].
Proof.
  intros H. unfold jobChanges. rewrite H, !pointerChange_same, imageChanges_same. reflexivity.
Qed.

Lemma jobChanges_changed (oldJob newJob : Job.t) :
  jobSpecChanged oldJob newJob → jobChanges oldJob newJob ≠ [].
Proof.
  unfold jobSpecChanged, jobChanges.
  intros [(a & b & Ho & Hn & Hne) | [(a & b & Ho & Hn & Hne) | [(a & b & Ho & Hn & Hne)
         | (i & co & cn & Ho & Hn & Hne)]]] Hnil;
    repeat (apply app_eq_nil in Hnil as [? Hnil]).
  - rewrite Ho, Hn in *. by eapply pointerChange_differ.
  - rewrite Ho, Hn in *. by eapply pointerChange_differ.
  - rewrite Ho, Hn in *. by eapply pointerChange_differ.
  - match goal with H : imageChanges _ _ = [] |- _ => revert H end.
    by apply (imageChanges_differ _ _ i co cn).
Qed.

(** C3, as the code has it.  For a Job update outside the system
    namespaces: when the two snapshots have the same spec, whatever their
    status, nothing is stored and no task is started.  When the store is open
    and the new snapshot counts no succeeded and no failed pod, a change of
    parallelism, completions or backoff limit between two set values, or of
    the image of a container present at the same index in both, is reported
    by [detectJobChanges] and exactly one [MODIFIED] event with that report is
    stored. *)
Theorem job_update_events (w : Watcher) (now : Time) (oldJob newJob : Job.t) :
  systemNamespace (metav1.Namespace (Job.ObjectMeta newJob)) = false →
  (Job.Spec oldJob = Job.Spec newJob →
   detectJobChanges oldJob newJob = (false, "")
   ∧ deliver json_string KJob w now (UpdateFunc oldJob newJob) = Some w)
  ∧ (closed (watcher.storage w) = false →
     JobStatus.Succeeded (Job.Status newJob) ≤ 0 →
     JobStatus.Failed (Job.Status newJob) ≤ 0 →
     jobSpecChanged oldJob newJob →
     (detectJobChanges oldJob newJob).1 = true
     ∧ ∃ (w' : Watcher) (e : ChangeEvent),
         deliver json_string KJob w now (UpdateFunc oldJob newJob) = Some w'
         ∧ change_events (watcher.storage w') = change_events (watcher.storage w) ++ [e]
         ∧ Kind e = "Job" ∧ Action e = "MODIFIED"
         ∧ Namespace e = metav1.Namespace (Job.ObjectMeta newJob)
         ∧ Name e = metav1.Name (Job.ObjectMeta newJob)
         ∧ Diff e = (detectJobChanges oldJob newJob).2).
Proof.
  intros Hns. cbn [deliver handler]. unfold handleJobEvent. cbv beta iota zeta. rewrite Hns.
  split.
  - intros Hspec. unfold detectJobChanges. rewrite (jobChanges_same _ _ Hspec). cbn.
    split; [reflexivity|]. by destruct (_ || _).
  - intros Hopen Hs Hf Hch.
    destruct (Z.ltb_spec 0 (JobStatus.Succeeded (Job.Status newJob))) as [|_]; [lia|].
    destruct (Z.ltb_spec 0 (JobStatus.Failed (Job.Status newJob))) as [|_]; [lia|].
    cbn [orb]. unfold detectJobChanges.
    rewrite (report_changes _ _ (jobChanges_changed _ _ Hch)). cbn [negb fst snd].
    split; [reflexivity|]. eexists _, _. split; [reflexivity|].
    split; [by apply saveAndNotify_open|]. repeat split.
Qed.

End JobUpdates.

Example job_parallelism_sample :
  watcher.detectJobChanges (SampleJobs.backup (Some 1) "dump:1" 0) (SampleJobs.backup (Some 2) "dump:1" 0)
  = (true, "Job configuration changed:" +:+ fmt.nl +:+ "Parallelism: 1 → 2").
Proof. vm_compute. reflexivity. Qed.

Example deployment_added_sample :
  watcher.deliver SampleSecrets.quote watcher.KDeployment SampleJobs.notifying (UTC 7)
    (watcher.AddFunc (SampleObjects.web (Some 2) "web:1"))
  = Some {| watcher.storage :=
              {| storage.closed := false;
                 storage.change_events :=
                   [ {| storage.ID := 1; storage.Timestamp := UTC 7; storage.Namespace := "default";
                        storage.Kind := "Deployment"; storage.Name := "web";
                        storage.Action := "ADDED"; storage.Diff := "Deployment created";
                        storage.Metadata := "{" +:+ fmt.dq +:+ "replicas" +:+ fmt.dq +:+ ":2}";
                        storage.ImageBefore := ""; storage.ImageAfter := "web:1" |} ];
                 storage.last_id := 1 |};
            watcher.notifier := notifier.NewSlackNotifier "https://hooks.example/T0";
            watcher.goroutines :=
              [ {| storage.ID := 1; storage.Timestamp := UTC 7; storage.Namespace := "default";
                   storage.Kind := "Deployment"; storage.Name := "web";
                   storage.Action := "ADDED"; storage.Diff := "Deployment created";
                   storage.Metadata := "{" +:+ fmt.dq +:+ "replicas" +:+ fmt.dq +:+ ":2}";
                   storage.ImageBefore := ""; storage.ImageAfter := "web:1" |} ] |}.
Proof. vm_compute. reflexivity. Qed.

Lemma excluded_namespace_creates_nothing_witness :
  watcher.systemNamespace
    (namespaceOf watcher.KDeployment (watcher.subject (watcher.AddFunc SampleJobs.coredns))) = true
  ∧ (watcher.deliver SampleSecrets.quote watcher.KDeployment SampleJobs.notifying (UTC 7)
       (watcher.AddFunc SampleJobs.coredns) = Some SampleJobs.notifying
     ∧ ∀ (t : watch.EventType) (oldObj : option (watcher.object watcher.KDeployment)),
         watcher.handler SampleSecrets.quote watcher.KDeployment SampleJobs.notifying (UTC 7) t oldObj
           (Some (watcher.subject (watcher.AddFunc SampleJobs.coredns))) = Some SampleJobs.notifying
         ∧ watcher.handler SampleSecrets.quote watcher.KDeployment SampleJobs.notifying (UTC 7) t
             (Some (watcher.subject (watcher.AddFunc SampleJobs.coredns))) None
           = Some SampleJobs.notifying).
Proof.
  split; [reflexivity|].
  apply (excluded_namespace_creates_nothing SampleSecrets.quote watcher.KDeployment
           SampleJobs.notifying (UTC 7) (watcher.AddFunc SampleJobs.coredns)).
  reflexivity.
Defined.

(** C1 as stated fails.  In the namespace [default], with the store open:
    the addition and the deletion of a service-account token store nothing;
    and an update of a Job whose new snapshot counts a succeeded pod stores
    nothing although [detectJobChanges] reports a change.  With the store
    closed, the addition of a Deployment stores nothing either.  And a
    deletion that the informer reports with a tombstone stops the handler at
    its type assertion, before anything is stored. *)
Lemma transitions_that_store_nothing :
  watcher.systemNamespace "default" = false
  ∧ storage.closed (watcher.storage SampleJobs.notifying) = false
  ∧ watcher.deliver SampleSecrets.quote watcher.KSecret SampleJobs.notifying (UTC 7)
      (watcher.AddFunc SampleJobs.saToken) = Some SampleJobs.notifying
  ∧ watcher.deliver SampleSecrets.quote watcher.KSecret SampleJobs.notifying (UTC 7)
      (watcher.DeleteFunc SampleJobs.saToken) = Some SampleJobs.notifying
  ∧ (watcher.detector watcher.KJob (SampleJobs.backup (Some 1) "dump:1" 0)
                                   (SampleJobs.backup (Some 2) "dump:1" 1)).1 = true
  ∧ watcher.deliver SampleSecrets.quote watcher.KJob SampleJobs.notifying (UTC 7)
      (watcher.UpdateFunc (SampleJobs.backup (Some 1) "dump:1" 0)
                          (SampleJobs.backup (Some 2) "dump:1" 1)) = Some SampleJobs.notifying
  ∧ watcher.deliver SampleSecrets.quote watcher.KDeployment SampleJobs.shut (UTC 7)
      (watcher.AddFunc (SampleObjects.web (Some 2) "web:1")) = Some SampleJobs.shut
  ∧ watcher.callback SampleSecrets.quote watcher.KDeployment SampleJobs.notifying (UTC 7)
      (watcher.DeleteFunc
         (watcher.DeletedFinalStateUnknown "default/web"
            (watcher.Pointer watcher.KDeployment (SampleObjects.web (Some 2) "web:1"))))
    = None.
Proof. vm_compute. repeat split; reflexivity. Qed.

Lemma transitions_store_events_witness :
  storage.closed (watcher.storage SampleJobs.notifying) = false
  ∧ watcher.systemNamespace
      (namespaceOf watcher.KConfigMap
         (watcher.subject (watcher.UpdateFunc SampleConfigMaps.before SampleConfigMaps.afterModeOnly)))
    = false
  ∧ ∃ (w' : watcher.Watcher) (es : list storage.ChangeEvent),
      watcher.callback SampleSecrets.quote watcher.KConfigMap SampleJobs.notifying (UTC 7)
        (watcher.pointers watcher.KConfigMap
           (watcher.UpdateFunc SampleConfigMaps.before SampleConfigMaps.afterModeOnly)) = Some w'
      ∧ storage.change_events (watcher.storage w')
        = storage.change_events (watcher.storage SampleJobs.notifying) ++ es
      ∧ (length es ≤ expected watcher.KConfigMap
                        (watcher.UpdateFunc SampleConfigMaps.before SampleConfigMaps.afterModeOnly))%nat
      ∧ (passes watcher.KConfigMap
           (watcher.UpdateFunc SampleConfigMaps.before SampleConfigMaps.afterModeOnly) = true
         → length es = expected watcher.KConfigMap
                         (watcher.UpdateFunc SampleConfigMaps.before SampleConfigMaps.afterModeOnly))
      ∧ Forall (λ e, storage.Kind e = kindName watcher.KConfigMap
                     ∧ storage.Action e
                       = actionOf (watcher.UpdateFunc SampleConfigMaps.before SampleConfigMaps.afterModeOnly)
                     ∧ storage.Namespace e
                       = namespaceOf watcher.KConfigMap
                           (watcher.subject
                              (watcher.UpdateFunc SampleConfigMaps.before SampleConfigMaps.afterModeOnly))
                     ∧ storage.Name e
                       = metav1.Name
                           (watcher.objectMeta watcher.KConfigMap
                              (watcher.subject
                                 (watcher.UpdateFunc SampleConfigMaps.before
                                    SampleConfigMaps.afterModeOnly)))) es.
Proof.
  split; [reflexivity|]. split; [reflexivity|].
  apply (transitions_store_events SampleSecrets.quote watcher.KConfigMap SampleJobs.notifying (UTC 7)
           (watcher.UpdateFunc SampleConfigMaps.before SampleConfigMaps.afterModeOnly));
    reflexivity.
Defined.

(** C3 as stated fails.  A parallelism that goes from unset to [3] is not
    a change for [detectJobChanges], and nothing is stored; a parallelism
    that goes from [1] to [2] stores nothing when the new snapshot counts a
    succeeded pod, nor when the store is closed. *)
Lemma job_spec_change_not_stored :
  watcher.systemNamespace "default" = false
  ∧ storage.closed (watcher.storage SampleJobs.notifying) = false
  ∧ watcher.detectJobChanges (SampleJobs.backup None "dump:1" 0) (SampleJobs.backup (Some 3) "dump:1" 0)
    = (false, "")
  ∧ watcher.deliver SampleSecrets.quote watcher.KJob SampleJobs.notifying (UTC 7)
      (watcher.UpdateFunc (SampleJobs.backup None "dump:1" 0) (SampleJobs.backup (Some 3) "dump:1" 0))
    = Some SampleJobs.notifying
  ∧ watcher.deliver SampleSecrets.quote watcher.KJob SampleJobs.notifying (UTC 7)
      (watcher.UpdateFunc (SampleJobs.backup (Some 1) "dump:1" 0) (SampleJobs.backup (Some 2) "dump:1" 1))
    = Some SampleJobs.notifying
  ∧ watcher.deliver SampleSecrets.quote watcher.KJob SampleJobs.shut (UTC 7)
      (watcher.UpdateFunc (SampleJobs.backup (Some 1) "dump:1" 0) (SampleJobs.backup (Some 2) "dump:1" 0))
    = Some SampleJobs.shut.
Proof. vm_compute. repeat split; reflexivity. Qed.

Lemma job_update_events_witness :
  let w := SampleJobs.notifying in
  let oldJob := SampleJobs.backup (Some 1) "dump:1" 0 in
  let newJob := SampleJobs.backup (Some 2) "dump:2" 0 in
  watcher.systemNamespace (metav1.Namespace (batchv1.Job.ObjectMeta newJob)) = false
  ∧ storage.closed (watcher.storage w) = false
  ∧ batchv1.JobStatus.Succeeded (batchv1.Job.Status newJob) ≤ 0
  ∧ batchv1.JobStatus.Failed (batchv1.Job.Status newJob) ≤ 0
  ∧ jobSpecChanged oldJob newJob
  ∧ batchv1.Job.Spec oldJob = batchv1.Job.Spec (SampleJobs.backup (Some 1) "dump:1" 3)
  ∧ (watcher.detectJobChanges oldJob (SampleJobs.backup (Some 1) "dump:1" 3) = (false, "")
     ∧ watcher.deliver SampleSecrets.quote watcher.KJob w (UTC 7)
         (watcher.UpdateFunc oldJob (SampleJobs.backup (Some 1) "dump:1" 3)) = Some w)
  ∧ (watcher.detectJobChanges oldJob newJob).1 = true
  ∧ ∃ (w' : watcher.Watcher) (e : storage.ChangeEvent),
      watcher.deliver SampleSecrets.quote watcher.KJob w (UTC 7) (watcher.UpdateFunc oldJob newJob) = Some w'
      ∧ storage.change_events (watcher.storage w') = storage.change_events (watcher.storage w) ++ [e]
      ∧ storage.Kind e = "Job" ∧ storage.Action e = "MODIFIED"
      ∧ storage.Namespace e = metav1.Namespace (batchv1.Job.ObjectMeta newJob)
      ∧ storage.Name e = metav1.Name (batchv1.Job.ObjectMeta newJob)
      ∧ storage.Diff e = (watcher.detectJobChanges oldJob newJob).2.
Proof.
  intros w oldJob newJob.
  assert (jobSpecChanged oldJob newJob) as Hch.
  { left. exists 1, 2. repeat split; discriminate. }
  split; [reflexivity|]. split; [reflexivity|].
  split; [vm_compute; discriminate|]. split; [vm_compute; discriminate|].
  split; [exact Hch|]. split; [reflexivity|].
  split.
  - apply (job_update_events SampleSecrets.quote w (UTC 7) oldJob (SampleJobs.backup (Some 1) "dump:1" 3));
      reflexivity.
  - apply (job_update_events SampleSecrets.quote w (UTC 7) oldJob newJob);
      [reflexivity | reflexivity | vm_compute; discriminate | vm_compute; discriminate | exact Hch].
Defined.


(** * Further properties of the event store *)

Section StoreKeys.

Import storage.

Variable sql_like : string → string → bool.
Variable timestamp_text : Time → string.
Variable AddDate : Time → Z → Z → Z → Time.

#[local] Existing Instance timestamp_desc_dec.
#[local] Existing Instance timestamp_desc_trans.
#[local] Existing Instance timestamp_desc_total.

Lemma StronglySorted_snoc_lt (l : list Z) (x : Z) :
  StronglySorted Z.lt l → Forall (λ y, y < x) l → StronglySorted Z.lt (l ++ [x]).
Proof.
  induction 1 as [|y l Hl IH Hy]; intros Hx; cbn.
  - repeat constructor.
  - apply Forall_cons in Hx as [Hyx Hx]. constructor; [by apply IH|].
    apply Forall_app. split; [exact Hy|]. by repeat constructor.
Qed.

Lemma StronglySorted_fmap_filter (p : ChangeEvent → bool) (l : list ChangeEvent) :
  StronglySorted Z.lt (ID <$> l) → StronglySorted Z.lt (ID <$> List.filter p l).
Proof.
  induction l as [|e l IH]; [done|]. cbn [fmap list_fmap List.filter].
  intros H. apply StronglySorted_inv in H as [Hl He].
  destruct (p e); [|by apply IH]. cbn [fmap list_fmap]. constructor; [by apply IH|].
  apply Forall_forall. intros y Hy. apply list_elem_of_fmap in Hy as [r [-> Hr]].
  apply list_elem_of_In, filter_In in Hr as [Hr _].
  rewrite Forall_forall in He. apply He. apply list_elem_of_fmap. exists r.
  split; [reflexivity|]. by apply list_elem_of_In.
Qed.

Lemma Forall_List_filter {A} (P : A → Prop) (p : A → bool) (l : list A) :
  Forall P l → Forall P (List.filter p l).
Proof.
  rewrite !Forall_forall. intros H x Hx. apply H.
  apply list_elem_of_In, filter_In in Hx as [Hx _]. by apply list_elem_of_In.
Qed.

(** X1.  The keys of the table stay increasing along the rows and bounded by
    the last key handed out, through every [SaveEvent] and every
    [CleanupOldEvents].  A successful [SaveEvent] gives the new row a key
    larger than that of every row of the table, and larger than every key
    handed out before, also when rows were removed in between: a key is never
    used twice. *)
Theorem keys_increase_and_are_never_reused (s : Storage) (event : ChangeEvent)
        (now : Time) (retentionDays : Z) :
  keysOrdered s →
  keysOrdered (SaveEvent s event).1.1
  ∧ keysOrdered (CleanupOldEvents timestamp_text AddDate s now retentionDays).1.1
  ∧ last_id (CleanupOldEvents timestamp_text AddDate s now retentionDays).1.1 = last_id s
  ∧ last_id s ≤ last_id (SaveEvent s event).1.1
  ∧ ((SaveEvent s event).2 = None →
     ID (SaveEvent s event).1.2 = last_id s + 1
     ∧ last_id (SaveEvent s event).1.1 = last_id s + 1
     ∧ Forall (λ e, ID e < ID (SaveEvent s event).1.2) (change_events s)).
Proof.
  intros [Hsorted Hbound]. unfold keysOrdered, SaveEvent, CleanupOldEvents.
  destruct (closed s); cbn [fst snd change_events last_id closed set_ID ID].
  - repeat split; try done; try lia.
  - assert (Forall (λ e, ID e < last_id s + 1) (change_events s)) as Hlt.
    { eapply Forall_impl; [exact Hbound|]. cbn. intros; lia. }
    split; [split|].
    + rewrite fmap_app. apply StronglySorted_snoc_lt; [exact Hsorted|].
      apply Forall_fmap. exact Hlt.
    + apply Forall_app. split.
      * eapply Forall_impl; [exact Hbound|]. cbn. intros; lia.
      * repeat constructor. cbn. lia.
    + split; [split; [by apply StronglySorted_fmap_filter | by apply Forall_List_filter]|].
      split; [reflexivity|]. split; [lia|]. intros _. cbn. repeat split. exact Hlt.
Qed.

Lemma length_ordered_filter (p : ChangeEvent → bool) (rows : list ChangeEvent) :
  (length (order_by_timestamp_desc timestamp_text (List.filter p rows)) ≤ length rows)%nat.
Proof.
  unfold order_by_timestamp_desc. rewrite merge_sort_Permutation.
  induction rows as [|e l IH]; cbn; [lia|]. destruct (p e); cbn; lia.
Qed.

Lemma Query_open_rows (s : Storage) (q : select) (rows : list ChangeEvent) :
  Query sql_like timestamp_text s q = (rows, None) →
  closed s = false
  ∧ ∃ l o, rows = take l (drop o (order_by_timestamp_desc timestamp_text
                                     (List.filter (eval_where sql_like timestamp_text (where_ q)) (change_events s))))
           ∧ (limit q = None → offset q = None → l = length (change_events s) ∧ o = 0%nat).
Proof.
  unfold Query. destruct (closed s); [discriminate|].
  set (sorted := order_by_timestamp_desc timestamp_text _).
  assert (length sorted ≤ length (change_events s))%nat as Hlen
    by apply length_ordered_filter.
  destruct (limit q) as [l|], (offset q) as [o|]; intros [= <-]; split; try reflexivity.
  - exists (Z.to_nat l), (Z.to_nat o). split; [reflexivity|discriminate].
  - exists (Z.to_nat l), 0%nat. split; [reflexivity|discriminate].
  - exists (length (change_events s)), 0%nat. split; [|done].
    cbn [drop]. by rewrite take_ge.
Qed.

Lemma elem_of_page (l o : nat) (rows : list ChangeEvent) (r : ChangeEvent) :
  r ∈ take l (drop o rows) → r ∈ rows.
Proof.
  intros H. apply list_elem_of_lookup in H as [i Hi].
  apply lookup_take_Some in Hi as [Hi _]. rewrite lookup_drop in Hi.
  apply list_elem_of_lookup. eauto.
Qed.

Lemma elem_of_ordered_filter (p : ChangeEvent → bool) (rows : list ChangeEvent) (r : ChangeEvent) :
  r ∈ order_by_timestamp_desc timestamp_text (List.filter p rows) ↔ r ∈ rows ∧ p r = true.
Proof.
  unfold order_by_timestamp_desc. rewrite merge_sort_Permutation.
  by rewrite !list_elem_of_In, filter_In.
Qed.

Lemma StronglySorted_page (l o : nat) (rows : list ChangeEvent) :
  StronglySorted (timestamp_desc timestamp_text) rows → StronglySorted (timestamp_desc timestamp_text) (take l (drop o rows)).
Proof.
  intros H. revert rows H l. induction o as [|o IH]; intros rows H l.
  - cbn [drop]. revert l. induction H as [|x rows H IHs Hx]; intros [|l]; cbn; try constructor.
    + apply IHs.
    + apply Forall_forall. intros y Hy. rewrite Forall_forall in Hx. apply Hx.
      apply (elem_of_page l 0 rows y). exact Hy.
  - destruct rows as [|x rows]; cbn [drop]; [destruct l; constructor|].
    apply IH. by apply StronglySorted_inv in H as [H _].
Qed.

Lemma eval_where_satisfies (f : Filter) (r : ChangeEvent) :
  eval_where sql_like timestamp_text (filter_conds f) r = true ↔ satisfies sql_like timestamp_text f r.
Proof.
  unfold eval_where, filter_conds, satisfies, IsZero.
  rewrite !forallb_app.
  destruct (String.eqb_spec (fNamespace f) "") as [Hn|Hn],
           (String.eqb_spec (fKind f) "") as [Hk|Hk],
           (String.eqb_spec (fName f) "") as [Hm|Hm],
           (String.eqb_spec (fAction f) "") as [Ha|Ha],
           (Z.eqb_spec (instant (StartTime f)) 0) as [Hs|Hs],
           (Z.eqb_spec (instant (EndTime f)) 0) as [He|He];
    cbn [forallb eval_cond andb];
    rewrite ?andb_true_r, ?andb_true_iff, ?String.eqb_eq;
    intuition congruence.
Qed.

(** X2.  Every row [GetEvents] returns is a row of the table that meets each
    constraint the filter sets: the namespace, kind and action it names, the
    name pattern, and the bounds of the time range, which are compared with
    the row's timestamp as the database compares them, text with text (a
    bound at the zero time counts as unset).  The rows come by decreasing
    text of their timestamp.  Without paging, every such row of the table is
    returned.  Where the texts of the bounds and of the table's timestamps
    are ordered as their instants, the rows returned lie within the bounds
    by their instants too. *)
Theorem GetEvents_returns_what_the_filter_selects (s : Storage) (f : Filter)
        (rows : list ChangeEvent) :
  GetEvents sql_like timestamp_text s f = (rows, None) →
  (∀ r, r ∈ rows → r ∈ change_events s ∧ satisfies sql_like timestamp_text f r)
  ∧ StronglySorted (timestamp_desc timestamp_text) rows
  ∧ (Limit f ≤ 0 → Offset f ≤ 0 →
     ∀ r, r ∈ change_events s → satisfies sql_like timestamp_text f r → r ∈ rows)
  ∧ (chronological timestamp_text
       (StartTime f :: EndTime f :: (Timestamp <$> change_events s)) →
     ∀ r, r ∈ rows →
          (instant (StartTime f) ≠ 0 → instant (StartTime f) ≤ instant (Timestamp r))
          ∧ (instant (EndTime f) ≠ 0 → instant (Timestamp r) ≤ instant (EndTime f))).
Proof.
  unfold GetEvents.
  destruct (Query sql_like timestamp_text s _) as [rows' [err|]] eqn:HQ; [discriminate|]. intros [= ->].
  apply Query_open_rows in HQ as (Hopen & l & o & -> & Hall). cbn [where_ limit offset] in *.
  assert (∀ r, r ∈ take l (drop o (order_by_timestamp_desc timestamp_text
                                     (List.filter (eval_where sql_like timestamp_text (filter_conds f))
                                                  (change_events s))))
               → r ∈ change_events s ∧ satisfies sql_like timestamp_text f r) as Hrows.
  { intros r Hr. apply elem_of_page, elem_of_ordered_filter in Hr as [Hr Hp].
    split; [exact Hr|]. by apply eval_where_satisfies. }
  split; [exact Hrows|]. split; [|split].
  - apply StronglySorted_page, StronglySorted_merge_sort; apply _.
  - intros HL HO r Hr Hsat.
    destruct (Z.ltb_spec 0 (Limit f)); [lia|]. destruct (Z.ltb_spec 0 (Offset f)); [lia|].
    destruct (Hall eq_refl eq_refl) as [-> ->]. cbn [drop].
    rewrite take_ge.
    + apply elem_of_ordered_filter. split; [exact Hr|]. by apply eval_where_satisfies.
    + apply length_ordered_filter.
  - intros Hchron r Hr. destruct (Hrows r Hr) as (Hin & _ & _ & _ & _ & Hstart & Hend).
    assert (Timestamp r ∈ StartTime f :: EndTime f :: (Timestamp <$> change_events s)) as Hr'
      by (do 2 right; by apply list_elem_of_fmap_2).
    split; intros Hset.
    + apply Hchron; [by left|exact Hr'|by apply Hstart].
    + apply Hchron; [exact Hr'|right; by left|by apply Hend].
Qed.

End StoreKeys.

Lemma keys_increase_and_are_never_reused_witness :
  let event := Sample.row 0 (UTC (35 * Sample.day)) "Deployment" "web" "DELETED" "Deployment deleted" in
  let now := UTC (40 * Sample.day) in
  keysOrdered Sample.table
  ∧ keysOrdered (storage.SaveEvent Sample.table event).1.1
  ∧ keysOrdered (storage.CleanupOldEvents Sample.timestampText Sample.addDays Sample.table now 15).1.1
  ∧ storage.last_id (storage.CleanupOldEvents Sample.timestampText Sample.addDays Sample.table now 15).1.1
    = storage.last_id Sample.table
  ∧ storage.last_id Sample.table ≤ storage.last_id (storage.SaveEvent Sample.table event).1.1
  ∧ ((storage.SaveEvent Sample.table event).2 = None →
     storage.ID (storage.SaveEvent Sample.table event).1.2 = storage.last_id Sample.table + 1
     ∧ storage.last_id (storage.SaveEvent Sample.table event).1.1 = storage.last_id Sample.table + 1
     ∧ Forall (λ e, storage.ID e < storage.ID (storage.SaveEvent Sample.table event).1.2)
              (storage.change_events Sample.table)).
Proof.
  intros event now.
  assert (keysOrdered Sample.table) as Hkeys by (split; repeat constructor; cbn; lia).
  split; [exact Hkeys|].
  exact (keys_increase_and_are_never_reused Sample.timestampText Sample.addDays Sample.table
           event now 15 Hkeys).
Defined.

Example GetEvents_filter_sample :
  storage.GetEvents Sample.likeWhole Sample.timestampText Sample.table Sample.webFilter
  = ([ Sample.row 1 (UTC (10 * Sample.day)) "Deployment" "web" "ADDED" "Deployment created" ], None).
Proof. vm_compute. reflexivity. Qed.

Lemma GetEvents_returns_what_the_filter_selects_witness :
  let f := Sample.webFilter in
  let rows := (storage.GetEvents Sample.likeWhole Sample.timestampText Sample.table f).1 in
  storage.GetEvents Sample.likeWhole Sample.timestampText Sample.table f = (rows, None)
  ∧ (∀ r, r ∈ rows → r ∈ storage.change_events Sample.table
                     ∧ satisfies Sample.likeWhole Sample.timestampText f r)
  ∧ StronglySorted (storage.timestamp_desc Sample.timestampText) rows
  ∧ (storage.Limit f ≤ 0 → storage.Offset f ≤ 0 →
     ∀ r, r ∈ storage.change_events Sample.table →
          satisfies Sample.likeWhole Sample.timestampText f r → r ∈ rows)
  ∧ (chronological Sample.timestampText
       (storage.StartTime f :: storage.EndTime f
        :: (storage.Timestamp <$> storage.change_events Sample.table)) →
     ∀ r, r ∈ rows →
          (instant (storage.StartTime f) ≠ 0
           → instant (storage.StartTime f) ≤ instant (storage.Timestamp r))
          ∧ (instant (storage.EndTime f) ≠ 0
             → instant (storage.Timestamp r) ≤ instant (storage.EndTime f))).
Proof.
  intros f rows.
  assert (storage.GetEvents Sample.likeWhole Sample.timestampText Sample.table f = (rows, None))
    as Hrows by (vm_compute; reflexivity).
  split; [exact Hrows|].
  exact (GetEvents_returns_what_the_filter_selects Sample.likeWhole Sample.timestampText
           Sample.table f rows Hrows).
Defined.

Section StoreQueries.

Import storage.

Variable sql_like : string → string → bool.
Variable timestamp_text : Time → string.

#[local] Existing Instance timestamp_desc_dec.
#[local] Existing Instance timestamp_desc_trans.
#[local] Existing Instance timestamp_desc_total.

Lemma eval_where_resource (namespace kind name : string) (r : ChangeEvent) :
  eval_where sql_like timestamp_text [namespace_eq namespace; kind_eq kind; name_eq name] r = true
  ↔ sameResource namespace kind name r.
Proof.
  unfold eval_where, sameResource. cbn [forallb eval_cond].
  rewrite andb_true_r, !andb_true_iff, !String.eqb_eq. tauto.
Qed.

(** X3.  An event saved on an open store is found again on the timeline of
    its resource, with the key it was given; that timeline holds the saved
    row and the rows the table already had for the same namespace, kind and
    name, no other, by decreasing text of their timestamp, the order in
    which the database compares the column: newest first where the texts
    of the timestamps are ordered as their instants. *)
Theorem saved_event_is_on_its_timeline (s : Storage) (event : ChangeEvent) :
  closed s = false →
  ∃ (s' : Storage) (saved : ChangeEvent) (rows : list ChangeEvent),
    SaveEvent s event = (s', saved, None)
    ∧ saved = set_ID event (last_id s + 1)
    ∧ GetTimeline sql_like timestamp_text s' (Namespace event) (Kind event) (Name event) = (rows, None)
    ∧ saved ∈ rows
    ∧ (∀ r, r ∈ rows
            ↔ (r = saved ∨ r ∈ change_events s)
              ∧ sameResource (Namespace event) (Kind event) (Name event) r)
    ∧ StronglySorted (timestamp_desc timestamp_text) rows
    ∧ (chronological timestamp_text (Timestamp event :: (Timestamp <$> change_events s)) →
       StronglySorted newer_first rows).
Proof.
  intros Hopen. unfold SaveEvent, GetTimeline, Query. rewrite Hopen.
  eexists _, _, _. split; [reflexivity|]. split; [reflexivity|].
  cbn [closed change_events limit offset where_]. split; [reflexivity|].
  assert (∀ r, r ∈ order_by_timestamp_desc timestamp_text
                     (List.filter
                        (eval_where sql_like timestamp_text
                           [namespace_eq (Namespace event); kind_eq (Kind event);
                            name_eq (Name event)])
                        (change_events s ++ [set_ID event (last_id s + 1)]))
               ↔ (r = set_ID event (last_id s + 1) ∨ r ∈ change_events s)
                 ∧ sameResource (Namespace event) (Kind event) (Name event) r) as Hrows.
  { intros r. unfold order_by_timestamp_desc. rewrite merge_sort_Permutation.
    rewrite list_elem_of_In, filter_In, <- list_elem_of_In, eval_where_resource.
    rewrite elem_of_app, list_elem_of_singleton. tauto. }
  split; [|split; [exact Hrows|split]].
  - apply Hrows. split; [by left|]. by repeat split.
  - apply StronglySorted_merge_sort; apply _.
  - intros Hchron. eapply newest_first_of_text; [exact Hchron| |].
    + intros r Hr. apply Hrows in Hr as [[->|Hr] _]; [by left|].
      right. by apply list_elem_of_fmap_2.
    + apply StronglySorted_merge_sort; apply _.
Qed.

(** X4.  Pages follow one another: on an open store, the page of [L1] rows
    at offset [O] followed by the page of [L2] rows at offset [O + L1] is the
    page of [L1 + L2] rows at offset [O]; and a page never holds more rows
    than its limit. *)
Theorem pages_follow_one_another (s : Storage) (f : Filter) (L1 L2 O : Z) :
  closed s = false → 0 < L1 → 0 < L2 → 0 ≤ O →
  (GetEvents sql_like timestamp_text s (set_paging f L1 O)).1
  ++ (GetEvents sql_like timestamp_text s (set_paging f L2 (O + L1))).1
  = (GetEvents sql_like timestamp_text s (set_paging f (L1 + L2) O)).1
  ∧ Z.of_nat (length (GetEvents sql_like timestamp_text s (set_paging f L1 O)).1) ≤ L1
  ∧ (GetEvents sql_like timestamp_text s (set_paging f L1 O)).2 = None.
Proof.
  intros Hopen H1 H2 HO.
  rewrite !(GetEvents_page sql_like timestamp_text s f) by (try assumption; lia). cbn [fst snd].
  split; [|split; [|reflexivity]].
  - rewrite !Z2Nat.inj_add by lia. rewrite <- drop_drop. apply take_take_drop.
  - rewrite length_take. lia.
Qed.

(** X5.  A filter with an offset and no limit cannot be queried: on an open
    store, with [Limit <= 0] and [Offset > 0], [GetEvents] returns an error
    and no row, while [GetTotalCount] on the same filter still counts the
    matching rows. *)
Theorem offset_without_limit_is_an_error (s : Storage) (f : Filter) :
  closed s = false → Limit f ≤ 0 → 0 < Offset f →
  (GetEvents sql_like timestamp_text s f).1 = []
  ∧ is_Some (GetEvents sql_like timestamp_text s f).2
  ∧ GetTotalCount sql_like timestamp_text s f = (Z.of_nat (length (matching sql_like timestamp_text s f)), None).
Proof.
  intros Hopen HL HO. unfold GetEvents, GetTotalCount, Query, matching. rewrite Hopen.
  cbn [limit offset where_].
  destruct (Z.ltb_spec 0 (Limit f)); [lia|]. destruct (Z.ltb_spec 0 (Offset f)); [|lia].
  cbn. eauto.
Qed.

End StoreQueries.

Lemma saved_event_is_on_its_timeline_witness :
  let event := Sample.row 0 (UTC (35 * Sample.day)) "Deployment" "web" "DELETED" "Deployment deleted" in
  storage.closed Sample.table = false
  ∧ ∃ (s' : storage.Storage) (saved : storage.ChangeEvent) (rows : list storage.ChangeEvent),
      storage.SaveEvent Sample.table event = (s', saved, None)
      ∧ saved = storage.set_ID event (storage.last_id Sample.table + 1)
      ∧ storage.GetTimeline Sample.likeWhole Sample.timestampText s' (storage.Namespace event) (storage.Kind event)
          (storage.Name event) = (rows, None)
      ∧ saved ∈ rows
      ∧ (∀ r, r ∈ rows
              ↔ (r = saved ∨ r ∈ storage.change_events Sample.table)
                ∧ sameResource (storage.Namespace event) (storage.Kind event)
                    (storage.Name event) r)
      ∧ StronglySorted (storage.timestamp_desc Sample.timestampText) rows
      ∧ (chronological Sample.timestampText
           (storage.Timestamp event
            :: (storage.Timestamp <$> storage.change_events Sample.table)) →
         StronglySorted newer_first rows).
Proof.
  intros event. split; [reflexivity|].
  exact (saved_event_is_on_its_timeline Sample.likeWhole Sample.timestampText Sample.table
           event eq_refl).
Defined.

Lemma pages_follow_one_another_witness :
  storage.closed Sample.table = false ∧ 0 < 1 ∧ 0 < 2 ∧ 0 ≤ 0
  ∧ (storage.GetEvents Sample.likeWhole Sample.timestampText Sample.table (storage.set_paging Sample.noFilter 1 0)).1
    ++ (storage.GetEvents Sample.likeWhole Sample.timestampText Sample.table
          (storage.set_paging Sample.noFilter 2 (0 + 1))).1
    = (storage.GetEvents Sample.likeWhole Sample.timestampText Sample.table
         (storage.set_paging Sample.noFilter (1 + 2) 0)).1
  ∧ Z.of_nat (length (storage.GetEvents Sample.likeWhole Sample.timestampText Sample.table
                        (storage.set_paging Sample.noFilter 1 0)).1) ≤ 1
  ∧ (storage.GetEvents Sample.likeWhole Sample.timestampText Sample.table (storage.set_paging Sample.noFilter 1 0)).2
    = None.
Proof.
  split; [reflexivity|]. split; [lia|]. split; [lia|]. split; [lia|].
  apply (pages_follow_one_another Sample.likeWhole Sample.timestampText Sample.table
           Sample.noFilter 1 2 0);
    [reflexivity|lia|lia|lia].
Defined.

Lemma offset_without_limit_is_an_error_witness :
  let f := storage.set_paging Sample.noFilter 0 1 in
  storage.closed Sample.table = false ∧ storage.Limit f ≤ 0 ∧ 0 < storage.Offset f
  ∧ (storage.GetEvents Sample.likeWhole Sample.timestampText Sample.table f).1 = []
  ∧ is_Some (storage.GetEvents Sample.likeWhole Sample.timestampText Sample.table f).2
  ∧ storage.GetTotalCount Sample.likeWhole Sample.timestampText Sample.table f
    = (Z.of_nat (length (matching Sample.likeWhole Sample.timestampText Sample.table f)), None).
Proof.
  intros f. split; [reflexivity|]. split; [cbn; lia|]. split; [cbn; lia|].
  apply (offset_without_limit_is_an_error Sample.likeWhole Sample.timestampText Sample.table f);
    [reflexivity|cbn; lia|cbn; lia].
Defined.

(** * Further properties of the notifier *)

Section NotifierMessage.

Import storage notifier.

Variable respond : string → slackMessage → PostResult.

Lemma string_length_app (a b : string) :
  String.length (a +:+ b) = (String.length a + String.length b)%nat.
Proof. induction a as [|c a IH]; simpl; [reflexivity|]. f_equal. exact IH. Qed.

Lemma string_app_assoc (a b c : string) : (a +:+ b) +:+ c = a +:+ (b +:+ c).
Proof.
  induction a as [|x a IH]; [reflexivity|].
  change (String x ((a +:+ b) +:+ c) = String x (a +:+ (b +:+ c))). by rewrite IH.
Qed.

Lemma string_length_substring (n : nat) (s : string) :
  String.length (substring 0 n s) = Nat.min n (String.length s).
Proof.
  revert s. induction n as [|n IH]; intros [|c s]; simpl; try reflexivity.
  f_equal. apply IH.
Qed.

(** X6.  The message that [NotifyChange] hands to the JSON encoder has
    exactly one attachment, coloured [warning] for [MODIFIED] and [danger]
    for [DELETED].  The text field of the attachment is empty for an empty
    diff, the whole diff between code fences when the diff has at most 500
    bytes, and otherwise its first 500 bytes followed by the truncation
    mark.  The cut counts bytes, not characters, so it can fall inside a
    character of several bytes; the field, as built and before it is
    encoded, has at most 525 bytes. *)
Theorem NotifyChange_cuts_diff_at_500_bytes (s : SlackNotifier) (event : ChangeEvent) (out : Outbox) :
  enabled s = true → notifiable event = true →
  ∃ att : slackAttachment,
    (NotifyChange respond s event out).1
    = out ++ [(webhookURL s, {| msgText := ""; Attachments := [att] |})]
    ∧ Color att = (if String.eqb (Action event) "MODIFIED" then "warning" else "danger")
    ∧ (String.length (Text att) ≤ 525)%nat
    ∧ (Diff event = "" → Text att = "")
    ∧ (Diff event ≠ "" → (String.length (Diff event) ≤ 500)%nat →
       Text att = "```" +:+ fmt.nl +:+ Diff event +:+ fmt.nl +:+ "```")
    ∧ ((500 < String.length (Diff event))%nat →
       Text att = "```" +:+ fmt.nl +:+ substring 0 500 (Diff event) +:+ "..." +:+ fmt.nl
                  +:+ "_(truncated)_" +:+ fmt.nl +:+ "```").
Proof.
  intros Hen Hact. unfold NotifyChange. rewrite Hen. cbn [negb].
  unfold notifiable in Hact.
  replace (negb (String.eqb (Action event) "MODIFIED")
           && negb (String.eqb (Action event) "DELETED")) with false
    by (symmetry; rewrite <- negb_orb, Hact; reflexivity).
  eexists. rewrite sendMessage_posts_once. split; [reflexivity|].
  cbn [Color Text]. split.
  { unfold getColorForAction. apply orb_prop in Hact.
    destruct (String.eqb (Action event) "MODIFIED") eqn:Hm.
    - apply String.eqb_eq in Hm. by rewrite Hm.
    - destruct Hact as [Hd|Hd]; [discriminate|]. apply String.eqb_eq in Hd. by rewrite Hd. }
  destruct (String.eqb_spec (Diff event) "") as [Hempty|Hdiff].
  { split; [cbn [String.length]; lia|]. split; [done|]. split; [done|].
    rewrite Hempty. cbn [String.length]. intros H. by apply Nat.nlt_0_r in H. }
  destruct (Nat.ltb_spec 500 (String.length (Diff event))) as [Hlong|Hshort].
  - split.
    + rewrite !string_length_app, string_length_substring.
      unfold fmt.nl. cbn [String.length]. lia.
    + split; [done|]. split; [lia|]. intros _.
      generalize (substring 0 500 (Diff event)). intros d.
      rewrite !string_app_assoc. reflexivity.
  - split.
    + rewrite !string_length_app. unfold fmt.nl. cbn [String.length]. lia.
    + split; [done|]. split; [done|lia].
Qed.

End NotifierMessage.

Lemma NotifyChange_cuts_diff_at_500_bytes_witness :
  let s := notifier.NewSlackNotifier "https://hooks.example/T0" in
  let event := Sample.row 2 (UTC (30 * Sample.day)) "Deployment" "web" "MODIFIED"
                 "Scaled up: 2 → 4 replicas" in
  let respond := λ (_ : string) (_ : notifier.slackMessage), notifier.Response 200 in
  notifier.enabled s = true ∧ notifiable event = true
  ∧ ∃ att : notifier.slackAttachment,
      (notifier.NotifyChange respond s event []).1
      = [] ++ [(notifier.webhookURL s,
                {| notifier.msgText := ""; notifier.Attachments := [att] |})]
      ∧ notifier.Color att
        = (if String.eqb (storage.Action event) "MODIFIED" then "warning" else "danger")
      ∧ (String.length (notifier.Text att) ≤ 525)%nat
      ∧ (storage.Diff event = "" → notifier.Text att = "")
      ∧ (storage.Diff event ≠ "" → (String.length (storage.Diff event) ≤ 500)%nat →
         notifier.Text att = "```" +:+ fmt.nl +:+ storage.Diff event +:+ fmt.nl +:+ "```")
      ∧ ((500 < String.length (storage.Diff event))%nat →
         notifier.Text att
         = "```" +:+ fmt.nl +:+ substring 0 500 (storage.Diff event) +:+ "..." +:+ fmt.nl
           +:+ "_(truncated)_" +:+ fmt.nl +:+ "```").
Proof.
  intros s event respond. split; [reflexivity|]. split; [reflexivity|].
  exact (NotifyChange_cuts_diff_at_500_bytes respond s event [] eq_refl eq_refl).
Defined.

(** * Further properties of the detectors *)

Section Detectors.

Import storage corev1 appsv1 networkingv1 batchv1 watcher.

Lemma app_nil_both {A} (l1 l2 : list A) : l1 ++ l2 = [] ↔ l1 = [] ∧ l2 = [].
Proof. destruct l1; cbn; split; (done || (intros [? ?]; done) || idtac); intros H; by inversion H. Qed.

Lemma first_change_none (changes : list string) :
  (match changes with [] => (false, "") | first :: _ => (true, first) end).1 = false
  ↔ changes = [].
Proof. destruct changes; cbn; split; (done || discriminate). Qed.

Lemma report_none (title : string) (changes : list string) :
  (report title changes).1 = false ↔ changes = [].
Proof. unfold report. destruct changes; cbn; split; (done || discriminate). Qed.

Lemma report_nil (title : string) : report title [] = (false, "").
Proof. reflexivity. Qed.

Lemma if_negb_nil {A} (b : bool) (x : A) : (if negb b then [x] else []) = [] ↔ b = true.
Proof. destruct b; cbn; split; (done || discriminate). Qed.

Lemma if_orb_nil {A} (a b : bool) (x : A) :
  (if negb a || negb b then [x] else []) = [] ↔ a = true ∧ b = true.
Proof. destruct a, b; cbn; split; (done || (intros [? ?]; discriminate) || discriminate). Qed.

(** X7.  The Deployment detector reports no change exactly when the two
    snapshots have the same replica count (a nil pointer counting as 0), the
    same strategy type and, when both have a container, first containers with
    the same image, the same cpu and memory limits and requests, and the same
    number of environment variables.  Nothing else of a Deployment is
    compared: not the other containers, nor the values of the variables. *)
Theorem detectMeaningfulChanges_none_iff (oldDep newDep : Deployment.t) :
  (detectMeaningfulChanges oldDep newDep).1 = false
  ↔ replicasOf oldDep = replicasOf newDep
    ∧ firstContainersAgree (podContainers (DeploymentSpec.Template (Deployment.Spec oldDep)))
                           (podContainers (DeploymentSpec.Template (Deployment.Spec newDep)))
    ∧ DeploymentSpec.Strategy_Type (Deployment.Spec oldDep)
      = DeploymentSpec.Strategy_Type (Deployment.Spec newDep).
Proof.
  unfold detectMeaningfulChanges, replicasOf, firstContainersAgree, podContainers.
  rewrite first_change_none.
  set (o := default 0 _). set (n := default 0 _).
  rewrite !app_nil_both, if_negb_nil, String.eqb_eq.
  assert ((if negb (o =? n)
           then if o <? n
                then ["Scaled up: " +:+ fmt.d o +:+ " → " +:+ fmt.d n +:+ " replicas"]
                else ["Scaled down: " +:+ fmt.d o +:+ " → " +:+ fmt.d n +:+ " replicas"]
           else []) = [] ↔ o = n) as ->.
  { destruct (Z.eqb_spec o n); cbn; [tauto|]. destruct (o <? n); split; (done || discriminate). }
  destruct (PodSpec.Containers (PodTemplateSpec.Spec (DeploymentSpec.Template (Deployment.Spec oldDep))))
    as [|c1 l1],
    (PodSpec.Containers (PodTemplateSpec.Spec (DeploymentSpec.Template (Deployment.Spec newDep))))
    as [|c2 l2]; try tauto.
  rewrite !app_nil_both, !if_negb_nil, !if_orb_nil, String.eqb_eq, Nat.eqb_eq.
  unfold resource.Equal. rewrite !Z.eqb_eq. tauto.
Qed.

Lemma nil_iff_no_elem {A} (l : list A) : l = [] ↔ ∀ x, x ∉ l.
Proof.
  split; [intros -> x Hx; by apply elem_of_nil in Hx|].
  destruct l as [|x l]; [done|]. intros H. exfalso. apply (H x). by left.
Qed.

Lemma length_zero_nil {A} (l : list A) : (length l =? 0)%nat = true ↔ l = [].
Proof. destruct l; cbn; split; (done || discriminate). Qed.

(** ** ConfigMaps and Secrets *)

Lemma detectConfigMapChanges_verdict (oldCM newCM : ConfigMap.t) :
  (detectConfigMapChanges oldCM newCM).1 = false
  ↔ List.filter (λ k, negb (inKeys (keySet (ConfigMap.Data oldCM)) k))
                (rangeKeys (ConfigMap.Data newCM)) = []
    ∧ List.filter (λ k, negb (inKeys (keySet (ConfigMap.Data newCM)) k))
                  (rangeKeys (ConfigMap.Data oldCM)) = []
    ∧ (List.filter (changedEntry (ConfigMap.Data oldCM))
                   (map_to_list (ConfigMap.Data newCM))).*1 = [].
Proof.
  unfold detectConfigMapChanges. rewrite modified_entries.
  set (added := List.filter _ (rangeKeys (ConfigMap.Data newCM))).
  set (removed := List.filter _ (rangeKeys (ConfigMap.Data oldCM))).
  set (entries := List.filter (changedEntry _) _).
  destruct added, removed, entries; cbn; split; try done; try discriminate;
    intros (? & ? & ?); discriminate.
Qed.

Lemma detectConfigMapChanges_same_data (oldCM newCM : ConfigMap.t) :
  ConfigMap.Data oldCM = ConfigMap.Data newCM →
  detectConfigMapChanges oldCM newCM = (false, "").
Proof.
  intros Hdata.
  assert ((detectConfigMapChanges oldCM newCM).1 = false) as H.
  { apply detectConfigMapChanges_verdict. rewrite Hdata.
    destruct (missing_keys_spec (ConfigMap.Data newCM) (ConfigMap.Data newCM)) as [_ Hmiss].
    repeat split; apply nil_iff_no_elem; intros k Hk.
    - apply Hmiss in Hk as [[v Hv] Hnone]. congruence.
    - apply Hmiss in Hk as [[v Hv] Hnone]. congruence.
    - apply changed_keys_spec in Hk as (a & b & Ha & Hb & Hne). congruence. }
  revert H. unfold detectConfigMapChanges. by destruct (_ && _).
Qed.

(** X8.  The ConfigMap detector reports a change exactly when the data of
    the two snapshots differ: some key was added, removed, or changed value.
    Labels, annotations and every other field are not looked at. *)
Theorem detectConfigMapChanges_none_iff (oldCM newCM : ConfigMap.t) :
  (detectConfigMapChanges oldCM newCM).1 = false
  ↔ ConfigMap.Data oldCM = ConfigMap.Data newCM.
Proof.
  split; [|intros H; by rewrite (detectConfigMapChanges_same_data _ _ H)].
  rewrite detectConfigMapChanges_verdict, !nil_iff_no_elem.
  intros (Hadd & Hrem & Hmod). apply map_eq. intros k.
  destruct (missing_keys_spec (ConfigMap.Data newCM) (ConfigMap.Data oldCM)) as [_ Ha].
  destruct (missing_keys_spec (ConfigMap.Data oldCM) (ConfigMap.Data newCM)) as [_ Hr].
  destruct (ConfigMap.Data oldCM !! k) as [a|] eqn:Ho,
           (ConfigMap.Data newCM !! k) as [b|] eqn:Hn; try reflexivity.
  - destruct (decide (a = b)) as [->|Hne]; [reflexivity|].
    exfalso. apply (Hmod k). apply changed_keys_spec. eauto.
  - exfalso. apply (Hrem k). apply Hr. rewrite Ho. eauto.
  - exfalso. apply (Hadd k). apply Ha. rewrite Hn. eauto.
Qed.

Lemma valueChanged_keys_spec (o n : gmap string (list Byte.byte)) (k : string) :
  k ∈ List.filter (valueChanged o n) (rangeKeys n)
  ↔ ∃ a b, o !! k = Some a ∧ n !! k = Some b ∧ a ≠ b.
Proof.
  rewrite list_elem_of_In, filter_In, <- list_elem_of_In, elem_of_rangeKeys.
  unfold valueChanged. split.
  - intros [[b Hb] Hch]. rewrite Hb in Hch. destruct (o !! k) as [a|]; [|discriminate].
    exists a, b. repeat split; auto. intros ->.
    apply negb_true_iff in Hch. pose proof (proj2 (string_of_list_byte_eqb b b) eq_refl). congruence.
  - intros (a & b & -> & -> & Hne). split; [eauto|].
    apply negb_true_iff. destruct (String.eqb _ _) eqn:He; [|reflexivity].
    apply string_of_list_byte_eqb in He. contradiction.
Qed.

Lemma detectSecretChanges_verdict (oldSecret newSecret : Secret.t) :
  (detectSecretChanges oldSecret newSecret).1 = false
  ↔ Secret.Type_ oldSecret = Secret.Type_ newSecret
    ∧ List.filter (λ k, negb (inKeys (keySet (Secret.Data oldSecret)) k))
                  (rangeKeys (Secret.Data newSecret)) = []
    ∧ List.filter (λ k, negb (inKeys (keySet (Secret.Data newSecret)) k))
                  (rangeKeys (Secret.Data oldSecret)) = []
    ∧ List.filter (valueChanged (Secret.Data oldSecret) (Secret.Data newSecret))
                  (rangeKeys (Secret.Data newSecret)) = [].
Proof.
  unfold detectSecretChanges. rewrite modifiedKeys_by_key.
  destruct (String.eqb_spec (Secret.Type_ oldSecret) (Secret.Type_ newSecret)) as [Ht|Ht];
    cbn [negb]; [|cbn; split; [discriminate|tauto]].
  set (added := List.filter _ (rangeKeys (Secret.Data newSecret))).
  set (removed := List.filter _ (rangeKeys (Secret.Data oldSecret))).
  set (changed := List.filter (valueChanged _ _) _).
  destruct added, removed, changed; cbn; split; try done; try discriminate;
    intros (? & ? & ? & ?); discriminate.
Qed.

Lemma detectSecretChanges_same_data (oldSecret newSecret : Secret.t) :
  Secret.Type_ oldSecret = Secret.Type_ newSecret →
  Secret.Data oldSecret = Secret.Data newSecret →
  detectSecretChanges oldSecret newSecret = (false, "").
Proof.
  intros Htype Hdata.
  assert ((detectSecretChanges oldSecret newSecret).1 = false) as H.
  { apply detectSecretChanges_verdict. rewrite Hdata. split; [exact Htype|].
    destruct (missing_keys_spec (Secret.Data newSecret) (Secret.Data newSecret)) as [_ Hmiss].
    repeat split; apply nil_iff_no_elem; intros k Hk.
    - apply Hmiss in Hk as [[v Hv] Hnone]. congruence.
    - apply Hmiss in Hk as [[v Hv] Hnone]. congruence.
    - apply valueChanged_keys_spec in Hk as (a & b & Ha & Hb & Hne). congruence. }
  revert H. unfold detectSecretChanges.
  destruct (negb _); [discriminate|]. destruct (_ && _); [done|].
  repeat (destruct (_ <? _)%nat; [discriminate|]). done.
Qed.

(** X9.  The Secret detector reports a change exactly when the type or the
    data of the two snapshots differ: a key added, removed, or with other
    bytes.  No other field of a Secret is looked at. *)
Theorem detectSecretChanges_none_iff (oldSecret newSecret : Secret.t) :
  (detectSecretChanges oldSecret newSecret).1 = false
  ↔ Secret.Type_ oldSecret = Secret.Type_ newSecret
    ∧ Secret.Data oldSecret = Secret.Data newSecret.
Proof.
  split; [|intros [Ht Hd]; by rewrite (detectSecretChanges_same_data _ _ Ht Hd)].
  rewrite detectSecretChanges_verdict, !nil_iff_no_elem.
  intros (Htype & Hadd & Hrem & Hmod). split; [exact Htype|]. apply map_eq. intros k.
  destruct (missing_keys_spec (Secret.Data newSecret) (Secret.Data oldSecret)) as [_ Ha].
  destruct (missing_keys_spec (Secret.Data oldSecret) (Secret.Data newSecret)) as [_ Hr].
  destruct (Secret.Data oldSecret !! k) as [a|] eqn:Ho,
           (Secret.Data newSecret !! k) as [b|] eqn:Hn; try reflexivity.
  - destruct (String.eqb (string_of_list_byte a) (string_of_list_byte b)) eqn:Hab.
    + apply string_of_list_byte_eqb in Hab. by rewrite Hab.
    + exfalso. apply (Hmod k). apply valueChanged_keys_spec. exists a, b.
      repeat split; auto. intros ->.
      pose proof (proj2 (string_of_list_byte_eqb b b) eq_refl). congruence.
  - exfalso. apply (Hrem k). apply Hr. rewrite Ho. eauto.
  - exfalso. apply (Hadd k). apply Ha. rewrite Hn. eauto.
Qed.

End Detectors.

Section ImageAndAnnotationChanges.

Import storage corev1 appsv1 networkingv1 batchv1 watcher.

Lemma containerImageChanges_agree (olds news : list Container.t) :
  (∀ i co cn, olds !! i = Some co → news !! i = Some cn →
              Container.Image co = Container.Image cn) →
  containerImageChanges olds news = [].
Proof.
  revert olds. induction news as [|n news IH]; intros [|o olds] H; try reflexivity.
  cbn [containerImageChanges]. rewrite (H 0%nat o n eq_refl eq_refl), String.eqb_refl.
  cbn [negb app]. apply IH. intros i co cn Ho Hn. exact (H (S i) co cn Ho Hn).
Qed.

Lemma length_containerImageChanges (olds news : list Container.t) :
  (length (containerImageChanges olds news) ≤ Nat.min (length olds) (length news))%nat.
Proof.
  revert olds. induction news as [|n news IH]; intros [|o olds]; cbn; try lia.
  specialize (IH olds). rewrite length_app. destruct (negb _); cbn; lia.
Qed.

(** X10.  The image comparison shared by the StatefulSet, DaemonSet, CronJob
    and Job detectors goes index by index: it yields no line exactly when
    every container that has a counterpart at the same index in the other
    snapshot has the same image as it, and never more lines than the shorter
    of the two lists has containers.  A container added to or removed from
    the end of the list is therefore not reported. *)
Theorem imageChanges_none_iff (olds news : list Container.t) :
  (imageChanges olds news = []
   ↔ ∀ i co cn, olds !! i = Some co → news !! i = Some cn →
                Container.Image co = Container.Image cn)
  ∧ (length (imageChanges olds news) ≤ Nat.min (length olds) (length news))%nat
  ∧ ∀ extra, imageChanges olds (olds ++ extra) = [] ∧ imageChanges (olds ++ extra) olds = [].
Proof.
  assert (∀ a b, (∀ i co cn, a !! i = Some co → b !! i = Some cn →
                             Container.Image co = Container.Image cn) →
                 imageChanges a b = []) as Hagree.
  { intros a b H. unfold imageChanges. rewrite (containerImageChanges_agree a b H).
    by destruct (_ && _). }
  split; [split|split].
  - intros Hnil i co cn Ho Hn.
    destruct (String.eqb_spec (Container.Image co) (Container.Image cn)) as [|Hne]; [done|].
    by destruct (imageChanges_differ olds news i co cn Ho Hn Hne).
  - apply Hagree.
  - unfold imageChanges. destruct (_ && _); [apply length_containerImageChanges|cbn; lia].
  - intros extra. split; apply Hagree; intros i co cn Ho Hn.
    + rewrite (lookup_app_l_Some _ _ _ _ Ho) in Hn. congruence.
    + rewrite (lookup_app_l_Some _ _ _ _ Hn) in Ho. congruence.
Qed.

Lemma annotationChange_none (oldAnn newAnn : gmap string string) (key : string) :
  (let oldVal := default "" (oldAnn !! key) in
   let oldExists := bool_decide (is_Some (oldAnn !! key)) in
   let newVal := default "" (newAnn !! key) in
   let newExists := bool_decide (is_Some (newAnn !! key)) in
   if negb (Bool.eqb oldExists newExists) || (oldExists && negb (String.eqb oldVal newVal))
   then
     if newExists
     then ["Annotation " +:+ key +:+ ": '" +:+ oldVal +:+ "' → '" +:+ newVal +:+ "'"]
     else ["Annotation " +:+ key +:+ " removed"]
   else []) = []
  ↔ oldAnn !! key = newAnn !! key.
Proof.
  destruct (oldAnn !! key) as [a|], (newAnn !! key) as [b|]; cbn;
    try (split; (done || discriminate)).
  destruct (String.eqb_spec a b) as [->|Hne]; cbn; split; try done; try discriminate.
  intros [= ->]. done.
Qed.

Lemma annotationChanges_none_iff (oldAnn newAnn : gmap string string) :
  annotationChanges oldAnn newAnn = []
  ↔ ∀ key, key ∈ importantAnnotations → oldAnn !! key = newAnn !! key.
Proof.
  unfold annotationChanges, importantAnnotations. cbn [flat_map].
  rewrite !app_nil_both, !annotationChange_none. split.
  - intros (H1 & H2 & H3 & H4 & _) key Hkey.
    repeat (apply elem_of_cons in Hkey as [->|Hkey]; [assumption|]).
    by apply elem_of_nil in Hkey.
  - intros H. repeat split; apply H; repeat constructor.
Qed.

Lemma pathChanges_same (paths : list HTTPIngressPath.t) : pathChanges paths paths = [].
Proof.
  induction paths as [|p paths IH]; [reflexivity|]. cbn [pathChanges]. rewrite IH.
  destruct (HTTPIngressPath.Backend_Service p); [|reflexivity].
  by rewrite String.eqb_refl, Z.eqb_refl.
Qed.

Lemma ruleChanges_same (rules : list IngressRule.t) : ruleChanges rules rules = [].
Proof.
  induction rules as [|r rules IH]; [reflexivity|]. cbn [ruleChanges].
  rewrite IH, String.eqb_refl. destruct (IngressRule.HTTP r); [|reflexivity].
  by rewrite Nat.eqb_refl, pathChanges_same.
Qed.

(** X11.  Of an Ingress's annotations the detector compares four keys only,
    each by its whole name: the rewrite target, the cluster issuer, the
    ingress class and [konghq.com/].  For two snapshots with the same spec it
    reports a change exactly when one of these four is absent on one side or
    has another value; every other annotation may change unnoticed. *)
Theorem detectIngressChanges_annotations (oldIng newIng : Ingress.t) :
  Ingress.Spec oldIng = Ingress.Spec newIng →
  ((detectIngressChanges oldIng newIng).1 = false
   ↔ ∀ key, key ∈ importantAnnotations →
            metav1.Annotations (Ingress.ObjectMeta oldIng) !! key
            = metav1.Annotations (Ingress.ObjectMeta newIng) !! key).
Proof.
  intros Hspec. unfold detectIngressChanges. rewrite Hspec, !Nat.eqb_refl, ruleChanges_same.
  cbn [negb]. rewrite report_none, !app_nil_r. apply annotationChanges_none_iff.
Qed.

End ImageAndAnnotationChanges.

Lemma detectIngressChanges_annotations_witness :
  let oldIng := SampleIngress.site {[ "team" := "web" ]} in
  let newIng := SampleIngress.site {[ "team" := "platform" ]} in
  networkingv1.Ingress.Spec oldIng = networkingv1.Ingress.Spec newIng
  ∧ ((watcher.detectIngressChanges oldIng newIng).1 = false
     ↔ ∀ key, key ∈ watcher.importantAnnotations →
              metav1.Annotations (networkingv1.Ingress.ObjectMeta oldIng) !! key
              = metav1.Annotations (networkingv1.Ingress.ObjectMeta newIng) !! key).
Proof.
  intros oldIng newIng. split; [reflexivity|].
  exact (detectIngressChanges_annotations oldIng newIng eq_refl).
Defined.

(** * Further properties of the handlers *)

Section Deliveries.

Import storage corev1 appsv1 networkingv1 batchv1 watcher.

Variable json_string : string → string.

Lemma detectMeaningfulChanges_same (d : Deployment.t) :
  detectMeaningfulChanges d d = (false, "").
Proof.
  unfold detectMeaningfulChanges. rewrite Z.eqb_refl, String.eqb_refl. cbn [negb app].
  destruct (PodSpec.Containers _) as [|c l]; [reflexivity|].
  unfold resource.Equal. by rewrite String.eqb_refl, !Z.eqb_refl, Nat.eqb_refl.
Qed.

Lemma portChanges_same (ports : list ServicePort.t) : portChanges ports ports = [].
Proof.
  induction ports as [|p ports IH]; [reflexivity|]. cbn [portChanges].
  by rewrite IH, !Z.eqb_refl.
Qed.

Lemma detectServiceChanges_same (svc : Service.t) : detectServiceChanges svc svc = (false, "").
Proof.
  unfold detectServiceChanges.
  by rewrite !String.eqb_refl, Nat.eqb_refl, portChanges_same.
Qed.

Lemma detectIngressChanges_same (ing : Ingress.t) : detectIngressChanges ing ing = (false, "").
Proof.
  unfold detectIngressChanges. rewrite !Nat.eqb_refl, ruleChanges_same.
  by rewrite (proj2 (annotationChanges_none_iff _ _) (λ _ _, eq_refl)).
Qed.

Lemma detectStatefulSetChanges_same (ss : StatefulSet.t) :
  detectStatefulSetChanges ss ss = (false, "").
Proof.
  unfold detectStatefulSetChanges.
  by rewrite pointerChange_same, imageChanges_same, !String.eqb_refl, Nat.eqb_refl.
Qed.

Lemma detectDaemonSetChanges_same (ds : DaemonSet.t) :
  detectDaemonSetChanges ds ds = (false, "").
Proof.
  unfold detectDaemonSetChanges. by rewrite imageChanges_same, !String.eqb_refl.
Qed.

Lemma detectCronJobChanges_same (cj : CronJob.t) : detectCronJobChanges cj cj = (false, "").
Proof.
  unfold detectCronJobChanges.
  rewrite imageChanges_same, !String.eqb_refl. by destruct (CronJobSpec.Suspend _) as [[|]|].
Qed.

Lemma detectJobChanges_same (job : Job.t) : detectJobChanges job job = (false, "").
Proof. unfold detectJobChanges. by rewrite (jobChanges_same job job eq_refl). Qed.

Lemma detector_same (k : ResourceKind) (obj : object k) : detector k obj obj = (false, "").
Proof.
  destruct k; cbn [detector object] in *.
  - apply detectMeaningfulChanges_same.
  - by apply detectConfigMapChanges_same_data.
  - by apply detectSecretChanges_same_data.
  - apply detectServiceChanges_same.
  - apply detectIngressChanges_same.
  - apply detectStatefulSetChanges_same.
  - apply detectDaemonSetChanges_same.
  - apply detectCronJobChanges_same.
  - apply detectJobChanges_same.
Qed.

(** X12.  An update that delivers the same snapshot twice, as the periodic
    resync of an informer does, leaves the watcher as it is, for every kind,
    namespace and state of the store: each detector reports no change between
    a snapshot and itself, so nothing is stored and no task is started. *)
Theorem resync_creates_nothing (k : ResourceKind) (w : Watcher) (now : Time) (obj : object k) :
  detector k obj obj = (false, "")
  ∧ deliver json_string k w now (UpdateFunc obj obj) = Some w.
Proof.
  split; [apply detector_same|].
  pose proof (detector_same k obj) as Hsame.
  destruct k; cbn [deliver handler detector object] in *; unfold_handler; cbv beta iota zeta;
    rewrite Hsame; cbv beta iota zeta; cbn [negb];
    repeat match goal with
           | |- context [if ?b then _ else _] => destruct b
           end; reflexivity.
Qed.

Lemma handler_None_iff (k : ResourceKind) (w : Watcher) (now : Time) (t : watch.EventType)
      (oldPtr newPtr : option (object k)) :
  handler json_string k w now t oldPtr newPtr = None ↔ oldPtr = None ∧ newPtr = None.
Proof.
  destruct k; cbn [handler object] in *; unfold_handler;
    destruct oldPtr as [o|], newPtr as [n|]; cbv beta iota zeta;
    try (split; [done|intros [? ?]; done]);
    (split; [|intros [? ?]; discriminate]);
    repeat match goal with
           | |- context [let '(_, _) := ?x in _] => destruct x as [[|] ?]
           | |- context [if ?b then _ else _] => destruct b
           | |- context [match t with _ => _ end] => destruct t
           end; discriminate.
Qed.

Lemma assertPointer_nil (k : ResourceKind) (obj : Object) :
  assertPointer k obj = Some None ↔ obj = Nil.
Proof.
  destruct obj as [|k' x|key last]; cbn [assertPointer]; [done| |done].
  destruct (sameType k k' x); cbn; split; intros; discriminate.
Qed.

Lemma assertPointer_panics (k : ResourceKind) (obj : Object) :
  assertPointer k obj = None ↔ obj ≠ Nil ∧ ∀ x, obj ≠ Pointer k x.
Proof.
  destruct obj as [|k' x|key last]; cbn [assertPointer].
  - split; [discriminate|]. by intros [H _].
  - destruct k, k'; cbn;
      try (split; [discriminate|intros [_ H]; by destruct (H x)]);
      (split; [|done]); intros _; (split; [discriminate|]); intros y Hy;
      apply (f_equal (λ o, match o with Pointer k'' _ => Some k'' | _ => None end)) in Hy;
      discriminate.
  - split; [|done]. intros _. split; [discriminate|]. intros y. discriminate.
Qed.

(** X13.  A handler fails in two cases.  Its type assertion panics when an
    object that is not nil is not a pointer of the handler's own kind: any
    deletion that the informer reports with the tombstone
    [cache.DeletedFinalStateUnknown] ends so.  And it reads the namespace
    through a nil pointer when it is called with neither an old nor a new
    object.  A callback handed pointers of the watched kind never fails. *)
Theorem handler_fails_on_tombstone_or_no_object (k : ResourceKind) (w : Watcher) (now : Time)
        (t : watch.EventType) (oldObj newObj : Object) (d : Delivery (object k))
        (key : string) (last : Object) :
  (handleEvent json_string k w now t oldObj newObj = None
   ↔ foreign k oldObj ∨ foreign k newObj ∨ (oldObj = Nil ∧ newObj = Nil))
  ∧ foreign k (DeletedFinalStateUnknown key last)
  ∧ callback json_string k w now (DeleteFunc (DeletedFinalStateUnknown key last)) = None
  ∧ is_Some (callback json_string k w now (pointers k d)).
Proof.
  split; [|split; [by apply assertPointer_panics|split; [reflexivity|]]].
  - unfold handleEvent, foreign.
    rewrite <- (assertPointer_panics k oldObj), <- (assertPointer_panics k newObj).
    rewrite <- (assertPointer_nil k oldObj), <- (assertPointer_nil k newObj).
    destruct (assertPointer k newObj) as [newPtr|], (assertPointer k oldObj) as [oldPtr|];
      try (split; [intros _|done]; auto).
    rewrite handler_None_iff. split.
    + intros [-> ->]. right; right. done.
    + intros [H|[H|[H1 H2]]]; try discriminate. split; congruence.
  - rewrite callback_pointers.
    destruct (deliver json_string k w now d) eqn:Hd; [eauto|].
    destruct d; cbn [deliver] in Hd; apply handler_None_iff in Hd as [? ?]; discriminate.
Qed.

End Deliveries.

Section Outcomes.

Import storage corev1 appsv1 networkingv1 batchv1 watcher.

Variable json_string : string → string.

Lemma outcome_nothing (w : Watcher) (P : ChangeEvent → Prop) :
  ∃ w' es, Some w = Some w' ∧ appended w w' es ∧ (length es ≤ 1)%nat ∧ Forall P es.
Proof.
  exists w, []. unfold appended. rewrite !app_nil_r. cbn [length].
  split_and!; try done; try lia. by destruct (notifier.IsEnabled _); rewrite app_nil_r.
Qed.

Lemma outcome_saved (w : Watcher) (e : ChangeEvent) (P : ChangeEvent → Prop) :
  P (set_ID e (last_id (watcher.storage w) + 1)) →
  ∃ w' es, Some (saveAndNotify w e).1 = Some w' ∧ appended w w' es
           ∧ (length es ≤ 1)%nat ∧ Forall P es.
Proof.
  intros HP. unfold saveAndNotify, SaveEvent, appended.
  destruct (closed (watcher.storage w)) eqn:Hc; cbn [fst snd].
  - eexists _, []. split; [reflexivity|].
    cbn [watcher.storage watcher.notifier goroutines length]. rewrite !app_nil_r.
    split_and!; try done; try lia. by destruct (notifier.IsEnabled _); rewrite app_nil_r.
  - eexists _, [_]. split; [reflexivity|].
    cbn [watcher.storage watcher.notifier goroutines closed change_events last_id length].
    split_and!; try done; try lia; [|by repeat constructor].
    by destruct (notifier.IsEnabled _); rewrite ?app_nil_r.
Qed.

Ltac outcome_cases :=
  repeat match goal with
         | |- context [let '(_, _) := ?x in _] => destruct x as [[|] ?]
         | |- context [if systemNamespace ?s then _ else _] => destruct (systemNamespace s)
         | |- context [if systemSecret ?s then _ else _] => destruct (systemSecret s)
         | |- context [if ?a || ?b then _ else _] => destruct (a || b)
         end;
  cbn [negb];
  first [ apply outcome_nothing | apply outcome_saved; cbn; repeat split ].

Lemma deliver_outcome (k : ResourceKind) (w : Watcher) (now : Time) (d : Delivery (object k)) :
  ∃ (w' : Watcher) (es : list ChangeEvent),
    deliver json_string k w now d = Some w'
    ∧ appended w w' es
    ∧ (length es ≤ 1)%nat
    ∧ Forall (λ e, Timestamp e = now
                   ∧ ID e = last_id (watcher.storage w) + 1
                   ∧ Kind e = kindName k
                   ∧ Action e = actionOf d
                   ∧ Namespace e = namespaceOf k (subject d)
                   ∧ Name e = metav1.Name (objectMeta k (subject d))) es.
Proof.
  unfold namespaceOf.
  destruct k; destruct d as [obj|oldObj newObj|obj];
    cbn [deliver handler subject objectMeta object kindName actionOf];
    unfold_handler; cbv beta iota zeta; outcome_cases.
Qed.

(** X14.  Whatever is delivered, for every kind and every state of the
    store, the watcher only ever appends: the rows the table had stay as they
    are and in place, at most one row is added, stamped with the time of the
    delivery and given the next key, and the notifier is not touched.  When
    the notifier is enabled the new row, and nothing else, is queued for
    notification.  The keys of the table stay increasing and never reused. *)
Theorem deliveries_only_append (k : ResourceKind) (w : Watcher) (now : Time)
        (d : Delivery (object k)) :
  ∃ (w' : Watcher) (es : list ChangeEvent),
    deliver json_string k w now d = Some w'
    ∧ appended w w' es
    ∧ (length es ≤ 1)%nat
    ∧ Forall (λ e, Timestamp e = now ∧ ID e = last_id (watcher.storage w) + 1
                   ∧ Kind e = kindName k ∧ Action e = actionOf d) es
    ∧ (keysOrdered (watcher.storage w) → keysOrdered (watcher.storage w')).
Proof.
  destruct (deliver_outcome k w now d) as (w' & es & Hd & Happ & Hlen & Hes).
  exists w', es. split; [exact Hd|]. split; [exact Happ|]. split; [exact Hlen|].
  split; [eapply Forall_impl; [exact Hes|]; cbn; tauto|].
  destruct Happ as (_ & _ & Hrows & Hlast & _). unfold keysOrdered.
  rewrite Hrows, Hlast. intros [Hsorted Hbound].
  destruct es as [|e [|e' es]]; [| |cbn in Hlen; lia].
  - rewrite app_nil_r. cbn. rewrite Z.add_0_r. done.
  - apply Forall_cons in Hes as [(_ & Hid & _) _]. cbn [length]. split.
    + rewrite fmap_app. cbn [fmap list_fmap]. rewrite Hid.
      apply StronglySorted_snoc_lt; [exact Hsorted|].
      apply Forall_fmap. eapply Forall_impl; [exact Hbound|]. cbn. intros; lia.
    + apply Forall_app. split.
      * eapply Forall_impl; [exact Hbound|]. cbn. intros; lia.
      * repeat constructor. lia.
Qed.

Lemma NotifyChange_added (respond : string → notifier.slackMessage → notifier.PostResult)
      (s : notifier.SlackNotifier) (e : ChangeEvent) (out : notifier.Outbox) :
  Action e = "ADDED" → notifier.NotifyChange respond s e out = (out, None).
Proof. intros H. unfold notifier.NotifyChange. rewrite H. by destruct (notifier.enabled s). Qed.

Lemma NotifyChange_posts (respond : string → notifier.slackMessage → notifier.PostResult)
      (s : notifier.SlackNotifier) (e : ChangeEvent) (out : notifier.Outbox) :
  notifier.enabled s = true → Action e = "MODIFIED" ∨ Action e = "DELETED" →
  ∃ msg, (notifier.NotifyChange respond s e out).1 = out ++ [(notifier.webhookURL s, msg)].
Proof.
  intros Hen Hact. unfold notifier.NotifyChange. rewrite Hen.
  destruct Hact as [-> | ->]; cbn [negb andb String.eqb Ascii.eqb Bool.eqb];
    eexists; apply sendMessage_posts_once.
Qed.

(** X15.  From delivery to Slack: the tasks a delivery starts are the rows it
    stored, and none when the notifier is disabled.  Run against any
    webhook, the task of an added object sends nothing, and the task of an
    updated or deleted object sends exactly one request; so the creation of
    a resource is stored but never announced. *)
Theorem additions_are_stored_but_never_announced (k : ResourceKind) (w : Watcher) (now : Time)
        (d : Delivery (object k))
        (respond : string → notifier.slackMessage → notifier.PostResult)
        (out : notifier.Outbox) :
  ∃ (w' : Watcher) (es tasks : list ChangeEvent),
    deliver json_string k w now d = Some w'
    ∧ change_events (watcher.storage w') = change_events (watcher.storage w) ++ es
    ∧ goroutines w' = goroutines w ++ tasks
    ∧ tasks = (if notifier.IsEnabled (watcher.notifier w) then es else [])
    ∧ Forall (λ e, ∃ sent,
                runNotification respond w' e out = out ++ sent
                ∧ length sent = match d with AddFunc _ => 0%nat | _ => 1%nat end) tasks.
Proof.
  destruct (deliver_outcome k w now d) as (w' & es & Hd & Happ & Hlen & Hes).
  destruct Happ as (Hnot & _ & Hrows & _ & Htasks).
  exists w', es, (if notifier.IsEnabled (watcher.notifier w) then es else []).
  split; [exact Hd|]. split; [exact Hrows|]. split; [exact Htasks|]. split; [reflexivity|].
  destruct (notifier.IsEnabled (watcher.notifier w)) eqn:Hen; [|constructor].
  eapply Forall_impl; [exact Hes|]. cbn beta. intros e (_ & _ & _ & Hact & _).
  unfold runNotification. rewrite Hnot.
  destruct d as [obj|oldObj newObj|obj]; cbn [actionOf] in Hact.
  - exists []. rewrite (NotifyChange_added respond _ e out Hact), app_nil_r. done.
  - destruct (NotifyChange_posts respond (watcher.notifier w) e out Hen (or_introl Hact))
      as [msg ->]. by eexists [_].
  - destruct (NotifyChange_posts respond (watcher.notifier w) e out Hen (or_intror Hact))
      as [msg ->]. by eexists [_].
Qed.

Lemma ExtractImage_convertToMap (d : Deployment.t) :
  diff.ExtractImage (convertToMap d) = firstImage d.
Proof.
  unfold convertToMap, firstImage, podContainers, diff.ExtractImage, diff.object_at.
  cbn [diff.field String.eqb Ascii.eqb Bool.eqb].
  destruct (PodSpec.Containers _) as [|c l]; [reflexivity|].
  cbn [map]. unfold containerToJSON.
  destruct (String.eqb_spec (Container.Image c) "") as [Hempty|Hne]; cbn; congruence.
Qed.

(** X16.  Reading a Deployment back through its JSON form, [ExtractImage]
    yields the image of the first container, and the empty string when there
    is no container or the image is empty.  So the events of a Deployment
    carry: for an addition the first image of the object as image after and
    no image before; for an update the first images of the old and of the new
    snapshot; for a deletion no image at all. *)
Theorem deployment_events_carry_first_images (dep : Deployment.t) (w : Watcher) (now : Time)
        (d : Delivery (object KDeployment)) :
  diff.ExtractImage (convertToMap dep) = firstImage dep
  ∧ ∃ (w' : Watcher) (es : list ChangeEvent),
      deliver json_string KDeployment w now d = Some w'
      ∧ change_events (watcher.storage w') = change_events (watcher.storage w) ++ es
      ∧ Forall (λ e, ImageBefore e = match d with
                                     | UpdateFunc oldObj _ => firstImage oldObj
                                     | _ => ""
                                     end
                     ∧ ImageAfter e = match d with
                                      | AddFunc obj => firstImage obj
                                      | UpdateFunc _ newObj => firstImage newObj
                                      | DeleteFunc _ => ""
                                      end) es.
Proof.
  split; [apply ExtractImage_convertToMap|].
  assert (∃ w' es, deliver json_string KDeployment w now d = Some w' ∧ appended w w' es
                   ∧ (length es ≤ 1)%nat
                   ∧ Forall (λ e, ImageBefore e = match d with
                                                  | UpdateFunc oldObj _ => firstImage oldObj
                                                  | _ => ""
                                                  end
                                  ∧ ImageAfter e = match d with
                                                   | AddFunc obj => firstImage obj
                                                   | UpdateFunc _ newObj => firstImage newObj
                                                   | DeleteFunc _ => ""
                                                   end) es)
    as (w' & es & Hd & Happ & _ & Hes).
  { destruct d as [obj|oldObj newObj|obj]; cbn [deliver handler object] in *;
      unfold handleDeploymentEvent; cbv beta iota zeta;
      rewrite ?ExtractImage_convertToMap; outcome_cases. }
  exists w', es. split; [exact Hd|]. split; [|exact Hes]. by destruct Happ as (_ & _ & H & _).
Qed.

End Outcomes.

(** * Properties of the HTTP API *)

Section ApiProperties.

Import storage api.

Variable sql_like : string → string → bool.
Variable timestamp_text : Time → string.
Variable AddDate : Time → Z → Z → Z → Time.
Variable Atoi : string → option Z.
Variable ParseRFC3339 : string → option Time.

#[local] Existing Instance timestamp_desc_dec.
#[local] Existing Instance timestamp_desc_trans.
#[local] Existing Instance timestamp_desc_total.




Lemma length_filter_split {A} (p : A → bool) (l : list A) :
  (length (List.filter p l) + length (List.filter (λ x, negb (p x)) l))%nat = length l.
Proof.
  induction l as [|x l IH]; [reflexivity|]. cbn [List.filter].
  destruct (p x); cbn [negb length]; lia.
Qed.

(** X18.  The cleanup endpoint never runs with a retention below one day:
    a missing, unreadable, zero or negative [days] means 60.  On an open
    store it answers with the retention it used and the number of events it
    deleted, which is the number there were less the number left; the events
    left, in their order, are those whose timestamp the database does not
    find below the cut-off [now.AddDate(0, 0, -days)], comparing the texts
    of the two.  On a closed store it answers with status 500 and changes
    nothing. *)
Theorem cleanupOldEvents_retention_is_positive (s : Storage) (now : Time) (query : Values) :
  let days := retentionDays Atoi query in
  let cutoff := AddDate now 0 0 (wrap (- days)) in
  let s' := (cleanupOldEvents timestamp_text AddDate Atoi s now query).1 in
  1 ≤ days
  ∧ (days = 60 ∨ Atoi (Get query "days") = Some days)
  ∧ (days < 2 ^ 63 → cutoff = AddDate now 0 0 (- days))
  ∧ (if closed s
     then cleanupOldEvents timestamp_text AddDate Atoi s now query
          = (s, Error 500 ("failed to cleanup old events: " +:+ errClosed))
     else (cleanupOldEvents timestamp_text AddDate Atoi s now query).2
          = Cleanup (Z.of_nat (length (change_events s)) - Z.of_nat (length (change_events s')))
                    days "Cleanup completed successfully"
          ∧ change_events s'
            = List.filter (λ e, negb (String.ltb (timestamp_text (Timestamp e))
                                                 (timestamp_text cutoff)))
                          (change_events s)
          ∧ closed s' = false ∧ last_id s' = last_id s).
Proof.
  intros days cutoff s'.
  assert (1 ≤ days) as Hdays.
  { subst days. unfold retentionDays. destruct (String.eqb _ ""); [lia|].
    destruct (Atoi _) as [d|]; [|lia]. destruct (Z.ltb_spec 0 d); lia. }
  split; [exact Hdays|]. split; [|split].
  - subst days. unfold retentionDays. destruct (String.eqb _ ""); [by left|].
    destruct (Atoi _) as [d|]; [|by left]. destruct (Z.ltb_spec 0 d); [by right|by left].
  - intros Hmax. subst cutoff. f_equal. unfold wrap.
    rewrite Z.mod_small by lia. lia.
  - subst s'. unfold cleanupOldEvents, CleanupOldEvents. fold days. fold cutoff.
    destruct (closed s) eqn:Hc; [reflexivity|]. cbn [fst snd change_events closed last_id].
    split; [|done]. f_equal.
    pose proof (length_filter_split
                  (λ e, String.ltb (timestamp_text (Timestamp e)) (timestamp_text cutoff))
                  (change_events s)). lia.
Qed.

End ApiProperties.
